(** * ResolveNow backend: assignment engine, messaging and feedback

    A shallow embedding of [Project files/Backend/Schema[1].js]: the five
    Mongoose schemas, the document store they live in, and the Express
    route handlers of the complaint, assignment, messaging, feedback,
    authentication and user endpoints.

    Modelling conventions.
    - A collection is the list of its documents in natural (insertion)
      order; [find] and [findOne] are filters over that list.
    - An [ObjectId] is a number.  A request field that reaches a query
      filter is present and already cast; a field that is only stored may
      be missing from the body, which is [None] (JavaScript [undefined]).
    - A JavaScript [Number] that is only compared against bounds is a
      rational ([Qc]).
    - Every [await]ed store call is one atomic step.  Between two steps
      other requests may change the store: a handler runs against a list
      of interferences, one consumed before each step.  The empty list is
      a run without concurrent writers. *)

From Stdlib Require Import QArith_base Qcanon.
From stdpp Require Import gmap strings list fin_maps numbers.
From stdpp Require sorting pretty.

Open Scope string_scope.
Open Scope list_scope.
Open Scope nat_scope.

Abbreviation ObjectId := N.

(** ** Schemas (lines 3-67) *)

Record Attachment := {
  att_path : string;
  att_name : option string;
  att_originalName : option string
}.

Module User.
Record t := {
  _id : ObjectId;
  name : string;
  email : string;
  password : string;
  phone : string;
  userType : string;
  createdAt : Z
}.
End User.

Module Complaint.
Record t := {
  _id : ObjectId;
  userId : ObjectId;
  name : string;
  address : string;
  city : string;
  state : string;
  pincode : string;
  comment : string;
  attachments : list Attachment;
  status : string;
  createdAt : Z
}.

Definition set_status (st : string) (c : t) : t :=
  {| _id := _id c; userId := userId c; name := name c; address := address c;
     city := city c; state := state c; pincode := pincode c;
     comment := comment c; attachments := attachments c;
     status := st; createdAt := createdAt c |}.
End Complaint.

Module Assigned.
Record t := {
  _id : ObjectId;
  agentId : ObjectId;
  complaintId : ObjectId;
  agentName : string;
  status : string;
  assignedAt : Z
}.
End Assigned.

Module Message.
Record t := {
  _id : ObjectId;
  complaintId : ObjectId;
  name : string;
  message : string;
  attachments : list Attachment;
  read : bool;
  sentAt : Z
}.

Definition set_read (b : bool) (m : t) : t :=
  {| _id := _id m; complaintId := complaintId m; name := name m;
     message := message m; attachments := attachments m;
     read := b; sentAt := sentAt m |}.
End Message.

Module Feedback.
Record t := {
  _id : ObjectId;
  userId : ObjectId;
  complaintId : ObjectId;
  agentId : option ObjectId;
  rating : Qc;
  comment : option string;
  createdAt : Z
}.
End Feedback.

Module Agent.
(** [{ ...agent.toObject(), activeAssignments }], the password deselected *)
Record t := {
  _id : ObjectId;
  name : string;
  email : string;
  phone : string;
  userType : string;
  createdAt : Z;
  activeAssignments : nat
}.
End Agent.

(** ** The document store *)

Record Store := {
  users : list User.t;
  complaints : list Complaint.t;
  assigneds : list Assigned.t;
  messages : list Message.t;
  feedbacks : list Feedback.t;
  next_oid : N;     (* source of [new ObjectId()] *)
  clock : Z         (* [Date.now()], in seconds *)
}.

Definition with_complaints (cs : list Complaint.t) (s : Store) : Store :=
  {| users := users s; complaints := cs; assigneds := assigneds s;
     messages := messages s; feedbacks := feedbacks s;
     next_oid := next_oid s; clock := clock s |}.

Definition with_messages (ms : list Message.t) (s : Store) : Store :=
  {| users := users s; complaints := complaints s; assigneds := assigneds s;
     messages := ms; feedbacks := feedbacks s;
     next_oid := next_oid s; clock := clock s |}.

Definition insert_assigned (a : Assigned.t) (s : Store) : Store :=
  {| users := users s; complaints := complaints s;
     assigneds := assigneds s ++ [a];
     messages := messages s; feedbacks := feedbacks s;
     next_oid := N.succ (next_oid s); clock := clock s |}.

Definition insert_feedback (f : Feedback.t) (s : Store) : Store :=
  {| users := users s; complaints := complaints s; assigneds := assigneds s;
     messages := messages s; feedbacks := feedbacks s ++ [f];
     next_oid := N.succ (next_oid s); clock := clock s |}.

Definition insert_user (u : User.t) (s : Store) : Store :=
  {| users := users s ++ [u]; complaints := complaints s;
     assigneds := assigneds s; messages := messages s;
     feedbacks := feedbacks s;
     next_oid := N.succ (next_oid s); clock := clock s |}.

(** ** Errors thrown by awaited calls *)

Inductive Err :=
| ValidationError (model : string) (paths : list string)
| DuplicateKey (collection index : string)       (* MongoServerError E11000 *)
| BcryptError.

(** [err.code] *)
Definition code (e : Err) : option Z :=
  match e with
  | DuplicateKey _ _ => Some 11000%Z
  | _ => None
  end.

(** ** Responses and broadcast events *)

Inductive JsVal :=
| JId (i : ObjectId)
| JStr (s : string)
| JNum (z : Z).

Global Instance JsVal_eq_dec : EqDecision JsVal.
Proof. solve_decision. Defined.

Record Jwt := {
  jwt_payload : gmap string JsVal;
  jwt_key : string          (* the secret the token was signed under *)
}.

Record PublicUser := {
  pu_id : ObjectId;
  pu_name : string;
  pu_userType : string
}.

Inductive Body :=
| JsonError (msg : string)                     (* { error: '<literal>' } *)
| JsonErrMessage (e : Err)                     (* { error: err.message } *)
| JsonAssigned (a : Assigned.t)
| JsonFeedback (f : Feedback.t)
| JsonSuccess                                  (* { success: true } *)
| JsonCounts (counts : gmap N nat)
| JsonMessage (msg : string)                   (* { message: '<literal>' } *)
| JsonAuth (message : option string) (token : Jwt) (user : PublicUser)
| JsonAgents (agents : list Agent.t).

Record Response := { res_status : nat; res_body : Body }.

Inductive Effect :=
| Emit (event : string) (payload : option Complaint.t)    (* io.emit *)
| EmitId (event : string) (id : ObjectId)
| Inserted (a : Assigned.t)
| InsertRejected (e : Err)
| StatusSet (id : ObjectId) (st : string).

(** ** Handlers: state, exceptions, interference *)

Record Run := {
  store : Store;
  env : list (Store -> Store);   (* what other requests do before each step *)
  log : list Effect
}.

Definition M (A : Type) : Type := Run -> (Err + A) * Run.

Definition ret {A} (a : A) : M A := fun r => (inr a, r).

Definition bind {A B} (m : M A) (k : A -> M B) : M B :=
  fun r => match m r with
           | (inl e, r') => (inl e, r')
           | (inr a, r') => k a r'
           end.

Definition try_catch {A} (m : M A) (h : Err -> M A) : M A :=
  fun r => match m r with
           | (inl e, r') => h e r'
           | (inr a, r') => (inr a, r')
           end.

Notation "'let!' x ':=' m 'in' k" := (bind m (fun x => k))
  (at level 10, x name, m at level 100, k at level 200,
   format "'[v' 'let!'  x  ':='  m  'in' '/' k ']'").

(** The store an awaited call finds: the pending interference, if any, has
    happened. *)
Definition next_store (r : Run) : Store :=
  match env r with
  | [] => store r
  | g :: _ => g (store r)
  end.

(** One awaited call: the pending interference happens, then the call runs
    atomically on the store it finds. *)
Definition await {A} (f : Store -> (Err + A) * Store * list Effect) : M A :=
  fun r =>
    let '(a, s1, effs) := f (next_store r) in
    (a, {| store := s1; env := tail (env r); log := log r ++ effs |}).

(** A synchronous effect ([io.emit]): no interference point. *)
Definition effect (e : Effect) : M unit :=
  fun r => (inr tt, {| store := store r; env := env r; log := log r ++ [e] |}).

Definition run_with {A} (fs : list (Store -> Store)) (m : M A) (s : Store)
  : (Err + A) * Run :=
  m {| store := s; env := fs; log := [] |}.

(** Without concurrent writers. *)
Definition run {A} (m : M A) (s : Store) : (Err + A) * Run := run_with [] m s.

(** ** Store calls *)

(** [Complaint.findById(id)] *)
Definition Complaint_findById (id : ObjectId) (s : Store) : option Complaint.t :=
  List.find (fun c => bool_decide (Complaint._id c = id)) (complaints s).

(** The single-document update of [findByIdAndUpdate]: the first document
    that matches is rewritten, the others are left alone. *)
Fixpoint update_one {A} (p : A -> bool) (f : A -> A) (l : list A) : list A :=
  match l with
  | [] => []
  | x :: l' => if p x then f x :: l' else x :: update_one p f l'
  end.

(** The store after [findByIdAndUpdate(id, { status })] *)
Definition set_complaint_status (id : ObjectId) (st : string) (s : Store)
  : Store :=
  with_complaints
    (update_one (fun c => bool_decide (Complaint._id c = id))
                (Complaint.set_status st) (complaints s)) s.

(** [Complaint.findByIdAndUpdate(id, { status })] *)
Definition Complaint_findByIdAndUpdate (id : ObjectId) (st : string) (s : Store)
  : (Err + option Complaint.t) * Store * list Effect :=
  (inr (Complaint_findById id s), set_complaint_status id st s,
   [StatusSet id st]).

(** [Assigned.findOne({ complaintId })] *)
Definition Assigned_findOne (complaintId : ObjectId) (s : Store)
  : option Assigned.t :=
  List.find (fun a => bool_decide (Assigned.complaintId a = complaintId))
            (assigneds s).

(** [Assigned.find({ agentId }).populate('complaintId')], as one step: each
    assignment comes with the complaint it references, or [None]
    (JavaScript [null]) when no such complaint is stored. *)
Definition Assigned_find_populate (agentId : ObjectId) (s : Store)
  : list (Assigned.t * option Complaint.t) :=
  (fun a => (a, Complaint_findById (Assigned.complaintId a) s))
    <$> filter (fun a => Assigned.agentId a = agentId) (assigneds s).

(** [a => a.complaintId && a.complaintId.status !== 'Resolved']
    (lines 217 and 309) *)
Definition is_active (a : Assigned.t * option Complaint.t) : bool :=
  match a.2 with
  | Some c => negb (bool_decide (Complaint.status c = "Resolved"))
  | None => false
  end.

Definition activeCount (l : list (Assigned.t * option Complaint.t)) : nat :=
  length (List.filter is_active l).

(** [new Assigned({ complaintId, agentId, agentName })], with the schema's
    defaults *)
Definition new_Assigned (complaintId agentId : ObjectId) (agentName : string)
    (s : Store) : Assigned.t :=
  {| Assigned._id := next_oid s;
     Assigned.agentId := agentId;
     Assigned.complaintId := complaintId;
     Assigned.agentName := agentName;
     Assigned.status := "Assigned";
     Assigned.assignedAt := clock s |}.

(** [newAssignment.save()]: schema
    validation ([agentName] is required, and a required string may not be
    empty), then the insert, which the unique index on [complaintId]
    rejects with code 11000 when another assignment has the same
    complaint. *)
Definition Assigned_save (complaintId agentId : ObjectId)
    (agentName : option string) (s : Store)
  : (Err + Assigned.t) * Store * list Effect :=
  match agentName with
  | Some n =>
      if bool_decide (n = "") then
        (inl (ValidationError "Assigned" ["agentName"]), s, [])
      else if existsb (fun a => bool_decide (Assigned.complaintId a = complaintId))
                      (assigneds s) then
        let e := DuplicateKey "assigneds" "complaintId_1" in
        (inl e, s, [InsertRejected e])
      else
        let a := new_Assigned complaintId agentId n s in
        (inr a, insert_assigned a s, [Inserted a])
  | None => (inl (ValidationError "Assigned" ["agentName"]), s, [])
  end.

Definition query {A} (f : Store -> A) : M A :=
  await (fun s => (inr (f s), s, [])).

(** ** POST /api/assigned (lines 301-329) *)

Module AssignedBody.
Record t := {
  complaintId : ObjectId;
  agentId : ObjectId;
  agentName : option string
}.
End AssignedBody.

Definition already_assigned : Response :=
  {| res_status := 400;
     res_body := JsonError "Complaint is already assigned to an agent" |}.

Definition limit_reached : Response :=
  {| res_status := 400;
     res_body := JsonError "Agent has reached maximum limit of 3 active assignments" |}.

Definition server_error (err : Err) : Response :=
  {| res_status := 500; res_body := JsonErrMessage err |}.

Definition post_assigned (body : AssignedBody.t) : M Response :=
  let complaintId := AssignedBody.complaintId body in
  let agentId := AssignedBody.agentId body in
  let agentName := AssignedBody.agentName body in
  try_catch
    (let! existingAssignment := query (Assigned_findOne complaintId) in
     match existingAssignment with
     | Some _ => ret already_assigned
     | None =>
         let! agentAssignments := query (Assigned_find_populate agentId) in
         let activeAgentCount := activeCount agentAssignments in
         if 3 <=? activeAgentCount then ret limit_reached
         else
           let! savedAssignment :=
             await (Assigned_save complaintId agentId agentName) in
           let! _ := await (Complaint_findByIdAndUpdate complaintId "Assigned") in
           let! updatedComplaint := query (Complaint_findById complaintId) in
           let! _ := effect (Emit "complaintUpdated" updatedComplaint) in
           ret {| res_status := 201; res_body := JsonAssigned savedAssignment |}
     end)
    (fun err =>
       if bool_decide (code err = Some 11000%Z) then ret already_assigned
       else ret (server_error err)).

(** ** DELETE /api/complaints/:id (lines 289-299), after [auth] *)

(** [Complaint.findByIdAndDelete(id)]: the complaint goes, nothing that
    references it does. *)
Fixpoint delete_one {A} (p : A -> bool) (l : list A) : list A :=
  match l with
  | [] => []
  | x :: l' => if p x then l' else x :: delete_one p l'
  end.

Definition Complaint_findByIdAndDelete (id : ObjectId) (s : Store)
  : (Err + option Complaint.t) * Store * list Effect :=
  (inr (Complaint_findById id s),
   with_complaints
     (delete_one (fun c => bool_decide (Complaint._id c = id)) (complaints s)) s,
   []).

Definition delete_complaint (id : ObjectId) : M Response :=
  try_catch
    (let! deletedComplaint := await (Complaint_findByIdAndDelete id) in
     match deletedComplaint with
     | None => ret {| res_status := 404; res_body := JsonError "Complaint not found" |}
     | Some _ =>
         let! _ := effect (EmitId "complaintDeleted" id) in
         ret {| res_status := 200;
                res_body := JsonMessage "Complaint deleted successfully" |}
     end)
    (fun err => ret (server_error err)).

(** ** Tokens and the [auth] middleware (lines 102-112) *)

Definition SECRET_KEY : string := "SECRET_KEY".

(** [jwt.sign(payload, secret, { expiresIn })]: the payload, stamped with
    the issue and expiry times, under the secret. *)
Definition jwt_sign (payload : gmap string JsVal) (secret : string)
    (expiresIn : Z) (now : Z) : Jwt :=
  {| jwt_payload := <["exp" := JNum (now + expiresIn)%Z]>
                      (<["iat" := JNum now]> payload);
     jwt_key := secret |}.

(** [jwt.verify(token, secret)]: the payload of a token signed under
    [secret] that has not expired; [None] stands for the exception. *)
Definition jwt_verify (token : Jwt) (secret : string) (now : Z)
  : option (gmap string JsVal) :=
  if bool_decide (jwt_key token = secret) then
    match jwt_payload token !! "exp" with
    | None => Some (jwt_payload token)
    | Some (JNum exp) =>
        if bool_decide (now < exp)%Z then Some (jwt_payload token) else None
    | Some _ => None
    end
  else None.

Definition invalid_token : Response :=
  {| res_status := 400; res_body := JsonError "Invalid token." |}.

(** [authorization] is the Authorization header: [None] when it is missing
    or empty, otherwise the token it carries. *)
Definition auth (authorization : option Jwt)
    (next : gmap string JsVal -> M Response) : M Response :=
  fun r =>
    match authorization with
    | None =>
        ret {| res_status := 401;
               res_body := JsonError "Access denied. No token provided." |} r
    | Some token =>
        match jwt_verify token SECRET_KEY (clock (store r)) with
        | Some decoded => next decoded r
        | None => ret invalid_token r
        end
    end.

(** ** Registration and login (lines 177-206) *)

Module RegisterBody.
Record t := {
  name : option string;
  email : option string;
  password : option string;
  phone : option string;
  userType : option string
}.
End RegisterBody.

Module LoginBody.
Record t := {
  email : string;
  password : option string
}.
End LoginBody.

(** A [required] string path fails on a missing value and on the empty
    string. *)
Definition required_string (path : string) (v : option string) : list string :=
  match v with
  | Some x => if bool_decide (x = "") then [path] else []
  | None => [path]
  end.

(** [enum: ['Customer', 'Agent', 'Admin'], default: 'Customer'] *)
Definition userType_enum (v : option string) : list string :=
  match v with
  | Some x =>
      if bool_decide (x ∈ ["Customer"; "Agent"; "Admin"]) then []
      else ["userType"]
  | None => []
  end.

(** [new User({ ... }).save()] *)
Definition User_save (name email password phone userType : option string)
    (s : Store) : (Err + User.t) * Store * list Effect :=
  match required_string "name" name ++ required_string "email" email ++
        required_string "password" password ++ required_string "phone" phone ++
        userType_enum userType with
  | [] =>
      if existsb (fun u => bool_decide (Some (User.email u) = email)) (users s)
      then (inl (DuplicateKey "users" "email_1"), s, [])
      else
        let u := {| User._id := next_oid s;
                    User.name := default "" name;
                    User.email := default "" email;
                    User.password := default "" password;
                    User.phone := default "" phone;
                    User.userType := default "Customer" userType;
                    User.createdAt := clock s |} in
        (inr u, insert_user u s, [])
  | paths => (inl (ValidationError "User" paths), s, [])
  end.

(** [User.findOne({ email })] *)
Definition User_findOne (email : string) (s : Store) : option User.t :=
  List.find (fun u => bool_decide (User.email u = email)) (users s).

(** The payload both routes sign: [{ id: user._id, userType: user.userType }] *)
Definition token_payload (u : User.t) : gmap string JsVal :=
  <["id" := JId (User._id u)]> (<["userType" := JStr (User.userType u)]> ∅).

Definition public_user (u : User.t) : PublicUser :=
  {| pu_id := User._id u; pu_name := User.name u;
     pu_userType := User.userType u |}.

Section Bcrypt.
(** [bcrypt.hash(data, 10)] and [bcrypt.compare(data, encrypted)] on
    strings; both throw when [data] is [undefined]. *)
Variable bcrypt_hash : string -> string.
Variable bcrypt_compare : string -> string -> bool.

Definition hash (password : option string) : M string :=
  await (fun s => (match password with
                   | Some p => inr (bcrypt_hash p)
                   | None => inl BcryptError
                   end, s, [])).

Definition compare (password : option string) (encrypted : string) : M bool :=
  await (fun s => (match password with
                   | Some p => inr (bcrypt_compare p encrypted)
                   | None => inl BcryptError
                   end, s, [])).

Definition register (body : RegisterBody.t) : M Response :=
  try_catch
    (let! hashedPassword := hash (RegisterBody.password body) in
     let! newUser :=
       await (User_save (RegisterBody.name body) (RegisterBody.email body)
                        (Some hashedPassword) (RegisterBody.phone body)
                        (RegisterBody.userType body)) in
     fun r =>
       let token := jwt_sign (token_payload newUser) SECRET_KEY 3600%Z
                             (clock (store r)) in
       ret {| res_status := 201;
              res_body := JsonAuth (Some "User registered successfully")
                                   token (public_user newUser) |} r)
    (fun err => ret (server_error err)).

Definition login (body : LoginBody.t) : M Response :=
  try_catch
    (let! user := query (User_findOne (LoginBody.email body)) in
     match user with
     | None => ret {| res_status := 404; res_body := JsonError "User not found" |}
     | Some user =>
         let! isMatch := compare (LoginBody.password body) (User.password user) in
         if isMatch then
           fun r =>
             let token := jwt_sign (token_payload user) SECRET_KEY 3600%Z
                                   (clock (store r)) in
             ret {| res_status := 200;
                    res_body := JsonAuth None token (public_user user) |} r
         else
           ret {| res_status := 400; res_body := JsonError "Invalid credentials" |}
     end)
    (fun err => ret (server_error err)).
End Bcrypt.

(** ** GET /api/auth/agents (lines 212-224) *)

Definition agent_with_count (agent : User.t) (activeCount : nat) : Agent.t :=
  {| Agent._id := User._id agent; Agent.name := User.name agent;
     Agent.email := User.email agent; Agent.phone := User.phone agent;
     Agent.userType := User.userType agent;
     Agent.createdAt := User.createdAt agent;
     Agent.activeAssignments := activeCount |}.

(** [User.find({ userType: 'Agent' })] *)
Definition User_find_agents (s : Store) : list User.t :=
  List.filter (fun u => bool_decide (User.userType u = "Agent")) (users s).

Fixpoint mapM {A B} (f : A -> M B) (l : list A) : M (list B) :=
  match l with
  | [] => ret []
  | x :: l' =>
      let! y := f x in
      let! ys := mapM f l' in
      ret (y :: ys)
  end.

Definition get_agents : M Response :=
  try_catch
    (let! agents := query User_find_agents in
     let! agentsWithCounts :=
       mapM (fun agent =>
               let! assignments := query (Assigned_find_populate (User._id agent)) in
               let activeCount := activeCount assignments in
               ret (agent_with_count agent activeCount))
            agents in
     ret {| res_status := 200; res_body := JsonAgents agentsWithCounts |})
    (fun err => ret (server_error err)).

(** ** Messages: mark read and unread counts (lines 383-412) *)

Section Messages.
(** What the store answers, on a stored string, to a filter
    [{ $ne: undefined }].  The answer is the driver's, not this file's:
    the handlers are modelled for either one. *)
Variable ne_undefined : bool.

(** [{ name: { $ne: userName } }] on a message whose sender is [name].
    A [userName] that is a string is compared as it is.  One that is a
    number or an id is taken to differ from every sender: the cast to
    a string that the driver applies to such a value is not modelled. *)
Definition ne (name : string) (userName : option JsVal) : bool :=
  match userName with
  | Some v => negb (bool_decide (JStr name = v))
  | None => ne_undefined
  end.

(** The store after
    [Message.updateMany({ complaintId, name: { $ne: userName }, read: false },
                        { $set: { read: true } })] *)
Definition mark_read (complaintId : ObjectId) (userName : option JsVal)
    (s : Store) : Store :=
  with_messages
    ((fun m =>
        if bool_decide (Message.complaintId m = complaintId)
           && ne (Message.name m) userName
           && negb (Message.read m)
        then Message.set_read true m else m) <$> messages s) s.

Definition Message_updateMany (complaintId : ObjectId)
    (userName : option JsVal) (s : Store)
  : (Err + unit) * Store * list Effect :=
  (inr tt, mark_read complaintId userName s, []).

(** [{ $group: { _id: '$complaintId', count: { $sum: 1 } } }]: one more for
    the group of [k], a new group when there is none. *)
Fixpoint group_add (k : ObjectId) (groups : list (ObjectId * nat))
  : list (ObjectId * nat) :=
  match groups with
  | [] => [(k, 1)]
  | (k', n) :: groups' =>
      if bool_decide (k' = k) then (k', S n) :: groups'
      else (k', n) :: group_add k groups'
  end.

(** The [$group] stage over a list of documents, in store order. *)
Definition group_by {A} (key : A -> ObjectId) (l : list A)
    (groups : list (ObjectId * nat)) : list (ObjectId * nat) :=
  fold_left (fun groups x => group_add (key x) groups) l groups.

(** [Message.aggregate([{ $match: { name: { $ne: userName }, read: false } },
                        { $group: ... }])] *)
Definition Message_aggregate (userName : option JsVal) (s : Store)
  : list (ObjectId * nat) :=
  group_by Message.complaintId
    (List.filter (fun m => ne (Message.name m) userName && negb (Message.read m))
                 (messages s))
    [].

(** [req.user.name] *)
Definition user_name (user : gmap string JsVal) : option JsVal :=
  user !! "name".

Definition put_messages_read (complaintId : ObjectId)
    (user : gmap string JsVal) : M Response :=
  try_catch
    (let userName := user_name user in
     let! _ := await (Message_updateMany complaintId userName) in
     ret {| res_status := 200; res_body := JsonSuccess |})
    (fun err => ret (server_error err)).

(** [unreadMessages.forEach(item => { counts[item._id] = item.count; })]
    on [counts = {}] *)
Definition to_counts (unreadMessages : list (ObjectId * nat)) : gmap N nat :=
  fold_left (fun (counts : gmap N nat) item => <[item.1 := item.2]> counts)
            unreadMessages ∅.

Definition get_unread_counts (user : gmap string JsVal) : M Response :=
  try_catch
    (let userName := user_name user in
     let! unreadMessages := query (Message_aggregate userName) in
     let counts := to_counts unreadMessages in
     ret {| res_status := 200; res_body := JsonCounts counts |})
    (fun err => ret (server_error err)).

(** The routes as mounted, behind [auth]. *)
Definition route_messages_read (authorization : option Jwt)
    (complaintId : ObjectId) : M Response :=
  auth authorization (put_messages_read complaintId).

Definition route_unread_counts (authorization : option Jwt) : M Response :=
  auth authorization get_unread_counts.
End Messages.

(** ** POST /api/feedback (lines 414-432) *)

Module FeedbackBody.
Record t := {
  complaintId : ObjectId;
  rating : option Qc;
  comment : option string
}.
End FeedbackBody.

(** [rating: { type: Number, required: true, min: 1, max: 5 }] *)
Definition rating_valid (rating : option Qc) : bool :=
  match rating with
  | Some r => bool_decide (1 ≤ r)%Qc && bool_decide (r ≤ Qc_of_Z 5)%Qc
  | None => false
  end.

(** [req.user.id], cast to the [ObjectId] the schema asks for *)
Definition user_id (user : gmap string JsVal) : option ObjectId :=
  match user !! "id" with
  | Some (JId i) => Some i
  | _ => None
  end.

(** [new Feedback({ userId, complaintId, agentId, rating, comment }).save()] *)
Definition Feedback_save (userId : option ObjectId) (complaintId : ObjectId)
    (agentId : option ObjectId) (rating : option Qc) (comment : option string)
    (s : Store) : (Err + Feedback.t) * Store * list Effect :=
  match userId, rating with
  | Some u, Some r =>
      if rating_valid rating then
        let f := {| Feedback._id := next_oid s;
                    Feedback.userId := u;
                    Feedback.complaintId := complaintId;
                    Feedback.agentId := agentId;
                    Feedback.rating := r;
                    Feedback.comment := comment;
                    Feedback.createdAt := clock s |} in
        (inr f, insert_feedback f s, [])
      else (inl (ValidationError "Feedback" ["rating"]), s, [])
  | Some _, None => (inl (ValidationError "Feedback" ["rating"]), s, [])
  | None, _ =>
      (inl (ValidationError "Feedback"
              ("userId" :: if rating_valid rating then [] else ["rating"])), s, [])
  end.

Definition post_feedback (body : FeedbackBody.t) (user : gmap string JsVal)
  : M Response :=
  let complaintId := FeedbackBody.complaintId body in
  let rating := FeedbackBody.rating body in
  let comment := FeedbackBody.comment body in
  try_catch
    (let userId := user_id user in
     let! assignment := query (Assigned_findOne complaintId) in
     let agentId := match assignment with
                    | Some a => Some (Assigned.agentId a)
                    | None => None
                    end in
     let! savedFeedback :=
       await (Feedback_save userId complaintId agentId rating comment) in
     ret {| res_status := 201; res_body := JsonFeedback savedFeedback |})
    (fun err => ret (server_error err)).

Definition route_feedback (authorization : option Jwt) (body : FeedbackBody.t)
  : M Response :=
  auth authorization (post_feedback body).

Definition route_assigned (authorization : option Jwt) (body : AssignedBody.t)
  : M Response :=
  auth authorization (fun _ => post_assigned body).

(** The count of lines 308-309: the agent's assignments, populated, that
    pass [is_active]. *)
Definition agent_active_count (s : Store) (agentId : ObjectId) : nat :=
  activeCount (Assigned_find_populate agentId s).

(** The state of a run that changed nothing and emitted nothing. *)
Definition quiet (s : Store) : Run := {| store := s; env := []; log := [] |}.

(** The tokens the server hands out: the one in the answer of a
    registration or of a login, whatever else goes on meanwhile. *)
Inductive issued (bcrypt_hash : string -> string)
    (bcrypt_compare : string -> string -> bool) (token : Jwt) : Prop :=
| issued_by_register others s body status message user r :
    run_with others (register bcrypt_hash body) s
    = (inr {| res_status := status;
              res_body := JsonAuth message token user |}, r) ->
    issued bcrypt_hash bcrypt_compare token
| issued_by_login others s body status message user r :
    run_with others (login bcrypt_compare body) s
    = (inr {| res_status := status;
              res_body := JsonAuth message token user |}, r) ->
    issued bcrypt_hash bcrypt_compare token.

(** A message mark-read is meant to touch for the caller named [N]: it is
    on the complaint and its sender is not [N]. *)
Definition from_someone_else (complaintId : ObjectId) (N : string)
    (m : Message.t) : Prop :=
  Message.complaintId m = complaintId ∧ Message.name m ≠ N.

Global Instance from_someone_else_dec complaintId N m :
  Decision (from_someone_else complaintId N m).
Proof. unfold from_someone_else. apply _. Defined.

(** A message the unread count of [complaintId] for caller [N] is about. *)
Definition unread_for (complaintId : ObjectId) (N : string) (m : Message.t)
  : Prop :=
  Message.complaintId m = complaintId ∧ Message.read m = false
  ∧ Message.name m ≠ N.

Global Instance unread_for_dec complaintId N m :
  Decision (unread_for complaintId N m).
Proof. unfold unread_for. apply _. Defined.

(** The assignments the limit of 3 is about: those of the agent whose
    complaint is stored with a status other than "Resolved". *)
Definition counts_toward_limit (s : Store) (agent : ObjectId) (a : Assigned.t)
  : Prop :=
  Assigned.agentId a = agent
  ∧ ∃ c, Complaint_findById (Assigned.complaintId a) s = Some c
         ∧ Complaint.status c ≠ "Resolved".

Global Instance counts_toward_limit_dec s agent a :
  Decision (counts_toward_limit s agent a).
Proof.
  unfold counts_toward_limit.
  destruct (decide (Assigned.agentId a = agent)) as [Hag|Hag];
    [|right; by intros [? _]].
  destruct (Complaint_findById (Assigned.complaintId a) s) as [c|];
    [|right; by intros (_ & c & ? & _)].
  destruct (decide (Complaint.status c = "Resolved")) as [Hst|Hst].
  - right. intros (_ & c' & [= <-] & ?). done.
  - left. split; [done|]. by exists c.
Defined.

(** ** Sample data *)

Module Sample.
Definition complaint (id : ObjectId) (status : string) : Complaint.t :=
  {| Complaint._id := id; Complaint.userId := 1%N;
     Complaint.name := "Asha"; Complaint.address := "12 Lake Road";
     Complaint.city := "Guntur"; Complaint.state := "AP";
     Complaint.pincode := "522001"; Complaint.comment := "No water supply";
     Complaint.attachments := []; Complaint.status := status;
     Complaint.createdAt := 0%Z |}.

Definition assignment (id agent complaintId : ObjectId) : Assigned.t :=
  {| Assigned._id := id; Assigned.agentId := agent;
     Assigned.complaintId := complaintId; Assigned.agentName := "G1";
     Assigned.status := "Assigned"; Assigned.assignedAt := 0%Z |}.

Definition message (id complaintId : ObjectId) (sender : string)
    (read : bool) : Message.t :=
  {| Message._id := id; Message.complaintId := complaintId;
     Message.name := sender; Message.message := "hello";
     Message.attachments := []; Message.read := read;
     Message.sentAt := 0%Z |}.

Definition body (complaintId agent : ObjectId) : AssignedBody.t :=
  {| AssignedBody.complaintId := complaintId;
     AssignedBody.agentId := agent;
     AssignedBody.agentName := Some "G1" |}.

(** Four pending complaints, nothing assigned yet. *)
Definition fresh : Store :=
  {| users := [];
     complaints := [complaint 10 "Pending"; complaint 11 "Pending";
                    complaint 12 "Pending"; complaint 13 "Pending"];
     assigneds := []; messages := []; feedbacks := [];
     next_oid := 100%N; clock := 50%Z |}.

(** Agent 7 holds complaints 10, 11 and 12. *)
Definition busy : Store :=
  {| users := [];
     complaints := [complaint 10 "Assigned"; complaint 11 "Assigned";
                    complaint 12 "Assigned"; complaint 13 "Pending"];
     assigneds := [assignment 100 7 10; assignment 101 7 11;
                   assignment 102 7 12];
     messages := []; feedbacks := [];
     next_oid := 103%N; clock := 50%Z |}.

(** The same after complaints 10, 11 and 12 were deleted: the three
    assignments of agent 7 reference nothing. *)
Definition orphaned : Store :=
  {| users := [];
     complaints := [complaint 13 "Pending"];
     assigneds := [assignment 100 7 10; assignment 101 7 11;
                   assignment 102 7 12];
     messages := []; feedbacks := [];
     next_oid := 103%N; clock := 50%Z |}.

(** Two unread messages on complaint 10, one from alice, one from bob. *)
Definition chat : Store :=
  {| users := [];
     complaints := [complaint 10 "Assigned"];
     assigneds := [assignment 100 7 10];
     messages := [message 300 10 "alice" false; message 301 10 "bob" false];
     feedbacks := [];
     next_oid := 302%N; clock := 50%Z |}.

Definition alice : RegisterBody.t :=
  {| RegisterBody.name := Some "alice";
     RegisterBody.email := Some "alice@example.org";
     RegisterBody.password := Some "secret";
     RegisterBody.phone := Some "555-0100";
     RegisterBody.userType := None |}.

(** Stand-ins for bcrypt. *)
Definition plain_hash (password : string) : string := password.
Definition plain_compare (password encrypted : string) : bool :=
  bool_decide (password = encrypted).

(** alice registers on [chat]: the store afterwards and her token. *)
Definition chat_registered : Store :=
  store (run (register plain_hash alice) chat).2.

Definition alice_token : Jwt :=
  jwt_sign (<["id" := JId 302]> (<["userType" := JStr "Customer"]> ∅))
           SECRET_KEY 3600 50.

(** What [auth] decodes from alice's token. *)
Definition alice_decoded : gmap string JsVal := jwt_payload alice_token.

Definition feedback (rating : Qc) : FeedbackBody.t :=
  {| FeedbackBody.complaintId := 10%N;
     FeedbackBody.rating := Some rating;
     FeedbackBody.comment := Some "thanks" |}.

Definition four_and_a_half : Qc := Q2Qc (Qmake 9 2).

(** Agent 7 holds complaints 10 and 11; 12 and 13 are unassigned. *)
Definition nearly_full : Store :=
  {| users := [];
     complaints := [complaint 10 "Assigned"; complaint 11 "Assigned";
                    complaint 12 "Pending"; complaint 13 "Pending"];
     assigneds := [assignment 100 7 10; assignment 101 7 11];
     messages := []; feedbacks := [];
     next_oid := 102%N; clock := 50%Z |}.

(** Another request gives complaint 12 to agent 7 after this one's
    capacity read, before its write. *)
Definition overtaken : list (Store -> Store) :=
  [id; id; insert_assigned (assignment 200 7 12)].

Definition nameless (complaintId agent : ObjectId) : AssignedBody.t :=
  {| AssignedBody.complaintId := complaintId;
     AssignedBody.agentId := agent;
     AssignedBody.agentName := None |}.

(** Another request assigns complaint 13 to agent 8 after this one's
    pre-check and capacity read, before its write. *)
Definition lost_race : list (Store -> Store) :=
  [id; id; insert_assigned (assignment 200 8 13)].
End Sample.

(** ** Store invariants *)

(** The unique index on [Assigned.complaintId] (line 41), as a property of
    the stored assignments. *)
Definition unique_assignments (s : Store) : Prop :=
  NoDup (Assigned.complaintId <$> assigneds s).

(** The unique index on [User.email] (line 5). *)
Definition unique_emails (s : Store) : Prop :=
  NoDup (User.email <$> users s).

(** [_id] is the primary key of the complaints. *)
Definition unique_complaint_ids (s : Store) : Prop :=
  NoDup (Complaint._id <$> complaints s).

(** No stored complaint has an id the generator has yet to hand out. *)
Definition complaint_ids_fresh (s : Store) : Prop :=
  forall c, c ∈ complaints s -> (Complaint._id c < next_oid s)%N.

(** The count an unread-counts answer holds for a complaint: the entry of
    the mapping, and 0 when the complaint has none. *)
Definition unread_count (answer : Err + Response) (complaintId : ObjectId)
  : nat :=
  match answer with
  | inr {| res_body := JsonCounts counts |} => default 0 (counts !! complaintId)
  | _ => 0
  end.

(** The users collection is well formed: no two users share an email or
    an [_id], and every [_id] came from the generator. *)
Definition users_wf (s : Store) : Prop :=
  unique_emails s
  /\ NoDup (User._id <$> users s)
  /\ forall u, u ∈ users s -> (User._id u < next_oid s)%N.

(** What another request may do between two steps without breaking [P]. *)
Definition preserves (P : Store -> Prop) (g : Store -> Store) : Prop :=
  forall s, P s -> P (g s).

(** A handler keeps [P] when, started on a store with [P] among requests
    that preserve [P], it ends on a store with [P]. *)
Definition keeps {A} (P : Store -> Prop) (m : M A) : Prop :=
  forall r, Forall (preserves P) (env r) -> P (store r) ->
            Forall (preserves P) (env (m r).2) /\ P (store (m r).2).

(** ** The remaining routes *)

(** *** Answers that carry documents *)

(** [populate('userId', 'name email')] *)
Record UserRef := { ref_id : ObjectId; ref_name : string; ref_email : string }.

(** [populate('assignment', 'agentName agentId')] *)
Record AssignmentRef := {
  asg_id : ObjectId;
  asg_agentName : string;
  asg_agentId : ObjectId
}.

Module ComplaintView.
(** A complaint with [userId] populated and the [assignment] virtual
    (lines 32-37) attached; a reference that resolves to nothing is
    [None] (JavaScript [null]). *)
Record t := {
  complaint : Complaint.t;
  userId : option UserRef;
  assignment : option AssignmentRef
}.
End ComplaintView.

Module AssignedView.
(** An assignment with [complaintId] populated and, inside it, [userId]
    (lines 333-337). *)
Record t := {
  assigned : Assigned.t;
  complaintId : option (Complaint.t * option UserRef)
}.
End AssignedView.

Module AssignedFull.
(** An assignment with [populate('complaintId agentId')]: whole documents
    (line 346). *)
Record t := {
  assigned : Assigned.t;
  complaintId : option Complaint.t;
  agentId : option User.t
}.
End AssignedFull.

Module Profile.
(** A user with [select('-password')] *)
Record t := {
  _id : ObjectId;
  name : string;
  email : string;
  phone : string;
  userType : string;
  createdAt : Z
}.
End Profile.

Module FeedbackView.
(** A feedback with [populate('userId', 'name')] *)
Record t := {
  feedback : Feedback.t;
  userId : option (ObjectId * string)
}.
End FeedbackView.

Inductive Reply :=
| Plain (body : Body)
| ComplaintDoc (c : Complaint.t)
| ComplaintViewDoc (v : ComplaintView.t)
| ComplaintViews (l : list ComplaintView.t)
| AssignedViews (l : list AssignedView.t)
| AssignedFulls (l : list AssignedFull.t)
| MessageDoc (m : Message.t)
| MessageDocs (l : list Message.t)
| FeedbackOrNull (f : option Feedback.t)
| FeedbackViews (l : list FeedbackView.t)
| ProfileDoc (p : Profile.t)
| Profiles (l : list Profile.t).

Record Answer := { ans_status : nat; ans_body : Reply }.

Definition plain (r : Response) : Answer :=
  {| ans_status := res_status r; ans_body := Plain (res_body r) |}.

Definition not_found (what : string) : Answer :=
  {| ans_status := 404; ans_body := Plain (JsonError what) |}.

Definition ok (body : Reply) : Answer :=
  {| ans_status := 200; ans_body := body |}.

(** The [auth] middleware (lines 102-112) in front of a handler that
    answers with [A]; [answer] turns the middleware's own two answers into
    that type. *)
Definition auth_as {A} (answer : Response -> A) (authorization : option Jwt)
    (next : gmap string JsVal -> M A) : M A :=
  fun r =>
    match authorization with
    | None =>
        ret (answer {| res_status := 401;
                       res_body := JsonError "Access denied. No token provided." |}) r
    | Some token =>
        match jwt_verify token SECRET_KEY (clock (store r)) with
        | Some decoded => next decoded r
        | None => ret (answer invalid_token) r
        end
    end.

(** *** Complaints (lines 226-287) *)

(** An entry of [req.files], as multer leaves it. *)
Record File := {
  file_path : string;
  file_originalname : string;
  file_mimetype : string
}.

(** [req.body.attachmentNames]: missing, one form field, or several. *)
Inductive AttachmentNames :=
| NamesAbsent
| NamesOne (name : string)
| NamesMany (names : list string).

Module ComplaintBody.
(** The [req.body] of POST /api/complaints: the schema's fields as the
    form sends them, apart from [_id] and [createdAt], which the server
    sets. *)
Record t := {
  userId : option ObjectId;
  name : option string;
  address : option string;
  city : option string;
  state : option string;
  pincode : option string;
  comment : option string;
  status : option string;
  attachmentNames : AttachmentNames
}.
End ComplaintBody.

(** [const attachmentNames = req.body.attachmentNames || [];
     const namesList = Array.isArray(attachmentNames) ? attachmentNames
                                                      : [attachmentNames];] *)
Definition namesList (attachmentNames : AttachmentNames) : list string :=
  match attachmentNames with
  | NamesAbsent => []
  | NamesOne n => if bool_decide (n = "") then [] else [n]
  | NamesMany l => l
  end.

(** [namesList[index] || file.originalname] *)
Definition attachment_name (names : list string) (index : nat) (file : File)
  : string :=
  match names !! index with
  | Some n => if bool_decide (n = "") then file_originalname file else n
  | None => file_originalname file
  end.

(** Lines 229-239 *)
Definition complaint_attachments (attachmentNames : AttachmentNames)
    (files : list File) : list Attachment :=
  match files with
  | [] => []
  | _ =>
      imap (fun index file =>
              {| att_path := file_path file;
                 att_originalName := Some (file_originalname file);
                 att_name := Some (attachment_name (namesList attachmentNames)
                                                   index file) |})
           files
  end.

(** The required [path] of each attachment (lines 21 and 52). *)
Definition attachment_paths (attachments : list Attachment) : list string :=
  mjoin (imap (fun index a =>
                 if bool_decide (att_path a = "")
                 then ["attachments." +:+ pretty.pretty index +:+ ".path"]
                 else [])
              attachments).

Definition required_id (path : string) (v : option ObjectId) : list string :=
  match v with
  | Some _ => []
  | None => [path]
  end.

Definition insert_complaint (c : Complaint.t) (s : Store) : Store :=
  {| users := users s; complaints := complaints s ++ [c];
     assigneds := assigneds s; messages := messages s;
     feedbacks := feedbacks s;
     next_oid := N.succ (next_oid s); clock := clock s |}.

(** [new Complaint(complaintData)], with the schema's defaults *)
Definition new_Complaint (body : ComplaintBody.t) (attachments : list Attachment)
    (s : Store) : Complaint.t :=
  {| Complaint._id := next_oid s;
     Complaint.userId := default 0%N (ComplaintBody.userId body);
     Complaint.name := default "" (ComplaintBody.name body);
     Complaint.address := default "" (ComplaintBody.address body);
     Complaint.city := default "" (ComplaintBody.city body);
     Complaint.state := default "" (ComplaintBody.state body);
     Complaint.pincode := default "" (ComplaintBody.pincode body);
     Complaint.comment := default "" (ComplaintBody.comment body);
     Complaint.attachments := attachments;
     Complaint.status := default "Pending" (ComplaintBody.status body);
     Complaint.createdAt := clock s |}.

(** [newComplaint.save()].  The error holds the paths that fail their
    [required] validator, here in schema order; the order in which
    [err.message] names them depends on which keys the body leaves out
    and is not modelled. *)
Definition Complaint_save (body : ComplaintBody.t) (attachments : list Attachment)
    (s : Store) : (Err + Complaint.t) * Store * list Effect :=
  match required_id "userId" (ComplaintBody.userId body)
        ++ required_string "name" (ComplaintBody.name body)
        ++ required_string "address" (ComplaintBody.address body)
        ++ required_string "city" (ComplaintBody.city body)
        ++ required_string "state" (ComplaintBody.state body)
        ++ required_string "pincode" (ComplaintBody.pincode body)
        ++ required_string "comment" (ComplaintBody.comment body)
        ++ attachment_paths attachments with
  | [] =>
      let c := new_Complaint body attachments s in
      (inr c, insert_complaint c s, [])
  | paths => (inl (ValidationError "Complaint" paths), s, [])
  end.

(** POST /api/complaints, after [auth] and the upload *)
Definition post_complaints (body : ComplaintBody.t) (files : list File)
  : M Answer :=
  try_catch
    (let attachments :=
       complaint_attachments (ComplaintBody.attachmentNames body) files in
     let! savedComplaint := await (Complaint_save body attachments) in
     let! _ := effect (Emit "complaintCreated" (Some savedComplaint)) in
     ret {| ans_status := 201; ans_body := ComplaintDoc savedComplaint |})
    (fun err => ret (plain (server_error err))).

(** [User.findById(id)] *)
Definition User_findById (id : ObjectId) (s : Store) : option User.t :=
  List.find (fun u => bool_decide (User._id u = id)) (users s).

Definition user_ref (u : User.t) : UserRef :=
  {| ref_id := User._id u; ref_name := User.name u; ref_email := User.email u |}.

Definition assignment_ref (a : Assigned.t) : AssignmentRef :=
  {| asg_id := Assigned._id a; asg_agentName := Assigned.agentName a;
     asg_agentId := Assigned.agentId a |}.

(** [.populate('userId', 'name email').populate('assignment', 'agentName agentId')]
    on one complaint; the query and its populates are one step. *)
Definition populate_complaint (s : Store) (c : Complaint.t) : ComplaintView.t :=
  {| ComplaintView.complaint := c;
     ComplaintView.userId := user_ref <$> User_findById (Complaint.userId c) s;
     ComplaintView.assignment :=
       assignment_ref <$> Assigned_findOne (Complaint._id c) s |}.

(** GET /api/complaints, after [auth] *)
Definition get_complaints : M Answer :=
  try_catch
    (let! complaints :=
       query (fun s => populate_complaint s <$> complaints s) in
     ret (ok (ComplaintViews complaints)))
    (fun err => ret (plain (server_error err))).

(** GET /api/complaints/:id, after [auth] *)
Definition get_complaint (id : ObjectId) : M Answer :=
  try_catch
    (let! complaint :=
       query (fun s => populate_complaint s <$> Complaint_findById id s) in
     match complaint with
     | None => ret (not_found "Complaint not found")
     | Some c => ret (ok (ComplaintViewDoc c))
     end)
    (fun err => ret (plain (server_error err))).

Module ComplaintPatch.
(** The [req.body] of PUT /api/complaints/:id, for a body that is a plain
    document of schema paths, each with a value of its schema type: any of
    the scalar fields, the [attachments] array and [createdAt].  Mongoose
    puts such a body under [$set].  A body with an update operator
    ([$set], [$push], ...), with [_id] or with a [null] is outside this
    type. *)
Record t := {
  userId : option ObjectId;
  name : option string;
  address : option string;
  city : option string;
  state : option string;
  pincode : option string;
  comment : option string;
  attachments : option (list Attachment);
  status : option string;
  createdAt : option Z
}.
End ComplaintPatch.

(** [$set] of the paths the body names; [_id] is not among them. *)
Definition apply_patch (p : ComplaintPatch.t) (c : Complaint.t) : Complaint.t :=
  {| Complaint._id := Complaint._id c;
     Complaint.userId := default (Complaint.userId c) (ComplaintPatch.userId p);
     Complaint.name := default (Complaint.name c) (ComplaintPatch.name p);
     Complaint.address := default (Complaint.address c) (ComplaintPatch.address p);
     Complaint.city := default (Complaint.city c) (ComplaintPatch.city p);
     Complaint.state := default (Complaint.state c) (ComplaintPatch.state p);
     Complaint.pincode := default (Complaint.pincode c) (ComplaintPatch.pincode p);
     Complaint.comment := default (Complaint.comment c) (ComplaintPatch.comment p);
     Complaint.attachments :=
       default (Complaint.attachments c) (ComplaintPatch.attachments p);
     Complaint.status := default (Complaint.status c) (ComplaintPatch.status p);
     Complaint.createdAt :=
       default (Complaint.createdAt c) (ComplaintPatch.createdAt p) |}.

Definition patch_complaint (id : ObjectId) (p : ComplaintPatch.t) (s : Store)
  : Store :=
  with_complaints
    (update_one (fun c => bool_decide (Complaint._id c = id))
                (apply_patch p) (complaints s)) s.

(** [Complaint.findByIdAndUpdate(id, req.body, { new: true })]: no
    validators run, and the document returned is the updated one. *)
Definition Complaint_findByIdAndUpdate_new (id : ObjectId) (p : ComplaintPatch.t)
    (s : Store) : (Err + option Complaint.t) * Store * list Effect :=
  (inr (apply_patch p <$> Complaint_findById id s), patch_complaint id p s, []).

(** PUT /api/complaints/:id: no [auth] in front *)
Definition put_complaint (id : ObjectId) (p : ComplaintPatch.t) : M Answer :=
  try_catch
    (let! updatedComplaint := await (Complaint_findByIdAndUpdate_new id p) in
     match updatedComplaint with
     | None => ret (not_found "Complaint not found")
     | Some c =>
         let! _ := effect (Emit "complaintUpdated" (Some c)) in
         ret (ok (ComplaintDoc c))
     end)
    (fun err => ret (plain (server_error err))).

(** *** Assignment listings (lines 331-351), after [auth] *)

(** [Assigned.find({ agentId }).populate({ path: 'complaintId',
      populate: { path: 'userId', select: 'name email' } })] *)
Definition Assigned_find_populate_user (agentId : ObjectId) (s : Store)
  : list AssignedView.t :=
  (fun a =>
     {| AssignedView.assigned := a;
        AssignedView.complaintId :=
          (fun c => (c, user_ref <$> User_findById (Complaint.userId c) s))
            <$> Complaint_findById (Assigned.complaintId a) s |})
    <$> filter (fun a => Assigned.agentId a = agentId) (assigneds s).

Definition get_assigned_agent (agentId : ObjectId) : M Answer :=
  try_catch
    (let! assignments := query (Assigned_find_populate_user agentId) in
     ret (ok (AssignedViews assignments)))
    (fun err => ret (plain (server_error err))).

(** An entry of that listing whose complaint is there and not resolved. *)
Definition still_open (v : AssignedView.t) : bool :=
  match AssignedView.complaintId v with
  | Some (c, _) => negb (bool_decide (Complaint.status c = "Resolved"))
  | None => false
  end.

(** [Assigned.find().populate('complaintId agentId')] *)
Definition Assigned_find_populate_all (s : Store) : list AssignedFull.t :=
  (fun a =>
     {| AssignedFull.assigned := a;
        AssignedFull.complaintId := Complaint_findById (Assigned.complaintId a) s;
        AssignedFull.agentId := User_findById (Assigned.agentId a) s |})
    <$> assigneds s.

Definition get_assigned : M Answer :=
  try_catch
    (let! assignments := query Assigned_find_populate_all in
     ret (ok (AssignedFulls assignments)))
    (fun err => ret (plain (server_error err))).

(** *** Messages: create and list (lines 353-381) *)

Module MessageBody.
Record t := {
  complaintId : option ObjectId;
  name : option string;
  message : option string
}.
End MessageBody.

(** Lines 357-363: the field is set only when files came. *)
Definition message_attachments (files : list File) : list Attachment :=
  (fun file =>
     {| att_path := file_path file;
        att_originalName := Some (file_originalname file);
        att_name := Some (file_originalname file) |}) <$> files.

Definition insert_message (m : Message.t) (s : Store) : Store :=
  {| users := users s; complaints := complaints s; assigneds := assigneds s;
     messages := messages s ++ [m]; feedbacks := feedbacks s;
     next_oid := N.succ (next_oid s); clock := clock s |}.

(** [new Message(newMessageData)], with the schema's defaults *)
Definition new_Message (body : MessageBody.t) (attachments : list Attachment)
    (s : Store) : Message.t :=
  {| Message._id := next_oid s;
     Message.complaintId := default 0%N (MessageBody.complaintId body);
     Message.name := default "" (MessageBody.name body);
     Message.message := default "" (MessageBody.message body);
     Message.attachments := attachments;
     Message.read := false;
     Message.sentAt := clock s |}.

(** [newMessage.save()]; the failing paths as for [Complaint_save]. *)
Definition Message_save (body : MessageBody.t) (attachments : list Attachment)
    (s : Store) : (Err + Message.t) * Store * list Effect :=
  match required_id "complaintId" (MessageBody.complaintId body)
        ++ required_string "name" (MessageBody.name body)
        ++ required_string "message" (MessageBody.message body)
        ++ attachment_paths attachments with
  | [] =>
      let m := new_Message body attachments s in
      (inr m, insert_message m s, [])
  | paths => (inl (ValidationError "Message" paths), s, [])
  end.

(** What POST /api/messages does towards the outside: its answer, and the
    messages it broadcast with [io.emit('newMessage', ...)]. *)
Record MessageAnswer := {
  answer : Answer;
  newMessage : list Message.t
}.

(** POST /api/messages: no [auth] in front *)
Definition post_messages (body : MessageBody.t) (files : list File)
  : M MessageAnswer :=
  try_catch
    (let! savedMessage := await (Message_save body (message_attachments files)) in
     ret {| answer := {| ans_status := 201; ans_body := MessageDoc savedMessage |};
            newMessage := [savedMessage] |})
    (fun err => ret {| answer := plain (server_error err); newMessage := [] |}).

(** The order of [{ sentAt: 1 }] *)
Definition sent_before (m1 m2 : Message.t) : Prop :=
  (Message.sentAt m1 ≤ Message.sentAt m2)%Z.

Global Instance sent_before_dec : RelDecision sent_before.
Proof. intros m1 m2. unfold sent_before. apply _. Defined.

(** [Message.find({ complaintId }).sort({ sentAt: 1 })] *)
Definition Message_find_sorted (complaintId : ObjectId) (s : Store)
  : list Message.t :=
  sorting.merge_sort sent_before
    (filter (fun m => Message.complaintId m = complaintId) (messages s)).

(** GET /api/messages/:complaintId, after [auth] *)
Definition get_messages (complaintId : ObjectId) : M Answer :=
  try_catch
    (let! messages := query (Message_find_sorted complaintId) in
     ret (ok (MessageDocs messages)))
    (fun err => ret (plain (server_error err))).

(** *** Feedback: read (lines 434-450), after [auth] *)

(** [Feedback.findOne({ complaintId })] *)
Definition Feedback_findOne (complaintId : ObjectId) (s : Store)
  : option Feedback.t :=
  List.find (fun f => bool_decide (Feedback.complaintId f = complaintId))
            (feedbacks s).

Definition get_feedback_complaint (complaintId : ObjectId) : M Answer :=
  try_catch
    (let! feedback := query (Feedback_findOne complaintId) in
     ret (ok (FeedbackOrNull feedback)))
    (fun err => ret (plain (server_error err))).

(** [Feedback.find({ agentId }).populate('userId', 'name')] *)
Definition Feedback_find_populate (agentId : ObjectId) (s : Store)
  : list FeedbackView.t :=
  (fun f =>
     {| FeedbackView.feedback := f;
        FeedbackView.userId :=
          (fun u => (User._id u, User.name u))
            <$> User_findById (Feedback.userId f) s |})
    <$> filter (fun f => Feedback.agentId f = Some agentId) (feedbacks s).

Definition get_feedback_agent (agentId : ObjectId) : M Answer :=
  try_catch
    (let! feedbacks := query (Feedback_find_populate agentId) in
     ret (ok (FeedbackViews feedbacks)))
    (fun err => ret (plain (server_error err))).

(** *** Users (lines 452-503), after [auth] *)

Definition profile (u : User.t) : Profile.t :=
  {| Profile._id := User._id u; Profile.name := User.name u;
     Profile.email := User.email u; Profile.phone := User.phone u;
     Profile.userType := User.userType u;
     Profile.createdAt := User.createdAt u |}.

(** GET /api/users/profile; [id] is [req.user.id] *)
Definition get_profile (id : ObjectId) : M Answer :=
  try_catch
    (let! user := query (User_findById id) in
     match user with
     | None => ret (not_found "User not found")
     | Some u => ret (ok (ProfileDoc (profile u)))
     end)
    (fun err => ret (plain (server_error err))).

Module ProfileBody.
Record t := {
  name : option string;
  email : option string;
  phone : option string
}.
End ProfileBody.

(** [if (x) updateData.x = x]: a missing or empty field is left out. *)
Definition truthy (v : option string) : option string :=
  match v with
  | Some x => if bool_decide (x = "") then None else Some x
  | None => None
  end.

Definition set_profile (body : ProfileBody.t) (u : User.t) : User.t :=
  {| User._id := User._id u;
     User.name := default (User.name u) (truthy (ProfileBody.name body));
     User.email := default (User.email u) (truthy (ProfileBody.email body));
     User.password := User.password u;
     User.phone := default (User.phone u) (truthy (ProfileBody.phone body));
     User.userType := User.userType u;
     User.createdAt := User.createdAt u |}.

Definition with_users (us : list User.t) (s : Store) : Store :=
  {| users := us; complaints := complaints s; assigneds := assigneds s;
     messages := messages s; feedbacks := feedbacks s;
     next_oid := next_oid s; clock := clock s |}.

(** [User.findByIdAndUpdate(id, { $set: updateData },
                            { new: true, runValidators: true })]: the fields
    set are non-empty, so the validators pass; the unique index on [email]
    rejects a new address that another user has (an address left as it
    was writes nothing to the index). *)
Definition User_findByIdAndUpdate (id : ObjectId) (body : ProfileBody.t)
    (s : Store) : (Err + option User.t) * Store * list Effect :=
  match User_findById id s with
  | None => (inr None, s, [])
  | Some u =>
      let u' := set_profile body u in
      if negb (bool_decide (User.email u' = User.email u))
         && existsb (fun v => negb (bool_decide (User._id v = id))
                              && bool_decide (User.email v = User.email u'))
                    (users s)
      then (inl (DuplicateKey "users" "email_1"), s, [])
      else (inr (Some u'),
            with_users (update_one (fun v => bool_decide (User._id v = id))
                                   (set_profile body) (users s)) s,
            [])
  end.

(** PUT /api/users/profile; [id] is [req.user.id] *)
Definition put_profile (id : ObjectId) (body : ProfileBody.t) : M Answer :=
  try_catch
    (let! user := await (User_findByIdAndUpdate id body) in
     match user with
     | None => ret (not_found "User not found")
     | Some u => ret (ok (ProfileDoc (profile u)))
     end)
    (fun err => ret (plain (server_error err))).

Definition admins_only : Answer :=
  {| ans_status := 403;
     ans_body := Plain (JsonError "Access denied. Admins only.") |}.

(** [req.user.userType !== 'Admin'] *)
Definition not_admin (user : gmap string JsVal) : bool :=
  negb (bool_decide (user !! "userType" = Some (JStr "Admin"))).

(** GET /api/users *)
Definition get_users (user : gmap string JsVal) : M Answer :=
  try_catch
    (if not_admin user then ret admins_only
     else
       let! users := query (fun s => profile <$> users s) in
       ret (ok (Profiles users)))
    (fun err => ret (plain (server_error err))).

(** [User.findByIdAndDelete(id)] *)
Definition User_findByIdAndDelete (id : ObjectId) (s : Store)
  : (Err + option User.t) * Store * list Effect :=
  (inr (User_findById id s),
   with_users (delete_one (fun u => bool_decide (User._id u = id)) (users s)) s,
   []).

(** DELETE /api/users/:id *)
Definition delete_user (id : ObjectId) (user : gmap string JsVal) : M Answer :=
  try_catch
    (if not_admin user then ret admins_only
     else
       let! _ := await (User_findByIdAndDelete id) in
       ret (ok (Plain (JsonMessage "User deleted successfully"))))
    (fun err => ret (plain (server_error err))).

(** The routes as mounted. *)
Definition route_get_users (authorization : option Jwt) : M Answer :=
  auth_as plain authorization get_users.

Definition route_delete_user (authorization : option Jwt) (id : ObjectId)
  : M Answer :=
  auth_as plain authorization (delete_user id).

(** ** More sample data *)

Module Demo.
(** What a second create-assignment request writes, as an interference:
    its save of complaint 13 for agent 8. *)
Definition rival_save (s : Store) : Store :=
  (Assigned_save 13 8 (Some "G2") s).1.2.

Definition rival : list (Store -> Store) := [id; id; rival_save].

(** Agent 7 holds complaints 10, 11 and 12, and 13, which is resolved. *)
Definition three_and_one : Store :=
  {| users := [];
     complaints := [Sample.complaint 10 "Assigned"; Sample.complaint 11 "Assigned";
                    Sample.complaint 12 "Assigned"; Sample.complaint 13 "Resolved"];
     assigneds := [Sample.assignment 100 7 10; Sample.assignment 101 7 11;
                   Sample.assignment 102 7 12; Sample.assignment 103 7 13];
     messages := []; feedbacks := [];
     next_oid := 104%N; clock := 50%Z |}.

Definition report : ComplaintBody.t :=
  {| ComplaintBody.userId := Some 1%N;
     ComplaintBody.name := Some "Asha";
     ComplaintBody.address := Some "12 Lake Road";
     ComplaintBody.city := Some "Guntur";
     ComplaintBody.state := Some "AP";
     ComplaintBody.pincode := Some "522001";
     ComplaintBody.comment := Some "Street light broken";
     ComplaintBody.status := None;
     ComplaintBody.attachmentNames := NamesOne "photo of the pole" |}.

Definition photo : File :=
  {| file_path := "uploads/1700000000000.jpg";
     file_originalname := "IMG_0001.jpg";
     file_mimetype := "image/jpeg" |}.

Definition scan : File :=
  {| file_path := "uploads/1700000000001.pdf";
     file_originalname := "bill.pdf";
     file_mimetype := "application/pdf" |}.

(** A payload that carries a name, as [auth] would decode it. *)
Definition named (name : string) : gmap string JsVal :=
  <["name" := JStr name]> (<["id" := JId 302]> ∅).

Definition note (complaintId : ObjectId) (sender : string) : MessageBody.t :=
  {| MessageBody.complaintId := Some complaintId;
     MessageBody.name := Some sender;
     MessageBody.message := Some "any news?" |}.

Definition root : RegisterBody.t :=
  {| RegisterBody.name := Some "mallory";
     RegisterBody.email := Some "mallory@example.org";
     RegisterBody.password := Some "hunter2";
     RegisterBody.phone := Some "555-0199";
     RegisterBody.userType := Some "Admin" |}.

(** The body [{ status: st }]. *)
Definition status_only (st : string) : ComplaintPatch.t :=
  {| ComplaintPatch.userId := None; ComplaintPatch.name := None;
     ComplaintPatch.address := None; ComplaintPatch.city := None;
     ComplaintPatch.state := None; ComplaintPatch.pincode := None;
     ComplaintPatch.comment := None; ComplaintPatch.attachments := None;
     ComplaintPatch.status := Some st; ComplaintPatch.createdAt := None |}.

(** The body [{ attachments: [...], createdAt: 7 }]. *)
Definition redated (attachments : list Attachment) : ComplaintPatch.t :=
  {| ComplaintPatch.userId := None; ComplaintPatch.name := None;
     ComplaintPatch.address := None; ComplaintPatch.city := None;
     ComplaintPatch.state := None; ComplaintPatch.pincode := None;
     ComplaintPatch.comment := None;
     ComplaintPatch.attachments := Some attachments;
     ComplaintPatch.status := None; ComplaintPatch.createdAt := Some 7%Z |}.

(** Agent 7 holds complaints 10, 11 and 12, and 13, which is resolved;
    complaint 14 waits for an agent. *)
Definition reopenable : Store :=
  {| users := [];
     complaints := [Sample.complaint 10 "Assigned"; Sample.complaint 11 "Assigned";
                    Sample.complaint 12 "Assigned"; Sample.complaint 13 "Resolved";
                    Sample.complaint 14 "Pending"];
     assigneds := [Sample.assignment 100 7 10; Sample.assignment 101 7 11;
                   Sample.assignment 102 7 12; Sample.assignment 103 7 13];
     messages := []; feedbacks := [];
     next_oid := 104%N; clock := 50%Z |}.
End Demo.
(** * Properties *)

(** ** The store calls *)

Lemma Assigned_findOne_Some complaintId s :
  is_Some (Assigned_findOne complaintId s) ↔
  ∃ a, a ∈ assigneds s ∧ Assigned.complaintId a = complaintId.
Proof.
  unfold Assigned_findOne. split.
  - intros [a Ha]. apply find_some in Ha as [Hin Heq].
    exists a. split; [by apply list_elem_of_In | by apply bool_decide_eq_true in Heq].
  - intros (a & Hin & Heq).
    destruct (List.find _ _) eqn:Hf; [by eexists |].
    apply list_elem_of_In in Hin.
    pose proof (find_none _ _ Hf a Hin) as Hn. simpl in Hn.
    by rewrite bool_decide_eq_true_2 in Hn.
Qed.

Lemma Assigned_findOne_None complaintId s :
  Assigned_findOne complaintId s = None ↔
  ∀ a, a ∈ assigneds s → Assigned.complaintId a ≠ complaintId.
Proof.
  rewrite eq_None_not_Some, Assigned_findOne_Some. split.
  - intros Hn a Hin Heq. apply Hn. by exists a.
  - intros Hall (a & Hin & Heq). by apply (Hall a).
Qed.

Lemma unique_index_free complaintId s :
  Assigned_findOne complaintId s = None →
  existsb (fun a => bool_decide (Assigned.complaintId a = complaintId))
          (assigneds s) = false.
Proof.
  unfold Assigned_findOne. intros Hf.
  destruct (existsb _ _) eqn:He; [|done].
  apply existsb_exists in He as (a & Hin & Ha).
  by rewrite (find_none _ _ Hf a Hin) in Ha.
Qed.

Lemma unique_index_taken complaintId s :
  existsb (fun a => bool_decide (Assigned.complaintId a = complaintId))
          (assigneds s) = true →
  is_Some (Assigned_findOne complaintId s).
Proof.
  intros (a & Hin & Ha)%existsb_exists. apply Assigned_findOne_Some.
  exists a. split; [by apply list_elem_of_In | by apply bool_decide_eq_true in Ha].
Qed.

Section update_one.
Context {A : Type} (key : A → N) (f : A → A).
Hypothesis f_key : ∀ x, key (f x) = key x.

Lemma find_update_one_eq id (l : list A) :
  List.find (fun x => bool_decide (key x = id))
            (update_one (fun x => bool_decide (key x = id)) f l)
  = f <$> List.find (fun x => bool_decide (key x = id)) l.
Proof.
  induction l as [|x l IH]; [done|]. simpl.
  destruct (bool_decide (key x = id)) eqn:Hx; simpl.
  - by rewrite f_key, Hx.
  - by rewrite Hx.
Qed.

Lemma find_update_one_ne id id' (l : list A) :
  id' ≠ id →
  List.find (fun x => bool_decide (key x = id'))
            (update_one (fun x => bool_decide (key x = id)) f l)
  = List.find (fun x => bool_decide (key x = id')) l.
Proof.
  intros Hne. induction l as [|x l IH]; [done|]. simpl.
  destruct (bool_decide (key x = id)) eqn:Hx; simpl.
  - apply bool_decide_eq_true in Hx. rewrite f_key.
    by rewrite !bool_decide_eq_false_2 by congruence.
  - by rewrite IH.
Qed.

Lemma update_one_absent id (l : list A) :
  List.find (fun x => bool_decide (key x = id)) l = None →
  update_one (fun x => bool_decide (key x = id)) f l = l.
Proof.
  induction l as [|x l IH]; [done|]. simpl.
  destruct (bool_decide (key x = id)); [done|].
  intros H. by rewrite IH.
Qed.
End update_one.

Lemma Complaint_set_status_id st c :
  Complaint._id (Complaint.set_status st c) = Complaint._id c.
Proof. done. Qed.

(** After [findByIdAndUpdate(id, { status })], [findById(id)] returns the
    complaint with the new status and every other field as it was. *)
Lemma findById_after_update id st s :
  Complaint_findById id (set_complaint_status id st s)
  = Complaint.set_status st <$> Complaint_findById id s.
Proof.
  unfold Complaint_findById. simpl.
  apply (find_update_one_eq Complaint._id), Complaint_set_status_id.
Qed.

Lemma findById_after_update_ne id id' st s :
  id' ≠ id →
  Complaint_findById id' (set_complaint_status id st s)
  = Complaint_findById id' s.
Proof.
  intros. unfold Complaint_findById. simpl.
  apply (find_update_one_ne Complaint._id); [apply Complaint_set_status_id | done].
Qed.

Lemma update_absent id st s :
  Complaint_findById id s = None →
  set_complaint_status id st s = s.
Proof.
  intros H. unfold set_complaint_status, with_complaints.
  rewrite (update_one_absent Complaint._id) by done. by destruct s.
Qed.

(** ** Running a handler *)

Ltac unfold_handler :=
  unfold run, run_with, try_catch, bind, query, await, effect, ret.

Ltac step :=
  cbn -[Nat.leb Assigned_save Assigned_findOne activeCount
        Assigned_find_populate Complaint_findById set_complaint_status
        next_store].

Ltac step_seq :=
  cbn -[Nat.leb Assigned_save Assigned_findOne activeCount
        Assigned_find_populate Complaint_findById set_complaint_status].

Section post_assigned_run.
Variables (s : Store) (body : AssignedBody.t).
Let complaintId := AssignedBody.complaintId body.
Let agentId := AssignedBody.agentId body.

Lemma run_post_assigned_duplicate :
  is_Some (Assigned_findOne complaintId s) →
  run (post_assigned body) s = (inr already_assigned, quiet s).
Proof.
  intros [a Ha]. unfold post_assigned. unfold_handler. step_seq.
  fold complaintId. by rewrite Ha.
Qed.

Lemma run_post_assigned_limit :
  Assigned_findOne complaintId s = None →
  3 ≤ agent_active_count s agentId →
  run (post_assigned body) s = (inr limit_reached, quiet s).
Proof.
  intros Hnone Hcap. unfold post_assigned. unfold_handler. step_seq.
  fold complaintId agentId. rewrite Hnone. step_seq.
  apply Nat.leb_le in Hcap. unfold agent_active_count in Hcap.
  by rewrite Hcap.
Qed.

Lemma run_post_assigned_invalid :
  Assigned_findOne complaintId s = None →
  agent_active_count s agentId < 3 →
  required_string "agentName" (AssignedBody.agentName body) ≠ [] →
  run (post_assigned body) s
  = (inr (server_error (ValidationError "Assigned" ["agentName"])), quiet s).
Proof.
  intros Hnone Hcap Hname. unfold post_assigned. unfold_handler. step_seq.
  fold complaintId agentId. rewrite Hnone. step_seq.
  apply Nat.leb_gt in Hcap. unfold agent_active_count in Hcap.
  rewrite Hcap. unfold Assigned_save, required_string in *.
  destruct (AssignedBody.agentName body) as [n|]; [|done].
  destruct (bool_decide (n = "")); done.
Qed.

Lemma run_post_assigned_created n :
  Assigned_findOne complaintId s = None →
  agent_active_count s agentId < 3 →
  AssignedBody.agentName body = Some n → n ≠ "" →
  let a := new_Assigned complaintId agentId n s in
  let s1 := insert_assigned a s in
  let s2 := set_complaint_status complaintId "Assigned" s1 in
  run (post_assigned body) s
  = (inr {| res_status := 201; res_body := JsonAssigned a |},
     {| store := s2; env := [];
        log := [Inserted a; StatusSet complaintId "Assigned";
                Emit "complaintUpdated" (Complaint_findById complaintId s2)] |}).
Proof.
  intros Hnone Hcap Hname Hn. unfold post_assigned. unfold_handler. step_seq.
  fold complaintId agentId. rewrite Hnone. step_seq.
  apply Nat.leb_gt in Hcap. unfold agent_active_count in Hcap.
  rewrite Hcap. unfold Assigned_save. rewrite Hname.
  rewrite bool_decide_eq_false_2 by done.
  rewrite unique_index_free by done. done.
Qed.
End post_assigned_run.

Lemma post_assigned_cases s body :
  let complaintId := AssignedBody.complaintId body in
  let agentId := AssignedBody.agentId body in
  (is_Some (Assigned_findOne complaintId s) ∧
   run (post_assigned body) s = (inr already_assigned, quiet s))
  ∨ (Assigned_findOne complaintId s = None ∧
     3 ≤ agent_active_count s agentId ∧
     run (post_assigned body) s = (inr limit_reached, quiet s))
  ∨ (Assigned_findOne complaintId s = None ∧
     agent_active_count s agentId < 3 ∧
     required_string "agentName" (AssignedBody.agentName body) ≠ [] ∧
     run (post_assigned body) s
     = (inr (server_error (ValidationError "Assigned" ["agentName"])), quiet s))
  ∨ (∃ n, Assigned_findOne complaintId s = None ∧
          agent_active_count s agentId < 3 ∧
          AssignedBody.agentName body = Some n ∧ n ≠ "" ∧
          let a := new_Assigned complaintId agentId n s in
          let s2 := set_complaint_status complaintId "Assigned"
                                            (insert_assigned a s) in
          run (post_assigned body) s
          = (inr {| res_status := 201; res_body := JsonAssigned a |},
             {| store := s2; env := [];
                log := [Inserted a; StatusSet complaintId "Assigned";
                        Emit "complaintUpdated"
                             (Complaint_findById complaintId s2)] |})).
Proof.
  intros complaintId agentId.
  destruct (Assigned_findOne complaintId s) as [a|] eqn:Hfind.
  { left. split; [by eexists|]. apply run_post_assigned_duplicate.
    fold complaintId. by rewrite Hfind. }
  right. destruct (le_lt_dec 3 (agent_active_count s agentId)) as [Hcap|Hcap].
  { left. by rewrite run_post_assigned_limit. }
  right. destruct (AssignedBody.agentName body) as [n|] eqn:Hname.
  - destruct (decide (n = "")) as [->|Hn].
    + left. rewrite run_post_assigned_invalid; [done..|by rewrite Hname].
    + right. exists n. repeat split; try done.
      by apply run_post_assigned_created.
  - left. rewrite run_post_assigned_invalid; [done..|by rewrite Hname].
Qed.

(** ** Counting active assignments *)

Lemma activeCount_app l1 l2 :
  activeCount (l1 ++ l2) = activeCount l1 + activeCount l2.
Proof. unfold activeCount. by rewrite List.filter_app, length_app. Qed.

(** What a successful create-assignment does to the active count of any
    agent: one more for the agent of the call when the complaint exists,
    nothing otherwise. *)
Lemma active_count_after_create s complaintId agentId n agent :
  Assigned_findOne complaintId s = None →
  let a := new_Assigned complaintId agentId n s in
  let s2 := set_complaint_status complaintId "Assigned" (insert_assigned a s) in
  agent_active_count s2 agent
  = agent_active_count s agent
    + (if bool_decide (agentId = agent) then
         match Complaint_findById complaintId s with Some _ => 1 | None => 0 end
       else 0).
Proof.
  intros Hfree a s2. unfold agent_active_count, Assigned_find_populate.
  replace (assigneds s2) with (assigneds s ++ [a]) by done.
  rewrite list.filter_app, fmap_app, activeCount_app. f_equal.
  - f_equal. apply list_fmap_ext. intros i x Hx.
    apply list_elem_of_lookup_2, list_elem_of_filter in Hx as [_ Hx].
    f_equal. unfold s2. rewrite findById_after_update_ne; [done|].
    by eapply Assigned_findOne_None.
  - rewrite list.filter_cons, list.filter_nil. simpl.
    case_bool_decide as Hag; rewrite decide_bool_decide.
    + rewrite bool_decide_eq_true_2 by done. unfold activeCount, is_active.
      simpl. unfold s2. rewrite findById_after_update.
      replace (Complaint_findById complaintId (insert_assigned a s))
        with (Complaint_findById complaintId s) by done.
      by destruct (Complaint_findById complaintId s).
    + by rewrite bool_decide_eq_false_2.
Qed.

Lemma active_count_spec s agent :
  agent_active_count s agent
  = length (filter (counts_toward_limit s agent) (assigneds s)).
Proof.
  unfold agent_active_count, Assigned_find_populate, activeCount.
  induction (assigneds s) as [|a l IH]; [done|].
  rewrite !list.filter_cons.
  destruct (decide (Assigned.agentId a = agent)) as [Hag|Hag].
  - rewrite fmap_cons. cbn [List.filter]. unfold is_active at 1. cbn [snd].
    destruct (decide (counts_toward_limit s agent a)) as [(_ & c & Hc & Hst)|Hno].
    + rewrite Hc, bool_decide_eq_false_2 by done. simpl. by rewrite IH.
    + destruct (Complaint_findById (Assigned.complaintId a) s) as [c|] eqn:Hc;
        [|done].
      case_bool_decide as Hst; [done|].
      exfalso. apply Hno. split; [done|]. by exists c.
  - rewrite decide_False; [done|]. by intros [? _].
Qed.

(** ** Create assignment *)

(** C1. The precondition checks of create-assignment, in order: an
    assignment that already references the complaint gives the
    duplicate-assignment error and nothing is created; otherwise an agent
    whose active count is already 3 or more gives the capacity error and
    nothing is created; an assignment is persisted only when both checks
    passed. *)
Theorem create_assignment_checks_in_order (s : Store) (body : AssignedBody.t) :
  let complaintId := AssignedBody.complaintId body in
  let agentId := AssignedBody.agentId body in
  let out := run (post_assigned body) s in
  ((∃ a, a ∈ assigneds s ∧ Assigned.complaintId a = complaintId) →
   out = (inr already_assigned, quiet s))
  ∧ ((∀ a, a ∈ assigneds s → Assigned.complaintId a ≠ complaintId) →
     3 ≤ agent_active_count s agentId →
     out = (inr limit_reached, quiet s))
  ∧ (assigneds (store out.2) ≠ assigneds s →
     (∀ a, a ∈ assigneds s → Assigned.complaintId a ≠ complaintId)
     ∧ agent_active_count s agentId < 3
     ∧ ∃ a, assigneds (store out.2) = assigneds s ++ [a]
            ∧ Assigned.complaintId a = complaintId
            ∧ Assigned.agentId a = agentId
            ∧ Some (Assigned.agentName a) = AssignedBody.agentName body).
Proof.
  intros complaintId agentId out. split; [|split].
  - intros Hex. apply run_post_assigned_duplicate.
    by apply Assigned_findOne_Some.
  - intros Hnone Hcap. apply run_post_assigned_limit; [|done].
    by apply Assigned_findOne_None.
  - intros Hchg.
    destruct (post_assigned_cases s body)
      as [[_ H]|[(_ & _ & H)|[(_ & _ & _ & H)|(n & Hf & Hc & Hn & _ & H)]]];
      try (exfalso; apply Hchg; unfold out; by rewrite H).
    split; [by apply Assigned_findOne_None|]. split; [done|].
    exists (new_Assigned complaintId agentId n s).
    unfold out. rewrite H. by rewrite Hn.
Qed.

Lemma create_assignment_checks_in_order_witness :
  run (post_assigned (Sample.body 10 8)) Sample.busy
    = (inr already_assigned, quiet Sample.busy)
  ∧ run (post_assigned (Sample.body 13 7)) Sample.busy
    = (inr limit_reached, quiet Sample.busy)
  ∧ ∃ a, assigneds (store (run (post_assigned (Sample.body 13 8)) Sample.busy).2)
         = assigneds Sample.busy ++ [a].
Proof.
  pose proof (create_assignment_checks_in_order Sample.busy (Sample.body 10 8))
    as (H1 & _ & _).
  pose proof (create_assignment_checks_in_order Sample.busy (Sample.body 13 7))
    as (_ & H2 & _).
  pose proof (create_assignment_checks_in_order Sample.busy (Sample.body 13 8))
    as (_ & _ & H3).
  split; [|split].
  - apply H1. exists (Sample.assignment 100 7 10).
    split; [apply list_elem_of_here | reflexivity].
  - apply H2.
    + intros a Ha. apply list_elem_of_In in Ha. simpl in Ha.
      destruct Ha as [<-|[<-|[<-|[]]]]; discriminate.
    + vm_compute. lia.
  - destruct H3 as (_ & _ & a & Ha & _); [vm_compute; discriminate|].
    by exists a.
Defined.

(** C2. A successful create-assignment for a stored complaint: the
    complaint's status is "Assigned" afterwards, and the call inserted the
    assignment, then set the status, then emitted "complaintUpdated" with
    the complaint as re-read (all fields as they were, status "Assigned"),
    and answered with the created assignment. *)
Theorem create_assignment_sets_status_and_notifies
    (s : Store) (body : AssignedBody.t) (c : Complaint.t)
    (resp : Response) (r : Run) :
  let complaintId := AssignedBody.complaintId body in
  Complaint_findById complaintId s = Some c →
  run (post_assigned body) s = (inr resp, r) →
  res_status resp = 201 →
  ∃ a, res_body resp = JsonAssigned a
       ∧ a ∈ assigneds (store r)
       ∧ Assigned.complaintId a = complaintId
       ∧ Complaint_findById complaintId (store r)
         = Some (Complaint.set_status "Assigned" c)
       ∧ Complaint.status (Complaint.set_status "Assigned" c) = "Assigned"
       ∧ log r = [Inserted a;
                  StatusSet complaintId "Assigned";
                  Emit "complaintUpdated"
                       (Some (Complaint.set_status "Assigned" c))].
Proof.
  intros complaintId Hc Hrun Hok. subst complaintId.
  destruct (post_assigned_cases s body)
    as [[_ H]|[(_ & _ & H)|[(_ & _ & _ & H)|(n & Hf & _ & _ & _ & H)]]];
    rewrite Hrun in H; cbv zeta in H; injection H as -> ->; try discriminate.
  eexists. split; [done|]. cbn [store log].
  rewrite findById_after_update.
  replace (Complaint_findById _ (insert_assigned _ s))
    with (Complaint_findById (AssignedBody.complaintId body) s) by done.
  rewrite Hc. simpl. split; [|done].
  apply elem_of_app. right. apply list_elem_of_here.
Qed.

Lemma create_assignment_sets_status_and_notifies_witness :
  ∃ a, log (run (post_assigned (Sample.body 13 8)) Sample.busy).2
       = [Inserted a; StatusSet 13 "Assigned";
          Emit "complaintUpdated" (Some (Sample.complaint 13 "Assigned"))].
Proof.
  destruct (create_assignment_sets_status_and_notifies
              Sample.busy (Sample.body 13 8) (Sample.complaint 13 "Pending")
              {| res_status := 201;
                 res_body := JsonAssigned (new_Assigned 13 8 "G1" Sample.busy) |}
              (run (post_assigned (Sample.body 13 8)) Sample.busy).2)
    as (a & _ & _ & _ & _ & _ & Hlog); [reflexivity | reflexivity | reflexivity |].
  exists a. exact Hlog.
Defined.

(** C3, as the code has it.  The count is the claim's: the assignments of
    an agent whose complaint is stored with a status other than
    "Resolved".  Without concurrent writers, right after a successful
    create-assignment the agent the call assigns to counts at most 3, and
    the count of every other agent is exactly what it was before the
    call: the call neither raises nor repairs it. *)
Theorem active_count_at_most_3_after_create
    (s : Store) (body : AssignedBody.t) (resp : Response) (r : Run) :
  run (post_assigned body) s = (inr resp, r) →
  res_status resp = 201 →
  length (filter (counts_toward_limit (store r) (AssignedBody.agentId body))
                 (assigneds (store r))) ≤ 3
  ∧ ∀ agent, agent ≠ AssignedBody.agentId body →
      length (filter (counts_toward_limit (store r) agent) (assigneds (store r)))
      = length (filter (counts_toward_limit s agent) (assigneds s)).
Proof.
  intros Hrun Hok.
  destruct (post_assigned_cases s body)
    as [[_ H]|[(_ & _ & H)|[(_ & _ & _ & H)|(n & Hf & Hcap & _ & _ & H)]]];
    rewrite Hrun in H; cbv zeta in H; injection H as -> ->; try discriminate.
  cbn [store].
  split; [|intros agent Hagent];
    rewrite <- !active_count_spec, active_count_after_create by done.
  - rewrite bool_decide_eq_true_2 by done. case_match; lia.
  - rewrite bool_decide_eq_false_2 by done. lia.
Qed.

Lemma active_count_at_most_3_after_create_witness :
  let after := store (run (post_assigned (Sample.body 12 7)) Sample.nearly_full).2 in
  length (filter (counts_toward_limit Sample.nearly_full 7)
                 (assigneds Sample.nearly_full)) = 2
  ∧ length (filter (counts_toward_limit after 7) (assigneds after)) ≤ 3
  ∧ length (filter (counts_toward_limit after 7) (assigneds after)) = 3.
Proof.
  intros after. split; [reflexivity|]. split; [|reflexivity].
  refine (proj1 (active_count_at_most_3_after_create
            Sample.nearly_full (Sample.body 12 7)
            (match (run (post_assigned (Sample.body 12 7)) Sample.nearly_full).1 with
             | inr resp => resp
             | inl _ => limit_reached
             end) _ _ _)); reflexivity.
Defined.

(** C3 as stated, for every agent, fails without any concurrent writer.
    In [Demo.reopenable] no agent counts more than 3.  PUT
    /api/complaints/13 with [{ status: "Pending" }] reopens the resolved
    complaint of agent 7, unchecked; the create-assignment that follows,
    for agent 8, is answered 201, and right after it agent 7 counts 4. *)
Theorem reopened_agent_exceeds_3_after_create :
  let count s agent :=
    length (filter (counts_toward_limit s agent) (assigneds s)) in
  let reopen := run (put_complaint 13 (Demo.status_only "Pending"))
                    Demo.reopenable in
  let create := run (post_assigned (Sample.body 14 8)) (store reopen.2) in
  (∀ agent, count Demo.reopenable agent ≤ 3)
  ∧ reopen.1 = inr (ok (ComplaintDoc (Sample.complaint 13 "Pending")))
  ∧ create.1
    = inr {| res_status := 201;
             res_body := JsonAssigned (new_Assigned 14 8 "G1" (store reopen.2)) |}
  ∧ count (store create.2) 8%N = 1
  ∧ count (store create.2) 7%N = 4.
Proof.
  cbv zeta. split; [|by repeat split].
  intros agent. destruct (decide (agent = 7%N)) as [->|Hne]; [vm_compute; lia|].
  rewrite <- active_count_spec.
  unfold agent_active_count, Assigned_find_populate.
  cbn [Demo.reopenable assigneds]. rewrite !list.filter_cons, filter_nil.
  rewrite !decide_False by (cbn; congruence). cbn. lia.
Qed.

(** C9, as the code has it.  Create-assignment does not look the complaint
    up before it assigns: for a complaint id that no stored complaint has
    and no assignment references, with the agent below its limit and a
    non-empty agent name, the call answers 201, the assignment is
    persisted, no complaint changes, and "complaintUpdated" is emitted
    with a null payload. *)
Theorem create_assignment_for_missing_complaint
    (s : Store) (body : AssignedBody.t) (n : string) :
  let complaintId := AssignedBody.complaintId body in
  let agentId := AssignedBody.agentId body in
  Complaint_findById complaintId s = None →
  (∀ a, a ∈ assigneds s → Assigned.complaintId a ≠ complaintId) →
  agent_active_count s agentId < 3 →
  AssignedBody.agentName body = Some n → n ≠ "" →
  ∃ a, Assigned.complaintId a = complaintId
       ∧ Assigned.agentId a = agentId
       ∧ run (post_assigned body) s
         = (inr {| res_status := 201; res_body := JsonAssigned a |},
            {| store := insert_assigned a s; env := [];
               log := [Inserted a; StatusSet complaintId "Assigned";
                       Emit "complaintUpdated" None] |}).
Proof.
  intros complaintId agentId Hmissing Hfree Hcap Hname Hn.
  exists (new_Assigned complaintId agentId n s). split; [done|]. split; [done|].
  rewrite (run_post_assigned_created s body n); try done.
  - fold complaintId agentId.
    rewrite update_absent by done.
    replace (Complaint_findById complaintId (insert_assigned _ s))
      with (Complaint_findById complaintId s) by done.
    by rewrite Hmissing.
  - by apply Assigned_findOne_None.
Qed.

Lemma create_assignment_for_missing_complaint_witness :
  ∃ a, run (post_assigned (Sample.body 99 8)) Sample.busy
       = (inr {| res_status := 201; res_body := JsonAssigned a |},
          {| store := insert_assigned a Sample.busy; env := [];
             log := [Inserted a; StatusSet 99 "Assigned";
                     Emit "complaintUpdated" None] |}).
Proof.
  destruct (create_assignment_for_missing_complaint
              Sample.busy (Sample.body 99 8) "G1") as (a & _ & _ & Ha).
  - reflexivity.
  - intros a Ha. apply list_elem_of_In in Ha. simpl in Ha.
    destruct Ha as [<-|[<-|[<-|[]]]]; discriminate.
  - vm_compute. lia.
  - reflexivity.
  - discriminate.
  - by exists a.
Defined.

(** C9 as stated fails.  No complaint has id 99 and no assignment
    references it, yet the call for agent 7, who holds three active
    assignments, is refused, and so is a call that names no agent; neither
    persists anything. *)
Lemma create_assignment_for_missing_complaint_refused :
  Complaint_findById 99 Sample.busy = None
  ∧ Assigned_findOne 99 Sample.busy = None
  ∧ run (post_assigned (Sample.body 99 7)) Sample.busy
    = (inr limit_reached, quiet Sample.busy)
  ∧ run (post_assigned (Sample.nameless 99 8)) Sample.busy
    = (inr (server_error (ValidationError "Assigned" ["agentName"])),
       quiet Sample.busy).
Proof. by vm_compute. Qed.

(** ** Which assignments count *)

Lemma mapM_query {A B C} (f : A → Store → B) (g : A → B → C) l s lg :
  mapM (fun x => let! y := query (f x) in ret (g x y)) l
       {| store := s; env := []; log := lg |}
  = (inr ((λ x, g x (f x s)) <$> l), {| store := s; env := []; log := lg |}).
Proof.
  induction l as [|x l IH]; [done|].
  cbn [mapM]. unfold bind, query, await, ret in *.
  cbn [next_store env store log tail]. rewrite app_nil_r.
  by rewrite IH.
Qed.

Lemma run_get_agents s :
  run get_agents s
  = (inr {| res_status := 200;
            res_body := JsonAgents
              ((λ u, agent_with_count u (agent_active_count s (User._id u)))
                 <$> User_find_agents s) |},
     quiet s).
Proof.
  pose proof (mapM_query (λ u, Assigned_find_populate (User._id u))
                         (λ u l, agent_with_count u (activeCount l))
                         (User_find_agents s) s []) as Hmap.
  unfold get_agents, run, run_with, try_catch.
  unfold bind at 1. unfold query at 1. unfold await.
  cbn [next_store env store log tail app]. unfold bind at 1.
  by rewrite Hmap.
Qed.

(** C10. The number that the capacity check compares with 3, and that the
    agent listing shows, is the number of the agent's assignments whose
    complaint is stored with a status other than "Resolved": an assignment
    whose complaint was deleted never counts.  The check decides by that
    number alone: for an unassigned complaint id and a non-empty agent
    name, the call is refused with the capacity error, nothing written,
    when the number is 3 or more, and otherwise answered 201 with the new
    assignment stored.  So an agent all of whose assignments are orphaned,
    however many they are, still receives the next one. *)
Theorem orphaned_assignments_never_count (s : Store) :
  let count agent :=
    length (filter (counts_toward_limit s agent) (assigneds s)) in
  (∀ agent, agent_active_count s agent = count agent)
  ∧ run get_agents s
    = (inr {| res_status := 200;
              res_body := JsonAgents
                ((λ u, agent_with_count u (count (User._id u)))
                   <$> User_find_agents s) |},
       quiet s)
  ∧ (∀ (body : AssignedBody.t) (n : string),
       (∀ a, a ∈ assigneds s →
             Assigned.complaintId a ≠ AssignedBody.complaintId body) →
       AssignedBody.agentName body = Some n → n ≠ "" →
       (3 ≤ count (AssignedBody.agentId body) →
        run (post_assigned body) s = (inr limit_reached, quiet s))
       ∧ (count (AssignedBody.agentId body) < 3 →
          ∃ a r,
            run (post_assigned body) s
            = (inr {| res_status := 201; res_body := JsonAssigned a |}, r)
            ∧ assigneds (store r) = assigneds s ++ [a]
            ∧ Assigned.agentId a = AssignedBody.agentId body
            ∧ Assigned.complaintId a = AssignedBody.complaintId body))
  ∧ (∀ agent,
       (∀ a, a ∈ assigneds s → Assigned.agentId a = agent →
             Complaint_findById (Assigned.complaintId a) s = None) →
       count agent = 0).
Proof.
  intros count. split; [apply active_count_spec|]. split; [|split].
  - rewrite run_get_agents. do 4 f_equal. apply list_fmap_ext.
    intros i u _. by rewrite active_count_spec.
  - intros body n Hfree Hname Hn. split; intros Hcount.
    + apply run_post_assigned_limit.
      * by apply Assigned_findOne_None.
      * by rewrite active_count_spec.
    + eexists _, _. split.
      * apply (run_post_assigned_created s body n); try done.
        -- by apply Assigned_findOne_None.
        -- by rewrite active_count_spec.
      * by repeat split.
  - intros agent Horphans. unfold count.
    destruct (filter _ _) as [|a l] eqn:Hf; [done|].
    assert (a ∈ a :: l) as Ha by apply list_elem_of_here.
    rewrite <- Hf in Ha.
    apply list_elem_of_filter in Ha as [(Hag & c & Hc & _) Ha].
    by rewrite (Horphans a Ha Hag) in Hc.
Qed.

Lemma orphaned_assignments_never_count_witness :
  length (assigneds Sample.orphaned) = 3
  ∧ length (filter (counts_toward_limit Sample.orphaned 7)
                   (assigneds Sample.orphaned)) = 0
  ∧ (∃ a r, run (post_assigned (Sample.body 13 7)) Sample.orphaned
            = (inr {| res_status := 201; res_body := JsonAssigned a |}, r)
            ∧ assigneds (store r) = assigneds Sample.orphaned ++ [a]
            ∧ Assigned.agentId a = 7%N)
  ∧ run (post_assigned (Sample.body 13 7)) Sample.busy
    = (inr limit_reached, quiet Sample.busy).
Proof.
  destruct (orphaned_assignments_never_count Sample.orphaned)
    as (_ & _ & Hcheck & Hzero).
  destruct (orphaned_assignments_never_count Sample.busy)
    as (_ & _ & Hbusy & _).
  cbv zeta in Hcheck, Hzero, Hbusy.
  assert (length (filter (counts_toward_limit Sample.orphaned 7)
                         (assigneds Sample.orphaned)) = 0) as H0.
  { apply Hzero. intros a Ha _. apply list_elem_of_In in Ha. simpl in Ha.
    destruct Ha as [<-|[<-|[<-|[]]]]; reflexivity. }
  split; [reflexivity|]. split; [exact H0|]. split.
  - destruct (Hcheck (Sample.body 13 7) "G1") as [_ H201].
    + intros a Ha. apply list_elem_of_In in Ha. simpl in Ha.
      destruct Ha as [<-|[<-|[<-|[]]]]; discriminate.
    + reflexivity.
    + discriminate.
    + destruct H201 as (a & r & Hrun & Hstored & Hagent & _).
      * cbn [Sample.body AssignedBody.agentId]. rewrite H0. lia.
      * by exists a, r.
  - destruct (Hbusy (Sample.body 13 7) "G1") as [Hlimit _].
    + intros a Ha. apply list_elem_of_In in Ha. simpl in Ha.
      destruct Ha as [<-|[<-|[<-|[]]]]; discriminate.
    + reflexivity.
    + discriminate.
    + apply Hlimit. vm_compute. lia.
Defined.

(** The complaints of [Sample.busy] deleted through the delete route, one
    after the other: the assignments stay behind. *)
Lemma delete_does_not_cascade :
  let s1 := store (run (delete_complaint 10) Sample.busy).2 in
  let s2 := store (run (delete_complaint 11) s1).2 in
  store (run (delete_complaint 12) s2).2 = Sample.orphaned.
Proof. reflexivity. Qed.

(** ** Create assignment under concurrent writers *)

(** C4. Whatever other requests do between the steps of create-assignment:
    when the unique index on [complaintId] rejects the insert (code
    11000), the caller gets the duplicate-assignment answer, status 400
    with 'Complaint is already assigned to an agent', and not the generic
    500. *)
Theorem unique_index_rejection_reported_as_duplicate
    (others : list (Store → Store)) (s : Store) (body : AssignedBody.t)
    (e : Err) :
  InsertRejected e ∈ log (run_with others (post_assigned body) s).2 →
  code e = Some 11000%Z →
  (run_with others (post_assigned body) s).1 = inr already_assigned.
Proof.
  unfold post_assigned. unfold_handler. step.
  destruct (Assigned_findOne _ _); step.
  { by intros ?%elem_of_nil. }
  destruct (3 <=? _); step.
  { by intros ?%elem_of_nil. }
  unfold Assigned_save.
  destruct (AssignedBody.agentName body) as [n|]; step.
  2: { by intros ?%elem_of_nil. }
  destruct (bool_decide (n = "")); step.
  { by intros ?%elem_of_nil. }
  destruct (existsb _ _); step.
  - done.
  - rewrite !elem_of_cons, elem_of_nil. by intros [|[|[|]]].
Qed.

Lemma unique_index_rejection_reported_as_duplicate_witness :
  (run_with Sample.lost_race (post_assigned (Sample.body 13 7)) Sample.fresh).1
  = inr {| res_status := 400;
           res_body := JsonError "Complaint is already assigned to an agent" |}.
Proof.
  apply (unique_index_rejection_reported_as_duplicate
           Sample.lost_race Sample.fresh (Sample.body 13 7)
           (DuplicateKey "assigneds" "complaintId_1")).
  - apply list_elem_of_here.
  - reflexivity.
Defined.

(** Why C3 asks for no concurrent writers: agent 7 has two active
    assignments when the capacity is read, a third arrives before the
    write, and the call still answers 201; agent 7 ends with four. *)
Lemma limit_exceeded_under_interference :
  let out := run_with Sample.overtaken (post_assigned (Sample.body 13 7))
                      Sample.nearly_full in
  (∃ a, out.1 = inr {| res_status := 201; res_body := JsonAssigned a |})
  ∧ agent_active_count (store out.2) 7 = 4.
Proof. split; [by eexists | reflexivity]. Qed.

(** ** Tokens *)

Lemma token_payload_no_name u : token_payload u !! "name" = None.
Proof. unfold token_payload. by simplify_map_eq. Qed.

Lemma jwt_sign_no_name payload secret expiresIn now :
  payload !! "name" = None →
  jwt_payload (jwt_sign payload secret expiresIn now) !! "name" = None.
Proof. intros H. unfold jwt_sign. simpl. by simplify_map_eq. Qed.

Lemma jwt_verify_payload token secret now decoded :
  jwt_verify token secret now = Some decoded → decoded = jwt_payload token.
Proof.
  unfold jwt_verify. intros H.
  repeat case_match; by simplify_eq.
Qed.

(** Every issued token is [jwt.sign] of some user's [{ id, userType }]. *)
Lemma issued_shape bcrypt_hash bcrypt_compare token :
  issued bcrypt_hash bcrypt_compare token →
  ∃ u now, token = jwt_sign (token_payload u) SECRET_KEY 3600 now.
Proof.
  intros [others s body status message user r H
         |others s body status message user r H].
  - revert H. unfold register, hash. unfold_handler. cbn -[next_store].
    destruct (RegisterBody.password body); cbn -[next_store User_save];
      [|discriminate].
    destruct (User_save _ _ _ _ _ _) as [[[e|u] s'] effs];
      cbn -[next_store]; [discriminate|].
    intros [= _ _ <- _ _]. by eexists _, _.
  - revert H. unfold login, compare. unfold_handler. cbn -[next_store].
    destruct (User_findOne _ _) as [u|]; cbn -[next_store]; [|discriminate].
    destruct (LoginBody.password body); cbn -[next_store]; [|discriminate].
    destruct (bcrypt_compare _ _); cbn -[next_store]; [|discriminate].
    intros [= _ _ <- _ _]. by eexists _, _.
Qed.

(** ** Messages *)

Section messages.
Variable ne_undefined : bool.

Lemma run_put_messages_read complaintId user s :
  run (put_messages_read ne_undefined complaintId user) s
  = (inr {| res_status := 200; res_body := JsonSuccess |},
     quiet (mark_read ne_undefined complaintId (user_name user) s)).
Proof. done. Qed.

Lemma run_get_unread_counts user s :
  run (get_unread_counts ne_undefined user) s
  = (inr {| res_status := 200;
            res_body := JsonCounts
              (to_counts (Message_aggregate ne_undefined (user_name user) s)) |},
     quiet s).
Proof. done. Qed.

(** [auth] lets a request through exactly when its token verifies. *)
Lemma auth_verified token next decoded r :
  jwt_verify token SECRET_KEY (clock (store r)) = Some decoded →
  auth (Some token) next r = next decoded r.
Proof. unfold auth. by intros ->. Qed.

Lemma auth_rejected token next r :
  jwt_verify token SECRET_KEY (clock (store r)) = None →
  auth (Some token) next r = (inr invalid_token, r).
Proof. unfold auth. by intros ->. Qed.

(** Behind [auth], create-assignment and create-feedback are the handlers
    run on what the token decodes to. *)
Lemma route_assigned_verified token decoded body r :
  jwt_verify token SECRET_KEY (clock (store r)) = Some decoded →
  route_assigned (Some token) body r = post_assigned body r.
Proof. intros H. unfold route_assigned. by rewrite (auth_verified _ _ decoded). Qed.

Lemma route_feedback_verified token decoded body r :
  jwt_verify token SECRET_KEY (clock (store r)) = Some decoded →
  route_feedback (Some token) body r = post_feedback body decoded r.
Proof. intros H. unfold route_feedback. by rewrite (auth_verified _ _ decoded). Qed.

(** The message handlers look at nothing in the decoded token but its
    [name]. *)
Lemma put_messages_read_name complaintId user user' :
  user_name user = user_name user' →
  put_messages_read ne_undefined complaintId user
  = put_messages_read ne_undefined complaintId user'.
Proof. unfold put_messages_read. by intros ->. Qed.

Lemma get_unread_counts_name user user' :
  user_name user = user_name user' →
  get_unread_counts ne_undefined user = get_unread_counts ne_undefined user'.
Proof. unfold get_unread_counts. by intros ->. Qed.
End messages.

(** C8. A token issued by register or by login carries the user's id and
    userType (and the issue and expiry stamps) and no name.  So in every
    call to mark-read or unread-counts that [auth] lets through with such a
    token, [req.user.name] is undefined, and the call does exactly what it
    does for a caller without any name: the user's display name takes no
    part in the sender filter. *)
Theorem issued_token_has_no_name
    (bcrypt_hash : string → string) (bcrypt_compare : string → string → bool)
    (ne_undefined : bool) (token : Jwt) :
  issued bcrypt_hash bcrypt_compare token →
  dom (jwt_payload token) = ({["id"; "userType"; "iat"; "exp"]} : gset string)
  ∧ ∀ (others : list (Store → Store)) (s : Store) (decoded : gmap string JsVal),
      jwt_verify token SECRET_KEY (clock s) = Some decoded →
      user_name decoded = None
      ∧ (∀ complaintId,
           run_with others
             (route_messages_read ne_undefined (Some token) complaintId) s
           = run_with others
               (put_messages_read ne_undefined complaintId ∅) s)
      ∧ run_with others (route_unread_counts ne_undefined (Some token)) s
        = run_with others (get_unread_counts ne_undefined ∅) s.
Proof.
  intros (u & now & ->)%issued_shape. split.
  { unfold jwt_sign, token_payload. cbn [jwt_payload].
    rewrite !dom_insert_L, dom_empty_L. set_solver. }
  intros others s decoded Hverify.
  assert (user_name decoded = None) as Hname.
  { apply jwt_verify_payload in Hverify as ->.
    apply jwt_sign_no_name, token_payload_no_name. }
  split; [done|]. split; [intros complaintId|].
  - unfold run_with, route_messages_read.
    rewrite (auth_verified _ _ decoded) by done.
    by rewrite (put_messages_read_name _ _ decoded ∅).
  - unfold run_with, route_unread_counts.
    rewrite (auth_verified _ _ decoded) by done.
    by rewrite (get_unread_counts_name _ decoded ∅).
Qed.

Lemma issued_token_has_no_name_witness :
  user_name (jwt_payload Sample.alice_token) = None
  ∧ run (route_messages_read true (Some Sample.alice_token) 10)
        Sample.chat_registered
    = run (put_messages_read true 10 ∅) Sample.chat_registered.
Proof.
  assert (issued Sample.plain_hash Sample.plain_compare Sample.alice_token)
    as Hissued.
  { eapply (issued_by_register _ _ _ [] Sample.chat Sample.alice). reflexivity. }
  destruct (issued_token_has_no_name
              Sample.plain_hash Sample.plain_compare true Sample.alice_token
              Hissued) as [_ H].
  destruct (H [] Sample.chat_registered (jwt_payload Sample.alice_token))
    as (Hname & Hread & _); [reflexivity|].
  split; [exact Hname | exact (Hread 10%N)].
Defined.

(** *** Mark read, for a caller whose token does carry a name *)

Section mark_read.
Variable ne_undefined : bool.

Lemma set_read_read m : Message.read m = true → Message.set_read true m = m.
Proof. destruct m. simpl. by intros ->. Qed.

(** With [req.user.name = N], mark-read sets [read] on exactly the
    messages of the complaint whose sender is not [N]; every other
    message is left as it is. *)
Lemma mark_read_named complaintId N s :
  messages (mark_read ne_undefined complaintId (Some (JStr N)) s)
  = (λ m, if decide (from_someone_else complaintId N m)
          then Message.set_read true m else m) <$> messages s.
Proof.
  unfold mark_read. cbn [messages with_messages].
  apply list_fmap_ext. intros _ m _. unfold ne, from_someone_else.
  destruct (decide (Message.complaintId m = complaintId)) as [Hc|Hc].
  - rewrite (bool_decide_eq_true_2 _ Hc). cbn [andb].
    destruct (decide (Message.name m = N)) as [Hn|Hn].
    + rewrite bool_decide_eq_true_2 by congruence. cbn [negb andb].
      rewrite decide_False; [done|]. by intros [_ ?].
    + rewrite bool_decide_eq_false_2 by congruence. cbn [negb andb].
      rewrite decide_True by done.
      destruct (Message.read m) eqn:Hr; [|done]. cbn [negb].
      by rewrite set_read_read.
  - rewrite (bool_decide_eq_false_2 _ Hc). cbn [andb].
    rewrite decide_False; [done|]. by intros [? _].
Qed.

(** Marking read twice is marking read once, whoever calls. *)
Lemma mark_read_idempotent complaintId userName s :
  mark_read ne_undefined complaintId userName
    (mark_read ne_undefined complaintId userName s)
  = mark_read ne_undefined complaintId userName s.
Proof.
  unfold mark_read, with_messages. cbn [messages users complaints assigneds
    feedbacks next_oid clock]. f_equal.
  rewrite <- list_fmap_compose. apply list_fmap_ext. intros _ m _.
  cbn [compose].
  destruct (bool_decide (Message.complaintId m = complaintId)
            && ne ne_undefined (Message.name m) userName
            && negb (Message.read m)) eqn:Hm; [|by rewrite Hm].
  cbn [Message.set_read Message.complaintId Message.name Message.read negb].
  by rewrite andb_false_r.
Qed.
End mark_read.

(** C5 at the input where it fails.  alice registers and marks complaint 10
    read with the token she was given.  The complaint has an unread message
    of her own and one of bob's; as stated, hers stays unread and bob's is
    set.  The handler treats the two alike, whichever answer the store
    gives for [$ne: undefined]. *)
Theorem mark_read_by_registered_user (ne_undefined : bool) :
  let out := run (route_messages_read ne_undefined (Some Sample.alice_token) 10)
                 Sample.chat_registered in
  run (register Sample.plain_hash Sample.alice) Sample.chat
  = (inr {| res_status := 201;
            res_body := JsonAuth (Some "User registered successfully")
                          Sample.alice_token
                          {| pu_id := 302; pu_name := "alice";
                             pu_userType := "Customer" |} |},
     quiet Sample.chat_registered)
  ∧ out = (inr {| res_status := 200; res_body := JsonSuccess |},
           quiet (with_messages
                    [Sample.message 300 10 "alice" ne_undefined;
                     Sample.message 301 10 "bob" ne_undefined]
                    Sample.chat_registered))
  ∧ messages (store out.2)
    ≠ [Sample.message 300 10 "alice" false; Sample.message 301 10 "bob" true].
Proof.
  split; [reflexivity|]. split; by destruct ne_undefined.
Qed.

(** *** Unread counts, for a caller whose token does carry a name *)

Lemma group_add_lookup k k' groups :
  (list_to_map (group_add k groups) : gmap N nat) !! k'
  = if decide (k' = k)
    then Some (S (default 0 ((list_to_map groups : gmap N nat) !! k)))
    else (list_to_map groups : gmap N nat) !! k'.
Proof.
  induction groups as [|[k0 n] groups IH]; cbn [group_add].
  - cbn [list_to_map foldr]. rewrite insert_empty.
    destruct (decide (k' = k)) as [->|Hk].
    + by rewrite lookup_singleton_eq.
    + by rewrite lookup_singleton_ne.
  - case_bool_decide as Hk0; cbn [list_to_map foldr fst snd uncurry].
    + subst k0. destruct (decide (k' = k)) as [->|Hk].
      * by rewrite !lookup_insert_eq.
      * by rewrite !lookup_insert_ne.
    + destruct (decide (k' = k0)) as [->|Hk'].
      * rewrite lookup_insert_eq, decide_False by done.
        by rewrite lookup_insert_eq.
      * rewrite lookup_insert_ne by done. rewrite IH.
        destruct (decide (k' = k)); [|by rewrite lookup_insert_ne].
        by rewrite lookup_insert_ne.
Qed.

Lemma group_add_NoDup k groups : NoDup groups.*1 → NoDup (group_add k groups).*1.
Proof.
  induction groups as [|[k0 n] groups IH]; cbn [group_add].
  - intros _. apply NoDup_singleton.
  - rewrite fmap_cons. cbn [fst]. intros [Hk0 Hnd]%list.NoDup_cons.
    case_bool_decide as Hk; rewrite fmap_cons; cbn [fst].
    + by apply list.NoDup_cons.
    + apply list.NoDup_cons. split; [|by apply IH].
      intros Hin.
      pose proof (not_elem_of_list_to_map_1 (M:=gmap N) groups k0 Hk0) as Hnone.
      assert (is_Some ((list_to_map (group_add k groups) : gmap N nat) !! k0))
        as Hsome.
      { apply elem_of_dom. rewrite dom_list_to_map_L.
        by apply elem_of_list_to_set. }
      rewrite group_add_lookup, decide_False in Hsome by done.
      rewrite Hnone in Hsome. by destruct Hsome.
Qed.

Section group.
Context {A : Type} (key : A → N).

Lemma group_by_NoDup l groups :
  NoDup groups.*1 → NoDup (group_by key l groups).*1.
Proof.
  revert groups. induction l as [|x l IH]; intros groups Hnd; [done|].
  apply IH. by apply group_add_NoDup.
Qed.

Lemma group_by_lookup l groups k :
  (list_to_map (group_by key l groups) : gmap N nat) !! k
  = match length (filter (λ x, key x = k) l) with
    | 0 => (list_to_map groups : gmap N nat) !! k
    | S c => Some (S c + default 0 ((list_to_map groups : gmap N nat) !! k))
    end.
Proof.
  revert groups. induction l as [|x l IH]; intros groups; [done|].
  cbn [group_by fold_left]. fold (group_by key l (group_add (key x) groups)).
  rewrite IH, list.filter_cons, !group_add_lookup.
  destruct (decide (key x = k)) as [->|Hk].
  - rewrite decide_True by done. cbn [length default].
    destruct (length _); [done|]. apply (f_equal Some). unfold id. lia.
  - by rewrite decide_False by congruence.
Qed.
End group.

Lemma to_counts_lookup groups k :
  NoDup groups.*1 →
  to_counts groups !! k = (list_to_map groups : gmap N nat) !! k.
Proof.
  unfold to_counts. intros Hnd.
  assert (∀ acc : gmap N nat,
            fold_left (λ counts item, <[item.1:=item.2]> counts) groups acc !! k
            = match (list_to_map groups : gmap N nat) !! k with
              | Some n => Some n
              | None => acc !! k
              end) as H.
  { induction groups as [|[k0 n] groups IH]; intros acc; [done|].
    rewrite fmap_cons in Hnd. apply list.NoDup_cons in Hnd as [Hk0 Hnd].
    cbn [fold_left list_to_map foldr fst snd uncurry]. rewrite IH by done.
    destruct (decide (k = k0)) as [->|Hk].
    - rewrite (not_elem_of_list_to_map_1 (M:=gmap N) groups k0) by done.
      by rewrite !lookup_insert_eq.
    - by rewrite !lookup_insert_ne. }
  rewrite H, lookup_empty. by destruct (_ !! k).
Qed.

(** With [req.user.name = N], the count reported for a complaint is the
    number of stored messages on it that are unread and not sent by [N];
    a complaint without such a message has no entry. *)
Lemma unread_counts_named ne_undefined N s complaintId :
  to_counts (Message_aggregate ne_undefined (Some (JStr N)) s) !! complaintId
  = match length (filter (unread_for complaintId N) (messages s)) with
    | 0 => None
    | S n => Some (S n)
    end.
Proof.
  unfold Message_aggregate.
  rewrite to_counts_lookup by (apply group_by_NoDup, NoDup_nil_2).
  rewrite group_by_lookup. cbn [list_to_map foldr]. rewrite lookup_empty.
  replace (length (filter (λ x, Message.complaintId x = complaintId)
                          (List.filter _ (messages s))))
    with (length (filter (unread_for complaintId N) (messages s))).
  { destruct (length _); [done|]. cbn. apply (f_equal Some). lia. }
  induction (messages s) as [|m l IH]; [done|].
  cbn [List.filter]. rewrite list.filter_cons. unfold ne.
  destruct (decide (unread_for complaintId N m)) as [(Hc & Hr & Hn)|Hno].
  - rewrite Hr, bool_decide_eq_false_2 by congruence. cbn [negb andb].
    rewrite list.filter_cons, decide_True by done. cbn [length].
    by rewrite IH.
  - destruct (negb (bool_decide (JStr (Message.name m) = JStr N))
              && negb (Message.read m)) eqn:Hb; [|exact IH].
    rewrite list.filter_cons, decide_False; [exact IH|].
    intros Hc. apply Hno.
    apply andb_true_iff in Hb as [Hn%negb_true_iff Hr%negb_true_iff].
    apply bool_decide_eq_false in Hn. repeat split; [done..|congruence].
Qed.

(** C6 at the input where it fails.  alice asks for her unread counts with
    the token she was given.  Complaint 10 has an unread message of her own
    and one of bob's; as stated, the count is 1.  The handler counts both or
    neither, depending on the store's answer for [$ne: undefined]. *)
Theorem unread_counts_by_registered_user (ne_undefined : bool) :
  let out := run (route_unread_counts ne_undefined (Some Sample.alice_token))
                 Sample.chat_registered in
  out = (inr {| res_status := 200;
                res_body := JsonCounts
                  (if ne_undefined then {[10%N := 2]} else ∅) |},
         quiet Sample.chat_registered)
  ∧ out.1 ≠ inr {| res_status := 200; res_body := JsonCounts {[10%N := 1]} |}.
Proof.
  split; [by destruct ne_undefined|].
  destruct ne_undefined; intros [= H];
    apply (f_equal (λ m : gmap N nat, m !! 10%N)) in H; by vm_compute in H.
Qed.

(** ** Feedback *)

Lemma rating_valid_bounds rating :
  rating_valid rating = true ↔ ∃ r, rating = Some r ∧ (1 ≤ r ≤ Qc_of_Z 5)%Qc.
Proof.
  unfold rating_valid. destruct rating as [r|].
  - rewrite andb_true_iff, !bool_decide_eq_true. split.
    + intros [??]. by exists r.
    + by intros (? & [= <-] & ?).
  - split; [done|]. by intros (? & ? & _).
Qed.

Lemma rating_out_of_bounds r :
  (r < 1 ∨ Qc_of_Z 5 < r)%Qc → rating_valid (Some r) = false.
Proof.
  intros Hout. apply not_true_is_false. intros (r' & [= <-] & Hlo & Hhi)%rating_valid_bounds.
  destruct Hout as [H|H]; by apply Qclt_not_le in H.
Qed.

(** C7, as the code has it.  Create-feedback refuses a rating below 1 or
    above 5: the answer is an error (500, a validation error on [rating])
    and the stored feedback is unchanged.  A feedback that is stored
    carries the rating of the request, and that rating is between 1 and 5;
    so all stored ratings stay between 1 and 5.  The rating need not be an
    integer. *)
Theorem create_feedback_rating_bounds
    (s : Store) (body : FeedbackBody.t) (user : gmap string JsVal) :
  let out := run (post_feedback body user) s in
  (∀ r, FeedbackBody.rating body = Some r → (r < 1 ∨ Qc_of_Z 5 < r)%Qc →
        ∃ paths, "rating" ∈ paths
                 ∧ out = (inr (server_error (ValidationError "Feedback" paths)),
                          quiet s))
  ∧ (∀ resp r, out = (inr resp, r) → res_status resp = 201 →
       ∃ f, res_body resp = JsonFeedback f
            ∧ store r = insert_feedback f s
            ∧ Some (Feedback.rating f) = FeedbackBody.rating body
            ∧ (1 ≤ Feedback.rating f ≤ Qc_of_Z 5)%Qc)
  ∧ (Forall (λ f, (1 ≤ Feedback.rating f ≤ Qc_of_Z 5)%Qc) (feedbacks s) →
     Forall (λ f, (1 ≤ Feedback.rating f ≤ Qc_of_Z 5)%Qc)
            (feedbacks (store out.2))).
Proof.
  intros out.
  assert (∀ resp r, out = (inr resp, r) → res_status resp = 201 →
            ∃ f, res_body resp = JsonFeedback f
                 ∧ store r = insert_feedback f s
                 ∧ Some (Feedback.rating f) = FeedbackBody.rating body
                 ∧ (1 ≤ Feedback.rating f ≤ Qc_of_Z 5)%Qc) as Hstored.
  { intros resp r. unfold out, post_feedback, Feedback_save. unfold_handler.
    cbn -[rating_valid Assigned_findOne].
    destruct (user_id user), (FeedbackBody.rating body) as [q|] eqn:Hq;
      cbn -[rating_valid Assigned_findOne]; try (by intros [= <- <-]).
    destruct (rating_valid (Some q)) eqn:Hvalid;
      cbn -[Assigned_findOne]; try (by intros [= <- <-]).
    intros [= <- <-] _. eexists. repeat split; try done.
    all: by apply rating_valid_bounds in Hvalid as (? & [= <-] & ? & ?). }
  split; [|split; [exact Hstored|]].
  - intros q Hq Hout. apply rating_out_of_bounds in Hout.
    unfold out, post_feedback, Feedback_save. unfold_handler.
    cbn -[rating_valid Assigned_findOne]. rewrite Hq.
    destruct (user_id user); rewrite Hout; cbn -[Assigned_findOne].
    + exists ["rating"]. split; [apply list_elem_of_here | done].
    + exists ["userId"; "rating"]. split; [|done].
      apply list_elem_of_further, list_elem_of_here.
  - intros Hall. destruct out as [[e|resp] r] eqn:Hrun.
    { revert Hrun. unfold out, post_feedback. unfold_handler.
      cbn -[Feedback_save Assigned_findOne].
      by destruct (Feedback_save _ _ _ _ _ _) as [[[?|?] ?] ?]. }
    destruct (decide (res_status resp = 201)) as [Hok|Hno].
    + destruct (Hstored resp r eq_refl Hok) as (f & _ & Hst & _ & Hf).
      cbn [snd]. rewrite Hst.
      cbn [feedbacks insert_feedback]. apply Forall_app. split; [done|].
      by apply Forall_singleton.
    + revert Hrun Hno. unfold out, post_feedback, Feedback_save. unfold_handler.
      cbn -[rating_valid Assigned_findOne].
      destruct (user_id user), (FeedbackBody.rating body) as [q|];
        cbn -[rating_valid Assigned_findOne]; try (by intros [= <- <-]).
      destruct (rating_valid (Some q));
        cbn -[Assigned_findOne]; by intros [= <- <-].
Qed.

Lemma create_feedback_rating_bounds_witness :
  ∃ paths, "rating" ∈ paths
    ∧ run (post_feedback (Sample.feedback (Qc_of_Z 6)) Sample.alice_decoded)
          Sample.chat_registered
      = (inr (server_error (ValidationError "Feedback" paths)),
         quiet Sample.chat_registered).
Proof.
  destruct (create_feedback_rating_bounds
              Sample.chat_registered (Sample.feedback (Qc_of_Z 6))
              Sample.alice_decoded) as (H & _ & _).
  apply (H (Qc_of_Z 6)); [reflexivity|]. right. reflexivity.
Defined.

(** C7 as stated fails: 9/2 is not one of the integers 1 to 5, and the
    feedback that carries it is stored and answered with 201. *)
Lemma create_feedback_stores_fractional_rating :
  (∀ z : Z, Qc_of_Z z ≠ Sample.four_and_a_half)
  ∧ ∃ f, Feedback.rating f = Sample.four_and_a_half
         ∧ run (post_feedback (Sample.feedback Sample.four_and_a_half)
                              Sample.alice_decoded)
               Sample.chat_registered
           = (inr {| res_status := 201; res_body := JsonFeedback f |},
              quiet (insert_feedback f Sample.chat_registered)).
Proof.
  split.
  - intros z Hz. apply (f_equal this) in Hz.
    unfold Sample.four_and_a_half, Qc_of_Z in Hz. cbn in Hz.
    injection Hz as _ Hden. discriminate.
  - eexists. split; [|reflexivity]. reflexivity.
Qed.

(** * More properties of the handlers *)

(** ** Invariants under interference *)

Lemma next_store_preserves (P : Store → Prop) r :
  Forall (preserves P) (env r) → P (store r) → P (next_store r).
Proof.
  unfold next_store. destruct (env r) as [|g gs]; [done|].
  intros [Hg _]%list.Forall_cons Hs. by apply Hg.
Qed.

Lemma Forall_tail_preserves (P : Store → Prop) (gs : list (Store → Store)) :
  Forall (preserves P) gs → Forall (preserves P) (tail gs).
Proof. destruct gs; [done|]. by intros [_ ?]%list.Forall_cons. Qed.

Lemma Assigned_save_unique complaintId agentId agentName s :
  unique_assignments s →
  unique_assignments (Assigned_save complaintId agentId agentName s).1.2.
Proof.
  unfold Assigned_save, unique_assignments. intros Hs.
  destruct agentName as [n|]; [|done].
  destruct (bool_decide (n = "")); [done|].
  destruct (existsb _ _) eqn:Hex; [done|].
  cbn [fst snd insert_assigned assigneds]. rewrite fmap_app.
  apply list.NoDup_app. split; [done|]. split; [|apply NoDup_singleton].
  intros c Hc ->%list_elem_of_singleton.
  apply list_elem_of_fmap in Hc as (a & Ha & Hin).
  assert (existsb (λ a, bool_decide (Assigned.complaintId a = complaintId))
                  (assigneds s) = true) as Htrue; [|congruence].
  apply (proj2 (existsb_exists _ _)). exists a.
  split; [by apply list_elem_of_In|].
  apply bool_decide_eq_true. by rewrite <- Ha.
Qed.

Section keeps.
Context (P : Store → Prop).

Lemma keeps_ret {A} (a : A) : keeps P (ret a).
Proof. by intros r. Qed.

Lemma keeps_bind {A B} (m : M A) (k : A → M B) :
  keeps P m → (∀ a, keeps P (k a)) → keeps P (bind m k).
Proof.
  intros Hm Hk r Henv Hs. unfold bind.
  destruct (Hm r Henv Hs) as [Henv' Hs'].
  destruct (m r) as [[e|a] r']; [done|]. by apply Hk.
Qed.

Lemma keeps_try_catch {A} (m : M A) (h : Err → M A) :
  keeps P m → (∀ e, keeps P (h e)) → keeps P (try_catch m h).
Proof.
  intros Hm Hh r Henv Hs. unfold try_catch.
  destruct (Hm r Henv Hs) as [Henv' Hs'].
  destruct (m r) as [[e|a] r']; [by apply Hh | done].
Qed.

Lemma keeps_await {A} (f : Store → (Err + A) * Store * list Effect) :
  (∀ s, P s → P (f s).1.2) → keeps P (await f).
Proof.
  intros Hf r Henv Hs. unfold await.
  pose proof (Hf _ (next_store_preserves P r Henv Hs)) as Hs'.
  destruct (f (next_store r)) as [[a s1] effs]. cbn [snd env store].
  split; [by apply Forall_tail_preserves | done].
Qed.

Lemma keeps_query {A} (f : Store → A) : keeps P (query f).
Proof. by apply keeps_await. Qed.

Lemma keeps_effect e : keeps P (effect e).
Proof. by intros r. Qed.

Lemma keeps_mapM {A B} (f : A → M B) l :
  (∀ x, keeps P (f x)) → keeps P (mapM f l).
Proof.
  intros Hf. induction l as [|x l IH]; [apply keeps_ret|].
  cbn [mapM]. apply keeps_bind; [done|]. intros y.
  apply keeps_bind; [done|]. intros ys. apply keeps_ret.
Qed.

Lemma keeps_auth authorization next :
  (∀ user, keeps P (next user)) → keeps P (auth authorization next).
Proof.
  intros Hnext r Henv Hs. unfold auth.
  destruct authorization as [token|]; [|done].
  destruct (jwt_verify _ _ _); [by apply Hnext | done].
Qed.

Lemma keeps_run {A} (m : M A) others s :
  keeps P m → Forall (preserves P) others → P s →
  P (store (run_with others m s).2).
Proof. intros Hm Hothers Hs. by apply Hm. Qed.
End keeps.

Lemma post_assigned_keeps_unique body :
  keeps unique_assignments (post_assigned body).
Proof.
  unfold post_assigned. apply keeps_try_catch.
  - apply keeps_bind; [apply keeps_query|]. intros [a|]; [apply keeps_ret|].
    apply keeps_bind; [apply keeps_query|]. intros l.
    destruct (3 <=? _); [apply keeps_ret|].
    apply keeps_bind; [apply keeps_await, Assigned_save_unique|]. intros a.
    apply keeps_bind; [by apply keeps_await|]. intros _.
    apply keeps_bind; [apply keeps_query|]. intros c.
    apply keeps_bind; [apply keeps_effect|]. intros _. apply keeps_ret.
  - intros e. destruct (bool_decide _); apply keeps_ret.
Qed.

(** X1. The unique index on [complaintId] as an invariant: started on a
    store where no two assignments share a complaint, among concurrent
    requests that respect the index, create-assignment ends on such a
    store, whatever the interleaving. *)
Theorem create_assignment_keeps_unique_index
    (others : list (Store → Store)) (s : Store) (body : AssignedBody.t) :
  Forall (preserves unique_assignments) others →
  unique_assignments s →
  unique_assignments (store (run_with others (post_assigned body) s).2).
Proof. apply keeps_run, post_assigned_keeps_unique. Qed.

Lemma create_assignment_keeps_unique_index_witness :
  unique_assignments
    (store (run_with Demo.rival (post_assigned (Sample.body 13 7))
                     Sample.nearly_full).2).
Proof.
  apply create_assignment_keeps_unique_index.
  - apply Forall_cons; [by intros ?|]. apply Forall_cons; [by intros ?|].
    apply Forall_cons; [|apply Forall_nil].
    intros s. apply Assigned_save_unique.
  - unfold unique_assignments. refine (bool_decide_unpack _ _).
    vm_compute. exact I.
Defined.

(** ** Create assignment, composed *)

Lemma Assigned_findOne_after_insert complaintId a s :
  Assigned_findOne complaintId s = None →
  Assigned.complaintId a = complaintId →
  Assigned_findOne complaintId (insert_assigned a s) = Some a.
Proof.
  unfold Assigned_findOne. cbn [insert_assigned assigneds]. intros Hnone Ha.
  induction (assigneds s) as [|x l IH]; simpl in *.
  - by rewrite bool_decide_eq_true_2.
  - destruct (bool_decide (Assigned.complaintId x = complaintId)); [done|auto].
Qed.

Lemma Assigned_findOne_set_status complaintId id st s :
  Assigned_findOne complaintId (set_complaint_status id st s)
  = Assigned_findOne complaintId s.
Proof. done. Qed.

(** X2. Create-assignment is all or nothing: it always answers, and unless
    the answer is 201 the store is as it was and nothing was emitted. *)
Theorem create_assignment_all_or_nothing (s : Store) (body : AssignedBody.t) :
  ∃ resp, (run (post_assigned body) s).1 = inr resp
          ∧ (res_status resp = 201
             ∨ (run (post_assigned body) s).2 = quiet s).
Proof.
  destruct (post_assigned_cases s body)
    as [[_ H]|[(_ & _ & H)|[(_ & _ & _ & H)|(n & _ & _ & _ & _ & H)]]];
    cbv zeta in H; rewrite H; eexists; (split; [done|]); cbn [snd]; auto.
Qed.

(** X3. Once a complaint is assigned it stays with its agent: after a
    successful create-assignment for a complaint, a further
    create-assignment for the same complaint, whatever agent it names, is
    refused as a duplicate and changes nothing. *)
Theorem assigned_complaint_is_not_reassigned
    (s : Store) (body body' : AssignedBody.t) (resp : Response) (r : Run) :
  run (post_assigned body) s = (inr resp, r) →
  res_status resp = 201 →
  AssignedBody.complaintId body' = AssignedBody.complaintId body →
  run (post_assigned body') (store r) = (inr already_assigned, quiet (store r)).
Proof.
  intros Hrun Hok Hsame.
  destruct (post_assigned_cases s body)
    as [[_ H]|[(_ & _ & H)|[(_ & _ & _ & H)|(n & Hf & _ & _ & _ & H)]]];
    rewrite Hrun in H; cbv zeta in H; injection H as -> ->; try discriminate.
  apply run_post_assigned_duplicate. rewrite Hsame. cbn [store].
  rewrite Assigned_findOne_set_status.
  by rewrite Assigned_findOne_after_insert.
Qed.

Lemma assigned_complaint_is_not_reassigned_witness :
  run (post_assigned (Sample.body 13 7))
      (store (run (post_assigned (Sample.body 13 8)) Sample.busy).2)
  = (inr already_assigned,
     quiet (store (run (post_assigned (Sample.body 13 8)) Sample.busy).2)).
Proof.
  eapply (assigned_complaint_is_not_reassigned
            Sample.busy (Sample.body 13 8) (Sample.body 13 7));
    reflexivity.
Defined.

Lemma run_get_complaint id s :
  run (get_complaint id) s
  = (inr match Complaint_findById id s with
         | Some c => ok (ComplaintViewDoc (populate_complaint s c))
         | None => not_found "Complaint not found"
         end,
     quiet s).
Proof.
  unfold get_complaint. unfold_handler. cbn -[Complaint_findById populate_complaint].
  by destruct (Complaint_findById id s).
Qed.

(** X4. After a successful create-assignment for a stored complaint,
    reading the complaint back through GET /api/complaints/:id shows
    status "Assigned" and, as its assignment, the agent id and agent name
    of the request. *)
Theorem assigned_complaint_reads_back
    (s : Store) (body : AssignedBody.t) (c : Complaint.t)
    (resp : Response) (r : Run) :
  let complaintId := AssignedBody.complaintId body in
  Complaint_findById complaintId s = Some c →
  run (post_assigned body) s = (inr resp, r) →
  res_status resp = 201 →
  ∃ v, run (get_complaint complaintId) (store r)
       = (inr (ok (ComplaintViewDoc v)), quiet (store r))
       ∧ ComplaintView.complaint v = Complaint.set_status "Assigned" c
       ∧ asg_agentId <$> ComplaintView.assignment v
         = Some (AssignedBody.agentId body)
       ∧ asg_agentName <$> ComplaintView.assignment v
         = AssignedBody.agentName body.
Proof.
  intros complaintId Hc Hrun Hok. subst complaintId.
  destruct (post_assigned_cases s body)
    as [[_ H]|[(_ & _ & H)|[(_ & _ & _ & H)|(n & Hf & _ & Hn & _ & H)]]];
    rewrite Hrun in H; cbv zeta in H; injection H as -> ->; try discriminate.
  rewrite run_get_complaint. cbn [store].
  rewrite findById_after_update.
  replace (Complaint_findById _ (insert_assigned _ s))
    with (Complaint_findById (AssignedBody.complaintId body) s) by done.
  rewrite Hc. cbn [fmap option_fmap option_map]. eexists. split; [done|].
  unfold populate_complaint. cbn [ComplaintView.complaint ComplaintView.assignment].
  cbn [Complaint.set_status Complaint._id].
  assert (Complaint._id c = AssignedBody.complaintId body) as ->.
  { unfold Complaint_findById in Hc. apply find_some in Hc as [_ Hid].
    by apply bool_decide_eq_true in Hid. }
  rewrite Assigned_findOne_set_status, Assigned_findOne_after_insert by done.
  by rewrite Hn.
Qed.

Lemma assigned_complaint_reads_back_witness :
  ∃ v, run (get_complaint 13)
           (store (run (post_assigned (Sample.body 13 8)) Sample.busy).2)
       = (inr (ok (ComplaintViewDoc v)),
          quiet (store (run (post_assigned (Sample.body 13 8)) Sample.busy).2))
       ∧ ComplaintView.complaint v = Sample.complaint 13 "Assigned".
Proof.
  destruct (assigned_complaint_reads_back
              Sample.busy (Sample.body 13 8) (Sample.complaint 13 "Pending")
              {| res_status := 201;
                 res_body := JsonAssigned (new_Assigned 13 8 "G1" Sample.busy) |}
              (run (post_assigned (Sample.body 13 8)) Sample.busy).2)
    as (v & Hv & Hc & _); [reflexivity..|].
  exists v. split; [exact Hv | exact Hc].
Defined.

(** ** The generic complaint update *)

Lemma apply_patch_id p c : Complaint._id (apply_patch p c) = Complaint._id c.
Proof. done. Qed.

Lemma findById_patched id id' p s :
  Complaint_findById id' (patch_complaint id p s)
  = if decide (id' = id) then apply_patch p <$> Complaint_findById id s
    else Complaint_findById id' s.
Proof.
  unfold Complaint_findById, patch_complaint. cbn [complaints with_complaints].
  destruct (decide (id' = id)) as [->|Hne].
  - apply (find_update_one_eq Complaint._id), apply_patch_id.
  - apply (find_update_one_ne Complaint._id); [apply apply_patch_id | done].
Qed.

Lemma patch_absent id p s :
  Complaint_findById id s = None → patch_complaint id p s = s.
Proof.
  intros H. unfold patch_complaint, with_complaints.
  rewrite (update_one_absent Complaint._id) by done. by destruct s.
Qed.

Lemma run_put_complaint id p s :
  run (put_complaint id p) s
  = match Complaint_findById id s with
    | Some c =>
        (inr (ok (ComplaintDoc (apply_patch p c))),
         {| store := patch_complaint id p s; env := [];
            log := [Emit "complaintUpdated" (Some (apply_patch p c))] |})
    | None => (inr (not_found "Complaint not found"), quiet s)
    end.
Proof.
  unfold put_complaint, Complaint_findByIdAndUpdate_new. unfold_handler.
  cbn -[Complaint_findById patch_complaint].
  destruct (Complaint_findById id s) eqn:Hc; cbn; [done|].
  by rewrite patch_absent.
Qed.

(** X5. The generic update answers with what it wrote.  The body is a
    plain document of schema paths, without update operators and without
    [_id].  For an id no complaint has, the answer is 404, the store is
    unchanged and nothing is emitted.  Otherwise the answer is 200 with
    the updated complaint, the same complaint is emitted as
    "complaintUpdated" and is what a later [findById] returns: each path
    the body names holds the body's value, attachments and creation time
    included, each path it does not name is as before, and so is [_id];
    every other complaint and every other collection is as it was. *)
Theorem generic_update_answers_what_it_wrote
    (id : ObjectId) (p : ComplaintPatch.t) (s : Store) :
  let out := run (put_complaint id p) s in
  (Complaint_findById id s = None →
   out = (inr (not_found "Complaint not found"), quiet s))
  ∧ (∀ c, Complaint_findById id s = Some c →
       ∃ c', out = (inr (ok (ComplaintDoc c')),
                    {| store := store out.2; env := [];
                       log := [Emit "complaintUpdated" (Some c')] |})
             ∧ Complaint_findById id (store out.2) = Some c'
             ∧ Complaint._id c' = id
             ∧ Complaint.userId c'
               = default (Complaint.userId c) (ComplaintPatch.userId p)
             ∧ Complaint.name c'
               = default (Complaint.name c) (ComplaintPatch.name p)
             ∧ Complaint.address c'
               = default (Complaint.address c) (ComplaintPatch.address p)
             ∧ Complaint.city c'
               = default (Complaint.city c) (ComplaintPatch.city p)
             ∧ Complaint.state c'
               = default (Complaint.state c) (ComplaintPatch.state p)
             ∧ Complaint.pincode c'
               = default (Complaint.pincode c) (ComplaintPatch.pincode p)
             ∧ Complaint.comment c'
               = default (Complaint.comment c) (ComplaintPatch.comment p)
             ∧ Complaint.attachments c'
               = default (Complaint.attachments c) (ComplaintPatch.attachments p)
             ∧ Complaint.status c'
               = default (Complaint.status c) (ComplaintPatch.status p)
             ∧ Complaint.createdAt c'
               = default (Complaint.createdAt c) (ComplaintPatch.createdAt p)
             ∧ (∀ id', id' ≠ id →
                  Complaint_findById id' (store out.2)
                  = Complaint_findById id' s)
             ∧ assigneds (store out.2) = assigneds s
             ∧ messages (store out.2) = messages s
             ∧ feedbacks (store out.2) = feedbacks s
             ∧ users (store out.2) = users s).
Proof.
  intros out. unfold out. rewrite run_put_complaint. split.
  - by intros ->.
  - intros c Hc. rewrite Hc. exists (apply_patch p c). cbn [snd store].
    split; [done|]. split.
    { by rewrite findById_patched, decide_True, Hc. }
    split.
    { unfold Complaint_findById in Hc. apply find_some in Hc as [_ Hid].
      by apply bool_decide_eq_true in Hid. }
    do 10 (split; [done|]). split; [|done].
    intros id' Hne. by rewrite findById_patched, decide_False.
Qed.

Lemma generic_update_answers_what_it_wrote_witness :
  let note := {| att_path := "uploads/1700000000002.png";
                 att_name := Some "after the repair";
                 att_originalName := Some "after.png" |} in
  let out := run (put_complaint 10 (Demo.redated [note])) Sample.busy in
  (∃ c', Complaint_findById 10 (store out.2) = Some c'
         ∧ Complaint.attachments c' = [note]
         ∧ Complaint.createdAt c' = 7%Z
         ∧ Complaint.status c' = "Assigned")
  ∧ run (put_complaint 99 (Demo.status_only "Resolved")) Sample.busy
    = (inr (not_found "Complaint not found"), quiet Sample.busy).
Proof.
  intros note out.
  destruct (generic_update_answers_what_it_wrote
              10 (Demo.redated [note]) Sample.busy) as [_ H].
  destruct (H (Sample.complaint 10 "Assigned") eq_refl)
    as (c' & _ & Hc & _ & _ & _ & _ & _ & _ & _ & _ & Hatt & Hst & Hat & _).
  destruct (generic_update_answers_what_it_wrote
              99 (Demo.status_only "Resolved") Sample.busy) as [H404 _].
  split; [|exact (H404 eq_refl)].
  exists c'. split; [exact Hc|]. split; [exact Hatt|]. split; [exact Hat | exact Hst].
Defined.

Lemma update_one_idem {A} (key : A → N) (f : A → A) id (l : list A) :
  (∀ x, key (f x) = key x) → (∀ x, f (f x) = f x) →
  update_one (λ x, bool_decide (key x = id)) f
    (update_one (λ x, bool_decide (key x = id)) f l)
  = update_one (λ x, bool_decide (key x = id)) f l.
Proof.
  intros Hkey Hidem. induction l as [|x l IH]; [done|]. simpl.
  destruct (bool_decide (key x = id)) eqn:Hx; simpl.
  - by rewrite Hkey, Hx, Hidem.
  - by rewrite Hx, IH.
Qed.

Lemma default_twice {A} (x : A) (o : option A) :
  default (default x o) o = default x o.
Proof. by destruct o. Qed.

Lemma apply_patch_idem p c : apply_patch p (apply_patch p c) = apply_patch p c.
Proof.
  unfold apply_patch.
  cbn [Complaint._id Complaint.userId Complaint.name Complaint.address
       Complaint.city Complaint.state Complaint.pincode Complaint.comment
       Complaint.attachments Complaint.status Complaint.createdAt].
  by rewrite !default_twice.
Qed.

(** X6. The generic update is idempotent for a body of scalar paths: for
    a plain document of schema paths without update operators, without
    [_id] and without [attachments], sending the same body to the same id
    a second time leaves the store as the first call left it and gets the
    same answer.  (Attachments are left out because each cast of an
    attachments array gives its elements subdocument ids of their own,
    which [Attachment] does not hold.) *)
Theorem generic_update_idempotent (id : ObjectId) (p : ComplaintPatch.t) (s : Store) :
  ComplaintPatch.attachments p = None →
  let once := run (put_complaint id p) s in
  let twice := run (put_complaint id p) (store once.2) in
  store twice.2 = store once.2 ∧ twice.1 = once.1.
Proof.
  intros _. cbv zeta. rewrite !run_put_complaint.
  destruct (Complaint_findById id s) as [c|] eqn:Hc; cbn [snd fst store quiet].
  - rewrite findById_patched, decide_True, Hc by done. cbn [fmap option_fmap option_map snd fst store].
    rewrite apply_patch_idem. split; [|done].
    unfold patch_complaint, with_complaints. cbn. f_equal.
    apply (update_one_idem Complaint._id); [apply apply_patch_id | apply apply_patch_idem].
  - by rewrite Hc.
Qed.

Lemma generic_update_idempotent_witness :
  let once := run (put_complaint 10 (Demo.status_only "Resolved")) Sample.busy in
  let twice := run (put_complaint 10 (Demo.status_only "Resolved")) (store once.2) in
  Complaint.status <$> Complaint_findById 10 (store once.2) = Some "Resolved"
  ∧ store twice.2 = store once.2 ∧ twice.1 = once.1.
Proof.
  split; [reflexivity|].
  apply (generic_update_idempotent 10 (Demo.status_only "Resolved") Sample.busy).
  reflexivity.
Defined.

(** ** Status changes and the agents' counts *)

Lemma filter_length_split {A} (P Q R : A → Prop)
    `{∀ x, Decision (P x)} `{∀ x, Decision (Q x)} `{∀ x, Decision (R x)}
    (l : list A) :
  (∀ x, x ∈ l → (P x ↔ Q x ∨ R x)) →
  (∀ x, x ∈ l → Q x → R x → False) →
  length (filter P l) = length (filter Q l) + length (filter R l).
Proof.
  induction l as [|x l IH]; [done|]. intros Hiff Hdisj.
  assert (length (filter P l) = length (filter Q l) + length (filter R l)) as IH'.
  { apply IH; intros y Hy; [apply Hiff | apply Hdisj]; by apply list_elem_of_further. }
  pose proof (Hiff x (list_elem_of_here _ _)) as Hx.
  pose proof (Hdisj x (list_elem_of_here _ _)) as Hxd.
  rewrite !list.filter_cons.
  destruct (decide (P x)) as [HP|HP], (decide (Q x)) as [HQ|HQ],
           (decide (R x)) as [HR|HR]; cbn [length]; try lia; tauto.
Qed.

Lemma counts_after_patch s id p agent a :
  counts_toward_limit (patch_complaint id p s) agent a
  ↔ Assigned.agentId a = agent
    ∧ ∃ c, Complaint_findById (Assigned.complaintId a) s = Some c
           ∧ Complaint.status
               (if decide (Assigned.complaintId a = id) then apply_patch p c else c)
             ≠ "Resolved".
Proof.
  unfold counts_toward_limit. rewrite findById_patched.
  destruct (decide (Assigned.complaintId a = id)) as [->|Hne]; [|done].
  destruct (Complaint_findById id s) as [c|]; cbn.
  - split; intros (? & c' & [= <-] & ?); (split; [done|]); by eexists.
  - split; by intros (? & c' & ? & ?).
Qed.

(** What setting the status to "Resolved" does to an agent's count: the
    agent's active assignments on that complaint stop counting, nothing
    else changes. *)
Lemma active_count_after_resolve s id p agent :
  ComplaintPatch.status p = Some "Resolved" →
  agent_active_count s agent
  = agent_active_count (patch_complaint id p s) agent
    + length (filter (λ a, counts_toward_limit s agent a
                           ∧ Assigned.complaintId a = id) (assigneds s)).
Proof.
  intros Hst. rewrite !active_count_spec.
  replace (assigneds (patch_complaint id p s)) with (assigneds s) by done.
  apply filter_length_split.
  - intros a _. rewrite counts_after_patch. unfold counts_toward_limit.
    destruct (decide (Assigned.complaintId a = id)) as [Ha|Ha].
    + split; [intros [? ?]; by right|].
      intros [(_ & c & _ & Hres)|[? _]]; [|done].
      exfalso. apply Hres. unfold apply_patch. simpl. by rewrite Hst.
    + split; [intros [? ?]; by left|]. by intros [?|[_ ?]].
  - intros a _ (_ & c & _ & Hres)%counts_after_patch [_ Ha].
    rewrite decide_True in Hres by done.
    apply Hres. unfold apply_patch. simpl. by rewrite Hst.
Qed.

(** X7. Resolving frees capacity.  An agent holds at most 3 active
    assignments, one of them on a stored complaint.  After PUT
    /api/complaints/:id sets that complaint's status to "Resolved", a
    create-assignment for this agent and a complaint nobody is assigned to
    (with an agent name) is answered 201. *)
Theorem resolving_frees_capacity
    (s : Store) (p : ComplaintPatch.t) (a : Assigned.t)
    (body : AssignedBody.t) (n : string) :
  let agentId := AssignedBody.agentId body in
  let s' := store (run (put_complaint (Assigned.complaintId a) p) s).2 in
  ComplaintPatch.status p = Some "Resolved" →
  a ∈ assigneds s →
  counts_toward_limit s agentId a →
  agent_active_count s agentId ≤ 3 →
  (∀ a', a' ∈ assigneds s →
         Assigned.complaintId a' ≠ AssignedBody.complaintId body) →
  AssignedBody.agentName body = Some n → n ≠ "" →
  agent_active_count s' agentId < 3
  ∧ ∃ a', (run (post_assigned body) s').1
          = inr {| res_status := 201; res_body := JsonAssigned a' |}.
Proof.
  intros agentId s' Hst Ha Hcounts Hcap Hfree Hname Hn.
  assert (s' = patch_complaint (Assigned.complaintId a) p s) as ->.
  { unfold s'. rewrite run_put_complaint.
    destruct Hcounts as (_ & c & -> & _). done. }
  assert (agent_active_count (patch_complaint (Assigned.complaintId a) p s) agentId < 3)
    as Hlt.
  { pose proof (active_count_after_resolve s (Assigned.complaintId a) p agentId Hst) as Heq.
    assert (0 < length (filter (λ a0, counts_toward_limit s agentId a0
                                      ∧ Assigned.complaintId a0 = Assigned.complaintId a)
                               (assigneds s))) as Hpos.
    { destruct (filter _ _) as [|x l] eqn:Hf; [|simpl; lia].
      exfalso. eapply (filter_nil_not_elem_of _ _ a Hf); done. }
    lia. }
  split; [done|]. eexists.
  rewrite (run_post_assigned_created _ body n); try done.
  apply Assigned_findOne_None. done.
Qed.

Lemma resolving_frees_capacity_witness :
  run (post_assigned (Sample.body 13 7)) Sample.busy
  = (inr limit_reached, quiet Sample.busy)
  ∧ ∃ a', (run (post_assigned (Sample.body 13 7))
               (store (run (put_complaint 10 (Demo.status_only "Resolved"))
                           Sample.busy).2)).1
          = inr {| res_status := 201; res_body := JsonAssigned a' |}.
Proof.
  split; [reflexivity|].
  apply (resolving_frees_capacity
           Sample.busy (Demo.status_only "Resolved")
           (Sample.assignment 100 7 10) (Sample.body 13 7) "G1").
  - reflexivity.
  - apply list_elem_of_here.
  - split; [reflexivity|]. exists (Sample.complaint 10 "Assigned").
    split; [reflexivity | discriminate].
  - vm_compute. lia.
  - intros a' Ha'. apply list_elem_of_In in Ha'. simpl in Ha'.
    destruct Ha' as [<-|[<-|[<-|[]]]]; discriminate.
  - reflexivity.
  - discriminate.
Defined.

(** X8. Reopening is not checked against the limit.  When PUT
    /api/complaints/:id moves a stored "Resolved" complaint to any other
    status, the answer is 200 and each agent's active count grows by the
    number of that agent's assignments on the complaint; nothing refuses
    the update when the count passes 3. *)
Theorem reopening_raises_the_count
    (s : Store) (id : ObjectId) (p : ComplaintPatch.t) (c : Complaint.t)
    (st : string) (agent : ObjectId) :
  let out := run (put_complaint id p) s in
  ComplaintPatch.status p = Some st → st ≠ "Resolved" →
  Complaint_findById id s = Some c → Complaint.status c = "Resolved" →
  out.1 = inr (ok (ComplaintDoc (apply_patch p c)))
  ∧ agent_active_count (store out.2) agent
    = agent_active_count s agent
      + length (filter (λ a, Assigned.agentId a = agent
                             ∧ Assigned.complaintId a = id) (assigneds s)).
Proof.
  intros out Hst Hne Hc Hres. unfold out. rewrite run_put_complaint, Hc.
  cbn [fst snd store]. split; [done|].
  rewrite !active_count_spec.
  replace (assigneds (patch_complaint id p s)) with (assigneds s) by done.
  apply filter_length_split.
  - intros a _. rewrite counts_after_patch. unfold counts_toward_limit.
    destruct (decide (Assigned.complaintId a = id)) as [Ha|Ha].
    + rewrite Ha, Hc. split.
      * intros [? _]. by right.
      * intros [(_ & c' & [= <-] & ?)|[? _]]; [done|].
        split; [done|]. exists c. split; [done|].
        unfold apply_patch. simpl. by rewrite Hst.
    + split; [intros [? ?]; by left|]. by intros [?|[_ ?]].
  - intros a _ (_ & c' & Hc' & Hact) [_ Ha].
    rewrite Ha, Hc in Hc'. by injection Hc' as <-.
Qed.

Lemma reopening_raises_the_count_witness :
  agent_active_count Demo.three_and_one 7 = 3
  ∧ agent_active_count
      (store (run (put_complaint 13 (Demo.status_only "Pending"))
                  Demo.three_and_one).2) 7
    = 4.
Proof.
  split; [reflexivity|].
  destruct (reopening_raises_the_count
              Demo.three_and_one 13 (Demo.status_only "Pending")
              (Sample.complaint 13 "Resolved") "Pending" 7) as [_ H];
    [reflexivity | discriminate | reflexivity | reflexivity |].
  rewrite H. reflexivity.
Defined.

(** ** Deleting a complaint *)

Section delete_one.
Context {A : Type} (key : A → N).

Lemma find_delete_one_ne id id' (l : list A) :
  id' ≠ id →
  List.find (λ x, bool_decide (key x = id'))
            (delete_one (λ x, bool_decide (key x = id)) l)
  = List.find (λ x, bool_decide (key x = id')) l.
Proof.
  intros Hne. induction l as [|x l IH]; [done|]. simpl.
  destruct (bool_decide (key x = id)) eqn:Hx; simpl.
  - apply bool_decide_eq_true in Hx.
    by rewrite bool_decide_eq_false_2 by congruence.
  - by rewrite IH.
Qed.

Lemma find_delete_one_eq id (l : list A) :
  NoDup (key <$> l) →
  List.find (λ x, bool_decide (key x = id))
            (delete_one (λ x, bool_decide (key x = id)) l) = None.
Proof.
  induction l as [|x l IH]; [done|]. rewrite fmap_cons.
  intros [Hx Hl]%list.NoDup_cons. simpl.
  destruct (bool_decide (key x = id)) eqn:Hid; simpl.
  - apply bool_decide_eq_true in Hid. subst id.
    destruct (List.find _ l) as [y|] eqn:Hy; [|done].
    apply find_some in Hy as [Hin Hk]. apply bool_decide_eq_true in Hk.
    exfalso. apply Hx. rewrite <- Hk.
    apply list_elem_of_fmap_2. by apply list_elem_of_In.
  - rewrite Hid. by apply IH.
Qed.

Lemma delete_one_absent id (l : list A) :
  List.find (λ x, bool_decide (key x = id)) l = None →
  delete_one (λ x, bool_decide (key x = id)) l = l.
Proof.
  induction l as [|x l IH]; [done|]. simpl.
  destruct (bool_decide (key x = id)); [done|]. intros H. by rewrite IH.
Qed.

Lemma delete_one_NoDup id (l : list A) :
  NoDup (key <$> l) →
  NoDup (key <$> delete_one (λ x, bool_decide (key x = id)) l).
Proof.
  induction l as [|x l IH]; [done|]. rewrite fmap_cons.
  intros [Hx Hl]%list.NoDup_cons. simpl.
  destruct (bool_decide (key x = id)); [done|].
  rewrite fmap_cons. apply list.NoDup_cons. split; [|by apply IH].
  intros (y & Hy & Hin)%list_elem_of_fmap. apply Hx. rewrite Hy.
  apply list_elem_of_fmap_2.
  clear -Hin. induction l as [|z l IH]; simpl in *; [done|].
  destruct (bool_decide (key z = id)).
  - by apply list_elem_of_further.
  - apply elem_of_cons in Hin as [->|Hin]; [apply list_elem_of_here|].
    apply list_elem_of_further. by apply IH.
Qed.
End delete_one.

(** X9. Deleting a complaint.  For an id no complaint has, the answer is
    404 and nothing changes.  For a stored complaint (ids being unique) the
    answer is 200, "complaintDeleted" is emitted with the id, the complaint
    can no longer be found, every other complaint is as it was, and no
    assignment, message, feedback or user is removed: what referenced the
    complaint now references nothing. *)
Theorem delete_complaint_does_not_cascade (id : ObjectId) (s : Store) :
  let out := run (delete_complaint id) s in
  (Complaint_findById id s = None →
   out = (inr {| res_status := 404; res_body := JsonError "Complaint not found" |},
          quiet s))
  ∧ (is_Some (Complaint_findById id s) → unique_complaint_ids s →
     out = (inr {| res_status := 200;
                   res_body := JsonMessage "Complaint deleted successfully" |},
            {| store := store out.2; env := [];
               log := [EmitId "complaintDeleted" id] |})
     ∧ Complaint_findById id (store out.2) = None
     ∧ (∀ id', id' ≠ id → Complaint_findById id' (store out.2)
                          = Complaint_findById id' s)
     ∧ assigneds (store out.2) = assigneds s
     ∧ messages (store out.2) = messages s
     ∧ feedbacks (store out.2) = feedbacks s
     ∧ users (store out.2) = users s
     ∧ (∀ agent x, x ∈ Assigned_find_populate agent (store out.2) →
                   Assigned.complaintId x.1 = id → x.2 = None)).
Proof.
  intros out. unfold out, delete_complaint, Complaint_findByIdAndDelete.
  unfold_handler. cbn -[Complaint_findById]. split.
  - intros Hnone. rewrite Hnone. cbn. unfold quiet, with_complaints. do 2 f_equal.
    unfold Complaint_findById in Hnone.
    rewrite (delete_one_absent Complaint._id) by done. by destruct s.
  - intros [c Hc] Huniq. rewrite Hc. cbn -[Complaint_findById].
    assert (Complaint_findById id
              (with_complaints
                 (delete_one (λ c0, bool_decide (Complaint._id c0 = id)) (complaints s))
                 s) = None) as Hgone.
    { unfold Complaint_findById. cbn.
      by apply (find_delete_one_eq Complaint._id). }
    repeat split; try done.
    + intros id' Hne. unfold Complaint_findById. cbn.
      by apply (find_delete_one_ne Complaint._id).
    + intros agent x Hx Hid. unfold Assigned_find_populate in Hx.
      apply list_elem_of_fmap in Hx as (a & -> & _). cbn in *.
      by rewrite Hid.
Qed.

Lemma delete_complaint_does_not_cascade_witness :
  Complaint_findById 10 (store (run (delete_complaint 10) Sample.busy).2) = None
  ∧ assigneds (store (run (delete_complaint 10) Sample.busy).2)
    = assigneds Sample.busy.
Proof.
  destruct (delete_complaint_does_not_cascade 10 Sample.busy) as [_ H].
  destruct H as (_ & Hgone & _ & Hassigned & _).
  - by eexists.
  - unfold unique_complaint_ids. refine (bool_decide_unpack _ _).
    vm_compute. exact I.
  - split; [exact Hgone | exact Hassigned].
Defined.

(** ** Filing a complaint *)

Lemma complaint_attachments_lookup names files i :
  complaint_attachments names files !! i
  = (λ file, {| att_path := file_path file;
                att_originalName := Some (file_originalname file);
                att_name := Some (attachment_name (namesList names) i file) |})
      <$> files !! i.
Proof.
  unfold complaint_attachments. destruct files as [|f files]; [done|].
  by rewrite list_lookup_imap.
Qed.

Lemma complaint_attachments_length names files :
  length (complaint_attachments names files) = length files.
Proof.
  unfold complaint_attachments. destruct files; [done|]. by rewrite length_imap.
Qed.

(** X10. The attachments of a new complaint follow the uploaded files one
    for one, in order, with the file's path and original name.  The display
    name is the name submitted at the same position when there is one and
    it is not empty, and the original file name otherwise; a single
    submitted name therefore names the first file only. *)
Theorem complaint_attachments_follow_files
    (names : AttachmentNames) (files : list File) :
  length (complaint_attachments names files) = length files
  ∧ (∀ i file, files !! i = Some file →
       ∃ a, complaint_attachments names files !! i = Some a
            ∧ att_path a = file_path file
            ∧ att_originalName a = Some (file_originalname file)
            ∧ (∀ n, namesList names !! i = Some n → n ≠ "" →
                    att_name a = Some n)
            ∧ (namesList names !! i = None ∨ namesList names !! i = Some "" →
               att_name a = Some (file_originalname file)))
  ∧ (∀ n i file, names = NamesOne n → files !! i = Some file →
       ∃ a, complaint_attachments names files !! i = Some a
            ∧ att_name a = Some (if bool_decide (i = 0 ∧ n ≠ "") then n
                                 else file_originalname file)).
Proof.
  split; [|split].
  - apply complaint_attachments_length.
  - intros i file Hfile. rewrite complaint_attachments_lookup, Hfile.
    eexists. split; [done|]. cbn. repeat split; unfold attachment_name.
    + intros n -> Hn. by rewrite bool_decide_eq_false_2.
    + by intros [->| ->].
  - intros n i file -> Hfile. rewrite complaint_attachments_lookup, Hfile.
    eexists. split; [done|]. cbn. f_equal. unfold attachment_name, namesList.
    destruct (decide (n = "")) as [->|Hn].
    + rewrite bool_decide_eq_true_2 by done. rewrite lookup_nil.
      by rewrite bool_decide_eq_false_2 by (by intros [_ ?]).
    + rewrite (bool_decide_eq_false_2 (n = "")) by done.
      destruct i as [|i]; cbn.
      * by rewrite bool_decide_eq_false_2, bool_decide_eq_true_2.
      * by rewrite bool_decide_eq_false_2 by (by intros [? _]).
Qed.

Lemma Complaint_findById_after_insert c s :
  complaint_ids_fresh s →
  Complaint._id c = next_oid s →
  Complaint_findById (Complaint._id c) (insert_complaint c s) = Some c.
Proof.
  unfold Complaint_findById, complaint_ids_fresh.
  cbn [insert_complaint complaints]. intros Hfresh Hid.
  induction (complaints s) as [|x l IH]; simpl.
  - by rewrite bool_decide_eq_true_2.
  - rewrite bool_decide_eq_false_2.
    + apply IH. intros y Hy. apply Hfresh. by apply list_elem_of_further.
    + pose proof (Hfresh x (list_elem_of_here _ _)). lia.
Qed.

Lemma Complaint_save_cases body attachments s :
  (∃ paths, Complaint_save body attachments s
            = (inl (ValidationError "Complaint" paths), s, []))
  ∨ (∃ u, ComplaintBody.userId body = Some u
          ∧ Complaint_save body attachments s
            = (inr (new_Complaint body attachments s),
               insert_complaint (new_Complaint body attachments s) s, [])).
Proof.
  unfold Complaint_save.
  destruct (ComplaintBody.userId body) as [u|].
  - destruct (_ ++ _); [right; by exists u | left; by eexists].
  - left. by eexists.
Qed.

Lemma run_post_complaints body files s :
  run (post_complaints body files) s
  = match Complaint_save body
            (complaint_attachments (ComplaintBody.attachmentNames body) files) s
    with
    | (inl e, _, _) => (inr (plain (server_error e)), quiet s)
    | (inr c, s1, _) =>
        (inr {| ans_status := 201; ans_body := ComplaintDoc c |},
         {| store := s1; env := [];
            log := [Emit "complaintCreated" (Some c)] |})
    end.
Proof.
  destruct (Complaint_save_cases body
              (complaint_attachments (ComplaintBody.attachmentNames body) files) s)
    as [(paths & H)|(u & _ & H)];
    unfold post_complaints; unfold_handler;
    cbn -[Complaint_save complaint_attachments]; by rewrite H.
Qed.

(** X11. Filing a complaint and reading it back.  On a store whose
    complaint ids are all below the id generator, a 201 from POST
    /api/complaints means: the answer carries the new complaint, the same
    complaint is emitted as "complaintCreated", its status is the body's
    status and "Pending" when the body has none, its user is the body's
    [userId], it has one attachment per file, and GET /api/complaints/:id
    with its id returns it. *)
Theorem filed_complaint_reads_back
    (s : Store) (body : ComplaintBody.t) (files : list File)
    (ans : Answer) (r : Run) :
  complaint_ids_fresh s →
  run (post_complaints body files) s = (inr ans, r) →
  ans_status ans = 201 →
  ∃ c, ans_body ans = ComplaintDoc c
       ∧ log r = [Emit "complaintCreated" (Some c)]
       ∧ store r = insert_complaint c s
       ∧ Complaint.status c = default "Pending" (ComplaintBody.status body)
       ∧ Some (Complaint.userId c) = ComplaintBody.userId body
       ∧ length (Complaint.attachments c) = length files
       ∧ run (get_complaint (Complaint._id c)) (store r)
         = (inr (ok (ComplaintViewDoc (populate_complaint (store r) c))),
            quiet (store r))
       ∧ complaint_ids_fresh (store r).
Proof.
  intros Hfresh. rewrite run_post_complaints.
  destruct (Complaint_save_cases body
              (complaint_attachments (ComplaintBody.attachmentNames body) files) s)
    as [(paths & ->)|(u & Hu & ->)].
  { intros [= <- <-]. discriminate. }
  intros [= <- <-] _. eexists. split; [done|]. cbn [log store].
  split; [done|]. split; [done|]. split; [done|].
  split; [cbn; by rewrite Hu|]. split.
  { cbn. apply complaint_attachments_length. }
  split.
  - rewrite run_get_complaint, Complaint_findById_after_insert; done.
  - intros c Hc. cbn [insert_complaint complaints next_oid] in *.
    apply elem_of_app in Hc as [Hc|Hc%list_elem_of_singleton].
    + pose proof (Hfresh c Hc). lia.
    + subst c. cbn. lia.
Qed.

Lemma filed_complaint_reads_back_witness :
  ∃ c, log (run (post_complaints Demo.report [Demo.photo; Demo.scan])
                Sample.busy).2
       = [Emit "complaintCreated" (Some c)]
       ∧ Complaint.status c = "Pending"
       ∧ Complaint.attachments c
         = [ {| att_path := "uploads/1700000000000.jpg";
                att_name := Some "photo of the pole";
                att_originalName := Some "IMG_0001.jpg" |};
             {| att_path := "uploads/1700000000001.pdf";
                att_name := Some "bill.pdf";
                att_originalName := Some "bill.pdf" |} ].
Proof.
  destruct (filed_complaint_reads_back
              Sample.busy Demo.report [Demo.photo; Demo.scan]
              (match (run (post_complaints Demo.report [Demo.photo; Demo.scan])
                          Sample.busy).1 with
               | inr ans => ans
               | inl _ => not_found ""
               end)
              (run (post_complaints Demo.report [Demo.photo; Demo.scan])
                   Sample.busy).2)
    as (c & Hbody & Hlog & _ & Hst & _); [|reflexivity|reflexivity|].
  - intros c Hc. apply list_elem_of_In in Hc. simpl in Hc.
    destruct Hc as [<-|[<-|[<-|[<-|[]]]]]; reflexivity.
  - exists c. split; [exact Hlog|]. split; [exact Hst|].
    vm_compute in Hbody. by injection Hbody as <-.
Defined.

(** ** Messages *)

Lemma Message_save_cases body attachments s :
  (∃ paths, Message_save body attachments s
            = (inl (ValidationError "Message" paths), s, []))
  ∨ (∃ c, MessageBody.complaintId body = Some c
          ∧ Message_save body attachments s
            = (inr (new_Message body attachments s),
               insert_message (new_Message body attachments s) s, [])).
Proof.
  unfold Message_save.
  destruct (MessageBody.complaintId body) as [c|].
  - destruct (_ ++ _); [right; by exists c | left; by eexists].
  - left. by eexists.
Qed.

Lemma run_post_messages body files s :
  run (post_messages body files) s
  = match Message_save body (message_attachments files) s with
    | (inl e, _, _) =>
        (inr {| answer := plain (server_error e); newMessage := [] |}, quiet s)
    | (inr m, s1, _) =>
        (inr {| answer := {| ans_status := 201; ans_body := MessageDoc m |};
                newMessage := [m] |},
         quiet s1)
    end.
Proof.
  destruct (Message_save_cases body (message_attachments files) s)
    as [(paths & H)|(c & _ & H)];
    unfold post_messages; unfold_handler;
    cbn -[Message_save message_attachments]; by rewrite H.
Qed.

Lemma attachment_paths_ok attachments :
  Forall (λ a, att_path a ≠ "") attachments → attachment_paths attachments = [].
Proof.
  unfold attachment_paths.
  assert (∀ (label : nat → string) l, Forall (λ a, att_path a ≠ "") l →
            mjoin (imap (λ index a,
                     if bool_decide (att_path a = "") then [label index] else [])
                   l) = []) as H.
  { intros label l Hl. revert label.
    induction Hl as [|a l Ha Hl IH]; intros label; [done|].
    cbn [imap mjoin list_join]. rewrite bool_decide_eq_false_2 by done.
    cbn. apply (IH (label ∘ S)). }
  apply H.
Qed.

(** X12. A message is stored whatever complaint it names.  With a complaint
    id, a sender name and a text, none empty, POST /api/messages answers
    201, whether or not the complaint exists: the message is appended
    unread, stamped with the clock, carrying the body's fields, and is
    broadcast as "newMessage". *)
Theorem posted_message_is_stored_unread
    (s : Store) (body : MessageBody.t) (files : list File)
    (c : ObjectId) (n t : string) :
  MessageBody.complaintId body = Some c →
  MessageBody.name body = Some n → n ≠ "" →
  MessageBody.message body = Some t → t ≠ "" →
  Forall (λ f, file_path f ≠ "") files →
  ∃ m, run (post_messages body files) s
       = (inr {| answer := {| ans_status := 201; ans_body := MessageDoc m |};
                 newMessage := [m] |},
          quiet (insert_message m s))
       ∧ Message.complaintId m = c ∧ Message.name m = n
       ∧ Message.message m = t ∧ Message.read m = false
       ∧ Message.sentAt m = clock s
       ∧ length (Message.attachments m) = length files.
Proof.
  intros Hc Hn Hne Ht Hte Hfiles.
  exists (new_Message body (message_attachments files) s).
  rewrite run_post_messages. unfold Message_save, new_Message.
  rewrite Hc, Hn, Ht. cbn [required_id required_string app].
  rewrite !bool_decide_eq_false_2 by done. cbn [app].
  rewrite attachment_paths_ok.
  - repeat split; try done. cbn. unfold message_attachments.
    by rewrite length_fmap.
  - unfold message_attachments. apply Forall_fmap.
    eapply list.Forall_impl; [exact Hfiles|]. done.
Qed.

Lemma posted_message_is_stored_unread_witness :
  Complaint_findById 99 Sample.chat = None
  ∧ ∃ m, run (post_messages (Demo.note 99 "carol") []) Sample.chat
         = (inr {| answer := {| ans_status := 201; ans_body := MessageDoc m |};
                   newMessage := [m] |},
            quiet (insert_message m Sample.chat))
         ∧ Message.read m = false.
Proof.
  split; [reflexivity|].
  destruct (posted_message_is_stored_unread
              Sample.chat (Demo.note 99 "carol") [] 99 "carol" "any news?")
    as (m & Hrun & _ & _ & _ & Hread & _);
    [reflexivity | reflexivity | discriminate | reflexivity | discriminate
    | apply Forall_nil |].
  exists m. split; [exact Hrun | exact Hread].
Defined.

Section counting.
Variable ne_undefined : bool.

(** The count a caller named [N] is shown for a complaint. *)
Lemma unread_count_named user N s complaintId :
  user_name user = Some (JStr N) →
  unread_count (run (get_unread_counts ne_undefined user) s).1 complaintId
  = length (filter (unread_for complaintId N) (messages s)).
Proof.
  intros Hname. rewrite run_get_unread_counts. cbn [fst unread_count res_body].
  rewrite Hname, unread_counts_named. by destruct (length _).
Qed.

(** X13. A new message counts once, for everyone but its sender.  For a
    caller whose token carries the name [N], after a message was posted the
    unread count of its complaint is one higher than before when the sender
    is not [N] and unchanged when it is; the counts of all other complaints
    are unchanged. *)
Theorem new_message_counts_once
    (s : Store) (body : MessageBody.t) (files : list File)
    (out : MessageAnswer) (r : Run)
    (user : gmap string JsVal) (N : string) (complaintId : ObjectId) :
  run (post_messages body files) s = (inr out, r) →
  ans_status (answer out) = 201 →
  user_name user = Some (JStr N) →
  unread_count (run (get_unread_counts ne_undefined user) (store r)).1 complaintId
  = unread_count (run (get_unread_counts ne_undefined user) s).1 complaintId
    + (if bool_decide (MessageBody.complaintId body = Some complaintId
                       ∧ MessageBody.name body ≠ Some N)
       then 1 else 0).
Proof.
  intros Hrun Hok Hname. rewrite !(unread_count_named user N) by done.
  rewrite run_post_messages in Hrun.
  destruct (Message_save_cases body (message_attachments files) s)
    as [(paths & H)|(c & Hc & H)]; rewrite H in Hrun;
    injection Hrun as <- <-; [discriminate|].
  cbn [store quiet insert_message messages].
  rewrite list.filter_app, length_app. f_equal.
  rewrite list.filter_cons, list.filter_nil. unfold unread_for, new_Message.
  cbn [Message.complaintId Message.read Message.name].
  rewrite Hc. cbn [default from_option id].
  assert (required_string "name" (MessageBody.name body) = []) as Hreq.
  { unfold Message_save in H. rewrite Hc in H. cbn [required_id app] in H.
    destruct (required_string "name" _); [done|]. discriminate. }
  unfold required_string in Hreq.
  destruct (MessageBody.name body) as [n|]; [|done]. cbn [default from_option id].
  destruct (decide (c = complaintId ∧ false = false ∧ n ≠ N)) as [(-> & _ & Hn)|Hno].
  - rewrite bool_decide_eq_true_2; [done|]. split; [done|]. congruence.
  - rewrite bool_decide_eq_false_2; [done|].
    intros [[= ->] Hn]. apply Hno. repeat split; congruence.
Qed.

End counting.

Lemma new_message_counts_once_witness :
  unread_count
    (run (get_unread_counts true (Demo.named "alice"))
         (store (run (post_messages (Demo.note 10 "bob") []) Sample.chat).2)).1 10
  = unread_count
      (run (get_unread_counts true (Demo.named "alice")) Sample.chat).1 10 + 1.
Proof.
  refine (new_message_counts_once true
            Sample.chat (Demo.note 10 "bob") []
            (match (run (post_messages (Demo.note 10 "bob") []) Sample.chat).1 with
             | inr out => out
             | inl _ => {| answer := not_found ""; newMessage := [] |}
             end) _ (Demo.named "alice") "alice" 10 _ _ _); reflexivity.
Defined.


Lemma filter_fmap_length {A} (P : A → Prop) `{∀ x, Decision (P x)}
    (f : A → A) (l : list A) :
  length (filter P (f <$> l)) = length (filter (λ x, P (f x)) l).
Proof.
  induction l as [|x l IH]; [done|].
  rewrite fmap_cons, !list.filter_cons.
  destruct (decide (P (f x))); cbn [length]; by rewrite IH.
Qed.

Lemma filter_length_ext {A} (P Q : A → Prop)
    `{∀ x, Decision (P x)} `{∀ x, Decision (Q x)} (l : list A) :
  (∀ x, P x ↔ Q x) → length (filter P l) = length (filter Q l).
Proof.
  intros HPQ. induction l as [|x l IH]; [done|]. rewrite !list.filter_cons.
  destruct (decide (P x)) as [HP|HP], (decide (Q x)) as [HQ|HQ];
    cbn [length]; try lia; exfalso; by apply HPQ in HP || apply HPQ in HQ.
Qed.

Section reading.
Variable ne_undefined : bool.

(** X14. Marking read empties the caller's count.  For a caller whose token
    carries the name [N], right after mark-read on a complaint the unread
    count of that complaint is 0, and the counts of all other complaints
    are what they were. *)
Theorem mark_read_clears_the_count
    (s : Store) (user : gmap string JsVal) (N : string)
    (complaintId other : ObjectId) :
  let s' := store (run (put_messages_read ne_undefined complaintId user) s).2 in
  user_name user = Some (JStr N) →
  unread_count (run (get_unread_counts ne_undefined user) s').1 complaintId = 0
  ∧ (other ≠ complaintId →
     unread_count (run (get_unread_counts ne_undefined user) s').1 other
     = unread_count (run (get_unread_counts ne_undefined user) s).1 other).
Proof.
  intros s' Hname. unfold s'. rewrite run_put_messages_read. cbn [snd store quiet].
  rewrite !(unread_count_named _ user N) by done.
  rewrite Hname, !mark_read_named, !filter_fmap_length. split.
  - replace 0 with (length (filter (λ _ : Message.t, False) (messages s))).
    2: { clear. induction (messages s) as [|x l IH]; [done|].
         rewrite list.filter_cons, decide_False by tauto. done. }
    apply filter_length_ext. intros m. split; [|done].
    destruct (decide (from_someone_else complaintId N m)) as [Hm|Hm].
    + by intros (_ & ? & _).
    + intros (Hc & _ & Hn). apply Hm. by split.
  - intros Hother. apply filter_length_ext. intros m.
    destruct (decide (from_someone_else complaintId N m)) as [[Hc _]|Hm]; [|done].
    unfold unread_for. cbn [Message.set_read Message.complaintId].
    split; intros [? _]; congruence.
Qed.

(** X15. What mark-read can do to a message, whoever calls: nothing, or set
    [read] on an unread message of the complaint.  No message is added or
    removed, no message of another complaint changes, no flag goes back to
    unread, no other field changes, and nothing but messages is
    written. *)
Theorem mark_read_only_sets_read
    (s : Store) (user : gmap string JsVal) (complaintId : ObjectId) :
  let s' := store (run (put_messages_read ne_undefined complaintId user) s).2 in
  length (messages s') = length (messages s)
  ∧ (∀ i m, messages s !! i = Some m →
       messages s' !! i = Some m
       ∨ (messages s' !! i = Some (Message.set_read true m)
          ∧ Message.complaintId m = complaintId
          ∧ Message.read m = false))
  ∧ users s' = users s ∧ complaints s' = complaints s
  ∧ assigneds s' = assigneds s ∧ feedbacks s' = feedbacks s.
Proof.
  intros s'. unfold s'. rewrite run_put_messages_read.
  cbn [snd store quiet mark_read with_messages messages users complaints
       assigneds feedbacks].
  split; [by rewrite length_fmap|]. split; [|done].
  intros i m Hm. rewrite list_lookup_fmap, Hm. cbn [fmap option_fmap option_map].
  destruct (bool_decide (Message.complaintId m = complaintId)) eqn:Hc;
    cbn [andb]; [|by left].
  destruct (ne ne_undefined (Message.name m) (user_name user));
    cbn [andb]; [|by left].
  destruct (Message.read m) eqn:Hr; cbn [negb]; [by left|].
  right. by apply bool_decide_eq_true in Hc.
Qed.

(** X16. Mark-read is idempotent, whoever calls: a second call right after
    the first leaves the store as the first left it. *)
Theorem mark_read_twice_is_once
    (s : Store) (user : gmap string JsVal) (complaintId : ObjectId) :
  let once := run (put_messages_read ne_undefined complaintId user) s in
  let twice := run (put_messages_read ne_undefined complaintId user)
                   (store once.2) in
  twice = (once.1, quiet (store once.2)) ∧ store twice.2 = store once.2.
Proof.
  cbv zeta. rewrite !run_put_messages_read. cbn [fst snd store quiet].
  by rewrite mark_read_idempotent.
Qed.

(** X17. Mark-read for a caller whose token carries a name.  When
    [req.user.name] is the string [N], mark-read sets [read] on exactly the
    messages of the complaint whose sender is not [N] and leaves every
    other message as it is. *)
Theorem mark_read_for_named_caller
    (s : Store) (user : gmap string JsVal) (N : string) (complaintId : ObjectId) :
  let s' := store (run (put_messages_read ne_undefined complaintId user) s).2 in
  user_name user = Some (JStr N) →
  ∀ i m, messages s !! i = Some m →
    messages s' !! i
    = Some (if decide (Message.complaintId m = complaintId ∧ Message.name m ≠ N)
            then Message.set_read true m else m).
Proof.
  intros s' Hname i m Hm. unfold s'. rewrite run_put_messages_read.
  cbn [snd store quiet]. rewrite Hname, mark_read_named, list_lookup_fmap, Hm.
  cbn [fmap option_fmap option_map]. unfold from_someone_else.
  by destruct (decide _).
Qed.
End reading.

Lemma mark_read_clears_the_count_witness :
  unread_count
    (run (get_unread_counts true (Demo.named "alice"))
         (store (run (put_messages_read true 10 (Demo.named "alice"))
                     Sample.chat).2)).1 10 = 0.
Proof.
  apply (mark_read_clears_the_count true Sample.chat (Demo.named "alice")
           "alice" 10 10). reflexivity.
Defined.

Lemma mark_read_for_named_caller_witness :
  messages (store (run (put_messages_read true 10 (Demo.named "alice"))
                       Sample.chat).2) !! 1
  = Some (Sample.message 301 10 "bob" true).
Proof.
  exact (mark_read_for_named_caller true Sample.chat (Demo.named "alice")
           "alice" 10 eq_refl 1 (Sample.message 301 10 "bob" false) eq_refl).
Defined.

Local Instance sent_before_total : Total sent_before.
Proof. intros m1 m2. unfold sent_before. lia. Qed.

Local Instance sent_before_trans : Transitive sent_before.
Proof. intros m1 m2 m3. unfold sent_before. lia. Qed.

(** X18. The thread of a complaint.  GET /api/messages/:complaintId answers
    200 with exactly the stored messages of that complaint, each as often
    as it is stored, ordered by send time: every message in the answer was
    sent no later than all that follow it.  The store is not changed. *)
Theorem thread_is_complete_and_in_order (complaintId : ObjectId) (s : Store) :
  ∃ thread, run (get_messages complaintId) s
            = (inr (ok (MessageDocs thread)), quiet s)
    ∧ thread ≡ₚ filter (λ m, Message.complaintId m = complaintId) (messages s)
    ∧ Sorted.StronglySorted (λ m1 m2, (Message.sentAt m1 ≤ Message.sentAt m2)%Z) thread
    ∧ (∀ m, m ∈ thread ↔ m ∈ messages s ∧ Message.complaintId m = complaintId).
Proof.
  exists (Message_find_sorted complaintId s). split; [done|].
  unfold Message_find_sorted. split; [apply sorting.merge_sort_Permutation|].
  split; [apply (sorting.StronglySorted_merge_sort sent_before)|].
  intros m. rewrite sorting.merge_sort_Permutation, list_elem_of_filter. tauto.
Qed.

(** ** Feedback, composed *)

Lemma run_post_feedback body user s :
  run (post_feedback body user) s
  = match Feedback_save (user_id user) (FeedbackBody.complaintId body)
            (Assigned.agentId <$> Assigned_findOne (FeedbackBody.complaintId body) s)
            (FeedbackBody.rating body) (FeedbackBody.comment body) s with
    | (inl e, _, _) => (inr (server_error e), quiet s)
    | (inr f, s1, _) =>
        (inr {| res_status := 201; res_body := JsonFeedback f |}, quiet s1)
    end.
Proof.
  unfold post_feedback. unfold_handler. cbn -[Feedback_save Assigned_findOne].
  replace (match Assigned_findOne (FeedbackBody.complaintId body) s with
           | Some a => Some (Assigned.agentId a)
           | None => None
           end)
    with (Assigned.agentId <$> Assigned_findOne (FeedbackBody.complaintId body) s)
    by (by destruct (Assigned_findOne _ _)).
  unfold Feedback_save.
  destruct (user_id user), (FeedbackBody.rating body) as [q|]; try done.
  by destruct (rating_valid (Some q)).
Qed.

(** X19. What create-feedback asks for, and what it records.  A token with
    an id and a rating between 1 and 5 are enough: the answer is 201
    whether or not the complaint exists, is resolved, or already has
    feedback.  The stored feedback carries the token's id as user, the
    body's complaint, rating and comment, and as agent the agent of the
    complaint's assignment at that moment, or none. *)
Theorem feedback_needs_only_a_rating
    (s : Store) (body : FeedbackBody.t) (user : gmap string JsVal)
    (u : ObjectId) (q : Qc) :
  user_id user = Some u →
  FeedbackBody.rating body = Some q →
  (1 ≤ q ≤ Qc_of_Z 5)%Qc →
  ∃ f, run (post_feedback body user) s
       = (inr {| res_status := 201; res_body := JsonFeedback f |},
          quiet (insert_feedback f s))
       ∧ Feedback.userId f = u
       ∧ Feedback.complaintId f = FeedbackBody.complaintId body
       ∧ Feedback.rating f = q
       ∧ Feedback.comment f = FeedbackBody.comment body
       ∧ Feedback.agentId f
         = Assigned.agentId <$> Assigned_findOne (FeedbackBody.complaintId body) s.
Proof.
  intros Hu Hq Hbounds. rewrite run_post_feedback. unfold Feedback_save.
  rewrite Hu, Hq.
  assert (rating_valid (Some q) = true) as ->.
  { apply rating_valid_bounds. by exists q. }
  by eexists.
Qed.

Lemma feedback_needs_only_a_rating_witness :
  Complaint_findById 10 Sample.orphaned = None
  ∧ ∃ f, run (post_feedback (Sample.feedback (Qc_of_Z 4)) Sample.alice_decoded)
             Sample.orphaned
         = (inr {| res_status := 201; res_body := JsonFeedback f |},
            quiet (insert_feedback f Sample.orphaned))
         ∧ Feedback.agentId f = Some 7%N.
Proof.
  split; [reflexivity|].
  destruct (feedback_needs_only_a_rating
              Sample.orphaned (Sample.feedback (Qc_of_Z 4)) Sample.alice_decoded
              302 (Qc_of_Z 4))
    as (f & Hrun & _ & _ & _ & _ & Hagent); [reflexivity | reflexivity | |].
  - split; refine (bool_decide_unpack _ _); vm_compute; exact I.
  - exists f. split; [exact Hrun | exact Hagent].
Defined.

Lemma Feedback_findOne_after_insert complaintId f s :
  Feedback.complaintId f = complaintId →
  Feedback_findOne complaintId (insert_feedback f s)
  = Some (default f (Feedback_findOne complaintId s)).
Proof.
  unfold Feedback_findOne. cbn [insert_feedback feedbacks]. intros Hf.
  induction (feedbacks s) as [|x l IH]; simpl.
  - by rewrite bool_decide_eq_true_2.
  - by destruct (bool_decide (Feedback.complaintId x = complaintId)).
Qed.

(** X20. Feedback accumulates, and the first one is the one shown.  After a
    successful create-feedback, GET /api/feedback/complaint/:complaintId
    answers with the feedback the complaint already had if it had one, and
    with the new one only if it had none; the new one is stored either
    way. *)
Theorem first_feedback_is_the_one_shown
    (s : Store) (body : FeedbackBody.t) (user : gmap string JsVal)
    (resp : Response) (r : Run) :
  let complaintId := FeedbackBody.complaintId body in
  run (post_feedback body user) s = (inr resp, r) →
  res_status resp = 201 →
  ∃ f, res_body resp = JsonFeedback f
       ∧ feedbacks (store r) = feedbacks s ++ [f]
       ∧ run (get_feedback_complaint complaintId) (store r)
         = (inr (ok (FeedbackOrNull
                       (Some (default f (Feedback_findOne complaintId s))))),
            quiet (store r)).
Proof.
  intros complaintId Hrun Hok. rewrite run_post_feedback in Hrun.
  destruct (Feedback_save _ _ _ _ _ s) as [[[e|f] s1] effs] eqn:Hsave;
    injection Hrun as <- <-; [discriminate|].
  exists f. split; [done|].
  assert (s1 = insert_feedback f s ∧ Feedback.complaintId f = complaintId)
    as [-> Hf].
  { unfold Feedback_save in Hsave.
    destruct (user_id user), (FeedbackBody.rating body) as [q|]; try done.
    destruct (rating_valid (Some q)); [|done]. by injection Hsave as <- <-. }
  split; [done|].
  unfold get_feedback_complaint. unfold_handler. cbn -[Feedback_findOne].
  by rewrite Feedback_findOne_after_insert.
Qed.

Lemma first_feedback_is_the_one_shown_witness :
  let once := run (post_feedback (Sample.feedback (Qc_of_Z 2)) Sample.alice_decoded)
                  Sample.chat in
  let twice := run (post_feedback (Sample.feedback (Qc_of_Z 5)) Sample.alice_decoded)
                   (store once.2) in
  ∃ f, run (get_feedback_complaint 10) (store twice.2)
       = (inr (ok (FeedbackOrNull (Some f))), quiet (store twice.2))
       ∧ Feedback.rating f = Qc_of_Z 2
       ∧ length (feedbacks (store twice.2)) = 2.
Proof.
  cbv zeta.
  destruct (first_feedback_is_the_one_shown
              (store (run (post_feedback (Sample.feedback (Qc_of_Z 2))
                                         Sample.alice_decoded) Sample.chat).2)
              (Sample.feedback (Qc_of_Z 5)) Sample.alice_decoded
              {| res_status := 201;
                 res_body := JsonFeedback
                   {| Feedback._id := 303; Feedback.userId := 302;
                      Feedback.complaintId := 10; Feedback.agentId := Some 7%N;
                      Feedback.rating := Qc_of_Z 5;
                      Feedback.comment := Some "thanks";
                      Feedback.createdAt := 50 |} |}
              (run (post_feedback (Sample.feedback (Qc_of_Z 5)) Sample.alice_decoded)
                   (store (run (post_feedback (Sample.feedback (Qc_of_Z 2))
                                              Sample.alice_decoded) Sample.chat).2)).2)
    as (f & _ & Hall & Hget); [reflexivity | reflexivity |].
  eexists. split; [exact Hget|]. split; [reflexivity|]. by rewrite Hall.
Defined.

(** ** Accounts and tokens *)

Lemma User_save_cases name email password phone userType s :
  (∃ e, User_save name email password phone userType s = (inl e, s, []))
  ∨ (∃ n m p ph,
       name = Some n ∧ email = Some m ∧ password = Some p ∧ phone = Some ph
       ∧ n ≠ "" ∧ m ≠ "" ∧ p ≠ "" ∧ ph ≠ ""
       ∧ (∀ u, u ∈ users s → User.email u ≠ m)
       ∧ let u := {| User._id := next_oid s; User.name := n; User.email := m;
                     User.password := p; User.phone := ph;
                     User.userType := default "Customer" userType;
                     User.createdAt := clock s |} in
         User_save name email password phone userType s
         = (inr u, insert_user u s, [])).
Proof.
  unfold User_save, required_string.
  destruct name as [n|]; [|left; by eexists].
  destruct (decide (n = "")) as [->|Hn]; [left; by eexists|].
  rewrite (bool_decide_eq_false_2 (n = "")) by done.
  destruct email as [m|]; [|left; by eexists].
  destruct (decide (m = "")) as [->|Hm]; [left; by eexists|].
  rewrite (bool_decide_eq_false_2 (m = "")) by done.
  destruct password as [p|]; [|left; by eexists].
  destruct (decide (p = "")) as [->|Hp]; [left; by eexists|].
  rewrite (bool_decide_eq_false_2 (p = "")) by done.
  destruct phone as [ph|]; [|left; by eexists].
  destruct (decide (ph = "")) as [->|Hph]; [left; by eexists|].
  rewrite (bool_decide_eq_false_2 (ph = "")) by done.
  cbn [app]. destruct (userType_enum userType); [|left; by eexists].
  destruct (existsb _ _) eqn:Hex; [left; by eexists|].
  right. exists n, m, p, ph. repeat split; try done.
  intros u Hu Hemail.
  assert (existsb (λ u, bool_decide (Some (User.email u) = Some m)) (users s) = true)
    as Htrue; [|congruence].
  apply (proj2 (existsb_exists _ _)). exists u.
  split; [by apply list_elem_of_In|]. apply bool_decide_eq_true. by rewrite Hemail.
Qed.

Section accounts.
Variable bcrypt_hash : string → string.
Variable bcrypt_compare : string → string → bool.

Lemma run_register body s :
  run (register bcrypt_hash body) s
  = match RegisterBody.password body with
    | None => (inr (server_error BcryptError), quiet s)
    | Some p =>
        match User_save (RegisterBody.name body) (RegisterBody.email body)
                (Some (bcrypt_hash p)) (RegisterBody.phone body)
                (RegisterBody.userType body) s with
        | (inl e, _, _) => (inr (server_error e), quiet s)
        | (inr u, s1, _) =>
            (inr {| res_status := 201;
                    res_body := JsonAuth (Some "User registered successfully")
                      (jwt_sign (token_payload u) SECRET_KEY 3600 (clock s1))
                      (public_user u) |},
             quiet s1)
        end
    end.
Proof.
  unfold register, hash. unfold_handler. cbn -[User_save].
  destruct (RegisterBody.password body) as [p|]; [|done]. cbn -[User_save].
  destruct (User_save_cases (RegisterBody.name body) (RegisterBody.email body)
              (Some (bcrypt_hash p)) (RegisterBody.phone body)
              (RegisterBody.userType body) s)
    as [(e & H)|(n & m & p' & ph & _ & _ & _ & _ & _ & _ & _ & _ & _ & H)];
    cbv zeta in H; by rewrite H.
Qed.

(** A successful registration, spelled out. *)
Lemma register_created body s status message token user r :
  run (register bcrypt_hash body) s
  = (inr {| res_status := status; res_body := JsonAuth message token user |}, r) →
  ∃ n m p ph,
    RegisterBody.name body = Some n ∧ RegisterBody.email body = Some m
    ∧ RegisterBody.password body = Some p ∧ RegisterBody.phone body = Some ph
    ∧ (∀ u, u ∈ users s → User.email u ≠ m)
    ∧ let u := {| User._id := next_oid s; User.name := n; User.email := m;
                  User.password := bcrypt_hash p; User.phone := ph;
                  User.userType := default "Customer" (RegisterBody.userType body);
                  User.createdAt := clock s |} in
      r = quiet (insert_user u s)
      ∧ token = jwt_sign (token_payload u) SECRET_KEY 3600 (clock s)
      ∧ user = public_user u ∧ status = 201.
Proof.
  rewrite run_register.
  destruct (RegisterBody.password body) as [p|]; [|discriminate].
  destruct (User_save_cases (RegisterBody.name body) (RegisterBody.email body)
              (Some (bcrypt_hash p)) (RegisterBody.phone body)
              (RegisterBody.userType body) s)
    as [(e & H)|(n & m & p' & ph & Hn & Hm & [= <-] & Hph & _ & _ & _ & _ & Hfree & H)];
    cbv zeta in H; rewrite H; [discriminate|].
  intros [= <- <- <- <- <-]. exists n, m, p, ph. by repeat split.
Qed.

(** X21. A token is good for an hour.  The token a registration answers
    with passes [auth] at every moment less than 3600 seconds after the
    registration, with the payload it was signed over, and is answered 400
    "Invalid token." from then on. *)
Theorem registered_token_lasts_an_hour
    (body : RegisterBody.t) (s : Store) (status : nat) (message : option string)
    (token : Jwt) (user : PublicUser) (r : Run)
    (next : gmap string JsVal → M Response) (later : Run) :
  run (register bcrypt_hash body) s
  = (inr {| res_status := status; res_body := JsonAuth message token user |}, r) →
  ((clock (store later) < clock s + 3600)%Z →
   auth (Some token) next later = next (jwt_payload token) later)
  ∧ ((clock s + 3600 ≤ clock (store later))%Z →
     auth (Some token) next later = (inr invalid_token, later)).
Proof.
  intros (n & m & p & ph & _ & _ & _ & _ & _ & H)%register_created.
  cbv zeta in H. destruct H as (_ & -> & _).
  unfold auth, jwt_verify, jwt_sign. cbn [jwt_key jwt_payload].
  rewrite bool_decide_eq_true_2 by done. rewrite lookup_insert_eq. split; intros Hclock.
  - by rewrite bool_decide_eq_true_2.
  - by rewrite bool_decide_eq_false_2 by lia.
Qed.

(** X22. Register, then log in.  Provided bcrypt accepts a password against
    its own hash, logging in with the email and password of a successful
    registration answers 200 with a token for the new user: the payload
    holds that user's id and type. *)
Theorem login_after_register
    (body : RegisterBody.t) (s : Store) (status : nat) (message : option string)
    (token : Jwt) (user : PublicUser) (r : Run) (e : string) :
  (∀ p, bcrypt_compare p (bcrypt_hash p) = true) →
  run (register bcrypt_hash body) s
  = (inr {| res_status := status; res_body := JsonAuth message token user |}, r) →
  RegisterBody.email body = Some e →
  ∃ token',
    run (login bcrypt_compare
           {| LoginBody.email := e;
              LoginBody.password := RegisterBody.password body |}) (store r)
    = (inr {| res_status := 200; res_body := JsonAuth None token' user |},
       quiet (store r))
    ∧ jwt_payload token' !! "id" = Some (JId (pu_id user))
    ∧ jwt_payload token' !! "userType" = Some (JStr (pu_userType user)).
Proof.
  intros Hbcrypt (n & m & p & ph & _ & Hm & Hp & _ & Hfree & H)%register_created He.
  cbv zeta in H. destruct H as (-> & _ & -> & _).
  rewrite Hm in He. injection He as ->. rewrite Hp.
  unfold login, compare. unfold_handler. cbn -[User_findOne].
  assert (∀ u, User.email u = e →
            User_findOne e (insert_user u s) = Some u) as Hfind.
  { intros u Hu. unfold User_findOne. cbn [insert_user users].
    induction (users s) as [|x l IH]; simpl.
    - by rewrite bool_decide_eq_true_2.
    - rewrite bool_decide_eq_false_2 by (apply Hfree, list_elem_of_here).
      apply IH. intros y Hy. apply Hfree. by apply list_elem_of_further. }
  rewrite Hfind by done. cbn. rewrite Hbcrypt. cbn.
  eexists. split; [done|]. unfold jwt_sign, token_payload. cbn [jwt_payload].
  split; by simplify_map_eq.
Qed.
End accounts.

Lemma login_after_register_witness :
  ∃ token',
    (run (login Sample.plain_compare
            {| LoginBody.email := "alice@example.org";
               LoginBody.password := Some "secret" |}) Sample.chat_registered).1
    = inr {| res_status := 200;
             res_body := JsonAuth None token'
                           {| pu_id := 302; pu_name := "alice";
                              pu_userType := "Customer" |} |}.
Proof.
  destruct (login_after_register
              Sample.plain_hash Sample.plain_compare Sample.alice Sample.chat 201
              (Some "User registered successfully") Sample.alice_token
              {| pu_id := 302; pu_name := "alice"; pu_userType := "Customer" |}
              (quiet Sample.chat_registered) "alice@example.org")
    as (token' & Hrun & _).
  - intros p. unfold Sample.plain_compare, Sample.plain_hash.
    by apply bool_decide_eq_true.
  - reflexivity.
  - reflexivity.
  - exists token'. exact (f_equal fst Hrun).
Defined.

Lemma registered_token_lasts_an_hour_witness :
  auth (Some Sample.alice_token) (λ _, ret already_assigned)
       (quiet Sample.chat_registered)
  = (inr already_assigned, quiet Sample.chat_registered).
Proof.
  refine (proj1 (registered_token_lasts_an_hour
                   Sample.plain_hash Sample.alice Sample.chat 201
                   (Some "User registered successfully") Sample.alice_token
                   {| pu_id := 302; pu_name := "alice"; pu_userType := "Customer" |}
                   (quiet Sample.chat_registered) (λ _, ret already_assigned)
                   (quiet Sample.chat_registered) _) _).
  - reflexivity.
  - vm_compute. reflexivity.
Defined.

(** ** The users collection *)

Lemma fmap_update_one {A B} (g : A → B) (p : A → bool) (f : A → A) l :
  (∀ x, g (f x) = g x) → g <$> update_one p f l = g <$> l.
Proof.
  intros Hg. induction l as [|x l IH]; [done|]. cbn [update_one].
  destruct (p x); cbn [fmap list_fmap]; [by rewrite Hg|]. f_equal. apply IH.
Qed.

Lemma elem_of_update_one {A} (p : A → bool) (f : A → A) l y :
  y ∈ update_one p f l → y ∈ l ∨ ∃ x, x ∈ l ∧ y = f x.
Proof.
  induction l as [|x l IH]; [by left|]. cbn [update_one].
  destruct (p x).
  - intros [->|Hy]%list.elem_of_cons.
    + right. exists x. split; [apply list_elem_of_here | done].
    + left. by apply list_elem_of_further.
  - intros [->|Hy]%list.elem_of_cons; [left; apply list_elem_of_here|].
    destruct (IH Hy) as [?|(z & ? & ?)].
    + left. by apply list_elem_of_further.
    + right. exists z. split; [by apply list_elem_of_further | done].
Qed.

Lemma delete_one_sublist {A} (p : A → bool) l : delete_one p l `sublist_of` l.
Proof.
  induction l as [|x l IH]; [done|]. cbn [delete_one].
  destruct (p x); [by apply sublist_cons | by apply sublist_skip].
Qed.

Lemma User_save_wf name email password phone userType s :
  users_wf s → users_wf (User_save name email password phone userType s).1.2.
Proof.
  intros (Hemails & Hids & Hbound).
  destruct (User_save_cases name email password phone userType s)
    as [(e & ->)|(n & m & p & ph & _ & _ & _ & _ & _ & _ & _ & _ & Hfree & H)];
    [done|].
  cbv zeta in H. rewrite H. cbn [fst snd]. unfold users_wf, unique_emails in *.
  cbn [insert_user users next_oid]. rewrite !fmap_app. cbn [fmap list_fmap].
  repeat split.
  - apply list.NoDup_app. split; [done|]. split; [|apply NoDup_singleton].
    intros e (u & -> & Hu)%list_elem_of_fmap Heq%list_elem_of_singleton.
    by apply (Hfree u).
  - apply list.NoDup_app. split; [done|]. split; [|apply NoDup_singleton].
    intros i (u & -> & Hu)%list_elem_of_fmap Heq%list_elem_of_singleton.
    apply Hbound in Hu. cbn [User._id] in Heq. lia.
  - intros u [Hu| ->%list_elem_of_singleton]%elem_of_app.
    + apply Hbound in Hu. lia.
    + cbn [User._id]. lia.
Qed.

Lemma update_one_emails id (f : User.t → User.t) e l :
  (∀ u, User._id (f u) = User._id u) →
  (∀ u, User.email (f u) = e) →
  NoDup (User._id <$> l) → NoDup (User.email <$> l) →
  (∀ v, v ∈ l → User._id v ≠ id → User.email v ≠ e) →
  NoDup (User.email <$> update_one (λ v, bool_decide (User._id v = id)) f l).
Proof.
  intros Hid He. induction l as [|x l IH]; [done|].
  cbn [fmap list_fmap update_one].
  intros [Hx Hids]%list.NoDup_cons [Hxe Hemails]%list.NoDup_cons Hfree.
  destruct (decide (User._id x = id)) as [<-|Hne].
  - rewrite bool_decide_eq_true_2 by done. cbn [fmap list_fmap].
    apply list.NoDup_cons. split; [|done]. rewrite He.
    intros (v & Hv & Hin)%list_elem_of_fmap.
    apply (Hfree v); [by apply list_elem_of_further| |done].
    intros Heq. apply Hx. rewrite <- Heq. apply list_elem_of_fmap. by exists v.
  - rewrite bool_decide_eq_false_2 by done. cbn [fmap list_fmap].
    apply list.NoDup_cons. split.
    + intros (v & Hv & Hin)%list_elem_of_fmap.
      apply elem_of_update_one in Hin as [Hin|(z & Hz & ->)].
      * apply Hxe. apply list_elem_of_fmap. by exists v.
      * rewrite He in Hv. by apply (Hfree x); [apply list_elem_of_here|..].
    + apply IH; [done..|]. intros v Hv. apply Hfree. by apply list_elem_of_further.
Qed.

Lemma existsb_false_Forall {A} (p : A → bool) l :
  existsb p l = false → ∀ x, x ∈ l → p x = false.
Proof.
  intros Hex x Hx. destruct (p x) eqn:Hp; [|done].
  assert (existsb p l = true); [|congruence].
  apply (proj2 (existsb_exists _ _)). exists x. by split; [apply list_elem_of_In|].
Qed.

Lemma fmap_update_one_found {A B} (g : A → B) (p : A → bool) (f : A → A) l x :
  List.find p l = Some x → g (f x) = g x →
  g <$> update_one p f l = g <$> l.
Proof.
  intros Hfind Hg. induction l as [|y l IH]; [done|]. simpl in *.
  destruct (p y); cbn [fmap list_fmap].
  - injection Hfind as ->. by rewrite Hg.
  - f_equal. by apply IH.
Qed.

Lemma User_findByIdAndUpdate_wf id body s :
  users_wf s → users_wf (User_findByIdAndUpdate id body s).1.2.
Proof.
  intros (Hemails & Hids & Hbound). unfold User_findByIdAndUpdate.
  destruct (User_findById id s) as [u|] eqn:Hu; [|done]. cbv zeta.
  destruct (negb _ && existsb _ _) eqn:Hex; [done|]. cbn [fst snd].
  unfold users_wf, unique_emails in *. cbn [with_users users next_oid].
  repeat split.
  - apply andb_false_iff in Hex as [Hsame|Hex].
    + apply negb_false_iff, bool_decide_eq_true in Hsame.
      by rewrite (fmap_update_one_found _ _ _ _ u).
    + pose proof (existsb_false_Forall _ _ Hex) as Hfree.
      destruct (truthy (ProfileBody.email body)) as [e|] eqn:He.
      * apply (update_one_emails id (set_profile body) e); [done| |done..|].
        { intros v. unfold set_profile. cbn [User.email]. by rewrite He. }
        intros v Hv Hne Heq. specialize (Hfree v Hv). cbv beta in Hfree.
        rewrite bool_decide_eq_false_2 in Hfree by done.
        unfold set_profile in Hfree. cbn [User.email] in Hfree.
        rewrite He in Hfree. simpl in Hfree.
        by rewrite bool_decide_eq_true_2 in Hfree.
      * rewrite fmap_update_one; [done|]. intros v. unfold set_profile.
        cbn [User.email]. by rewrite He.
  - by rewrite fmap_update_one.
  - intros v [Hv|(z & Hz & ->)]%elem_of_update_one; [by apply Hbound|].
    by apply (Hbound z).
Qed.

Lemma User_findByIdAndDelete_wf id s :
  users_wf s → users_wf (User_findByIdAndDelete id s).1.2.
Proof.
  intros (Hemails & Hids & Hbound).
  unfold User_findByIdAndDelete, users_wf, unique_emails in *.
  cbn [fst snd with_users users next_oid].
  pose proof (delete_one_sublist (λ u, bool_decide (User._id u = id)) (users s))
    as Hsub.
  repeat split.
  - apply (sublist_NoDup _ (User.email <$> users s)); [done|].
    by apply fmap_sublist.
  - apply (sublist_NoDup _ (User._id <$> users s)); [done|].
    by apply fmap_sublist.
  - intros u Hu. apply Hbound. by eapply elem_of_sublist.
Qed.

(** X23. The users collection stays well formed.  Started on a store
    where no two users share an email or an id and every id was issued,
    among concurrent requests that respect this, register, update-profile
    and delete-user each end on such a store, whatever they are sent. *)
Theorem user_routes_keep_users_well_formed
    (others : list (Store → Store)) (s : Store)
    (bcrypt_hash : string → string) (register_body : RegisterBody.t)
    (id : ObjectId) (profile_body : ProfileBody.t) (user : gmap string JsVal) :
  Forall (preserves users_wf) others →
  users_wf s →
  users_wf (store (run_with others (register bcrypt_hash register_body) s).2)
  ∧ users_wf (store (run_with others (put_profile id profile_body) s).2)
  ∧ users_wf (store (run_with others (delete_user id user) s).2).
Proof.
  intros Hothers Hs. split; [|split]; apply keeps_run; try done.
  - unfold register. apply keeps_try_catch; [|intros; apply keeps_ret].
    apply keeps_bind; [unfold hash; by apply keeps_await|].
    intros h. apply keeps_bind; [apply keeps_await; intros; by apply User_save_wf|].
    intros u. by intros r.
  - unfold put_profile. apply keeps_try_catch; [|intros; apply keeps_ret].
    apply keeps_bind; [apply keeps_await; intros; by apply User_findByIdAndUpdate_wf|].
    intros [u|]; apply keeps_ret.
  - unfold delete_user. apply keeps_try_catch; [|intros; apply keeps_ret].
    destruct (not_admin user); [apply keeps_ret|].
    apply keeps_bind; [apply keeps_await; intros; by apply User_findByIdAndDelete_wf|].
    intros _. apply keeps_ret.
Qed.

Lemma user_routes_keep_users_well_formed_witness :
  let others := [λ s, (User_save (Some "bob") (Some "bob@example.org")
                         (Some "h") (Some "555-0100") None s).1.2] in
  let body := {| ProfileBody.name := None;
                 ProfileBody.email := Some "bob@example.org";
                 ProfileBody.phone := None |} in
  users_wf (store (run_with others (register Sample.plain_hash Demo.root)
                            Sample.chat_registered).2)
  ∧ users_wf (store (run_with others (put_profile 302 body)
                              Sample.chat_registered).2)
  ∧ users_wf (store (run_with others (delete_user 302 (Demo.named "alice"))
                              Sample.chat_registered).2).
Proof.
  intros others body.
  apply user_routes_keep_users_well_formed.
  - apply Forall_cons; [|apply Forall_nil]. intros s. apply User_save_wf.
  - split; [|split].
    + refine (bool_decide_unpack _ _). vm_compute. exact I.
    + refine (bool_decide_unpack _ _). vm_compute. exact I.
    + apply list.Forall_forall. repeat constructor.
Defined.

(** ** The admin gate *)

Lemma jwt_verify_signed payload now later :
  jwt_verify (jwt_sign payload SECRET_KEY 3600 now) SECRET_KEY later
  = if bool_decide (later < now + 3600)%Z
    then Some (jwt_payload (jwt_sign payload SECRET_KEY 3600 now)) else None.
Proof.
  unfold jwt_verify, jwt_sign. cbn [jwt_key jwt_payload].
  rewrite bool_decide_eq_true_2 by done. by rewrite lookup_insert_eq.
Qed.

(** X24. Who passes the admin gate.  The type a user registers with is
    taken from the request as sent, so the token a registration answers
    with opens GET /api/users exactly when the request said
    [userType: "Admin"]: within the hour the route then lists every user,
    and DELETE /api/users/:id answers 200 for any id; any other
    registration is answered 403 by both. *)
Theorem admin_gate_opens_for_self_declared_admin
    (bcrypt_hash : string → string) (body : RegisterBody.t) (s : Store)
    (status : nat) (message : option string) (token : Jwt) (user : PublicUser)
    (r : Run) (later : Store) (target : ObjectId) :
  run (register bcrypt_hash body) s
  = (inr {| res_status := status; res_body := JsonAuth message token user |}, r) →
  (clock later < clock s + 3600)%Z →
  run (route_get_users (Some token)) later
  = (inr (if bool_decide (RegisterBody.userType body = Some "Admin")
          then ok (Profiles (profile <$> users later)) else admins_only),
     quiet later)
  ∧ (run (route_delete_user (Some token) target) later).1
    = inr (if bool_decide (RegisterBody.userType body = Some "Admin")
           then ok (Plain (JsonMessage "User deleted successfully"))
           else admins_only).
Proof.
  intros (n & m & p & ph & _ & _ & _ & _ & _ & H)%register_created Hclock.
  cbv zeta in H. destruct H as (_ & -> & _).
  unfold route_get_users, route_delete_user, auth_as, run, run_with.
  cbn [store]. rewrite !jwt_verify_signed, !bool_decide_eq_true_2 by done.
  unfold get_users, delete_user, not_admin, jwt_sign, token_payload.
  cbn [jwt_payload User.userType].
  rewrite !lookup_insert_ne by done. rewrite !lookup_insert_eq.
  destruct (RegisterBody.userType body) as [t|]; cbn [default from_option];
    unfold id.
  - destruct (decide (t = "Admin")) as [->|Hne].
    + rewrite !bool_decide_eq_true_2 by done. by unfold_handler.
    + rewrite !bool_decide_eq_false_2 by congruence. by unfold_handler.
  - rewrite (bool_decide_eq_false_2 (Some (JStr "Customer") = _)) by done.
    rewrite (bool_decide_eq_false_2 (None = _)) by done. by unfold_handler.
Qed.

Lemma admin_gate_opens_for_self_declared_admin_witness :
  let s := store (run (register Sample.plain_hash Demo.root)
                      Sample.chat_registered).2 in
  ∃ token,
    run (route_get_users (Some token)) s
    = (inr (ok (Profiles (profile <$> users s))), quiet s).
Proof.
  intros s. eexists.
  refine (proj1 (admin_gate_opens_for_self_declared_admin
                   Sample.plain_hash Demo.root Sample.chat_registered
                   201 _ _ _ _ s 0%N _ _)).
  - reflexivity.
  - vm_compute. reflexivity.
Defined.

(** ** Deleting a user, updating a profile *)

(** X25. Deleting a user, for an admin, on a store where user ids are
    unique.  The answer is 200 "User deleted successfully" whether or not
    the id names a user; afterwards no user has the id, every other user is
    as before, and no complaint, assignment, message or feedback is
    removed: what referenced the user now references nothing.  A caller
    who is not an admin is answered 403 and nothing changes. *)
Theorem delete_user_does_not_cascade
    (target : ObjectId) (user : gmap string JsVal) (s : Store) :
  NoDup (User._id <$> users s) →
  let out := run (delete_user target user) s in
  if not_admin user then out = (inr admins_only, quiet s)
  else
    out.1 = inr (ok (Plain (JsonMessage "User deleted successfully")))
    ∧ log out.2 = []
    ∧ User_findById target (store out.2) = None
    ∧ (∀ other, other ≠ target →
         User_findById other (store out.2) = User_findById other s)
    ∧ (User_findById target s = None → store out.2 = s)
    ∧ complaints (store out.2) = complaints s
    ∧ assigneds (store out.2) = assigneds s
    ∧ messages (store out.2) = messages s
    ∧ feedbacks (store out.2) = feedbacks s.
Proof.
  intros Hids out. subst out. unfold delete_user.
  destruct (not_admin user); [done|]. unfold User_findByIdAndDelete.
  unfold_handler. cbn [fst snd store env log next_store app]. cbv zeta.
  cbn [with_users users complaints assigneds messages feedbacks].
  repeat split.
  - unfold User_findById. cbn [with_users users].
    by apply (find_delete_one_eq User._id).
  - intros other Hne. unfold User_findById. cbn [with_users users].
    by apply (find_delete_one_ne User._id).
  - intros Hnone. unfold with_users.
    rewrite (delete_one_absent User._id) by done. by destruct s.
Qed.

Lemma delete_user_does_not_cascade_witness :
  let out := run (delete_user 302 (<["userType" := JStr "Admin"]> ∅))
                 Sample.chat_registered in
  out.1 = inr (ok (Plain (JsonMessage "User deleted successfully")))
  ∧ User_findById 302 (store out.2) = None
  ∧ messages (store out.2) = messages Sample.chat_registered.
Proof.
  assert (NoDup (User._id <$> users Sample.chat_registered)) as Hids.
  { refine (bool_decide_unpack _ _). vm_compute. exact I. }
  pose proof (delete_user_does_not_cascade
                302 (<["userType" := JStr "Admin"]> ∅)
                Sample.chat_registered Hids) as H.
  cbv zeta in H. cbv zeta. change (not_admin _) with false in H.
  destruct H as (H1 & _ & H2 & _ & _ & _ & _ & H3 & _).
  split; [exact H1|]. split; [exact H2 | exact H3].
Defined.

Lemma User_findByIdAndUpdate_free id body s u :
  User_findById id s = Some u →
  (∀ v, v ∈ users s → User._id v ≠ id →
        Some (User.email v) ≠ truthy (ProfileBody.email body)) →
  User_findByIdAndUpdate id body s
  = (inr (Some (set_profile body u)),
     with_users (update_one (λ v, bool_decide (User._id v = id))
                            (set_profile body) (users s)) s,
     []).
Proof.
  intros Hu Hfree. unfold User_findByIdAndUpdate. rewrite Hu. cbv zeta.
  destruct (negb _ && existsb _ _) eqn:Hex; [|done]. exfalso.
  apply andb_prop in Hex as [Hchanged%negb_true_iff%bool_decide_eq_false Hex].
  apply existsb_exists in Hex as (v & Hv%list_elem_of_In & Hp).
  apply andb_prop in Hp as [Hne%negb_true_iff%bool_decide_eq_false
                            Heq%bool_decide_eq_true].
  unfold set_profile in Heq, Hchanged. cbn [User.email] in Heq, Hchanged.
  destruct (truthy (ProfileBody.email body)) as [e|] eqn:He;
    simpl in Heq, Hchanged; [|done].
  apply (Hfree v Hv Hne). by rewrite Heq.
Qed.

Lemma User_findByIdAndUpdate_taken id body s u v e :
  User_findById id s = Some u →
  truthy (ProfileBody.email body) = Some e → User.email u ≠ e →
  v ∈ users s → User._id v ≠ id → User.email v = e →
  User_findByIdAndUpdate id body s = (inl (DuplicateKey "users" "email_1"), s, []).
Proof.
  intros Hu He Hchanged Hv Hne Heq. unfold User_findByIdAndUpdate.
  rewrite Hu. cbv zeta.
  assert (User.email (set_profile body u) = e) as Hnew.
  { unfold set_profile. cbn [User.email]. by rewrite He. }
  rewrite Hnew. rewrite (bool_decide_eq_false_2 (e = _)) by done.
  cbn [negb andb].
  assert (existsb (λ v, negb (bool_decide (User._id v = id))
                        && bool_decide (User.email v = e)) (users s) = true)
    as ->; [|done].
  apply (proj2 (existsb_exists _ _)). exists v.
  split; [by apply list_elem_of_In|].
  rewrite bool_decide_eq_false_2 by done. by rewrite bool_decide_eq_true_2.
Qed.

(** X26. Updating a profile.  For a stored user, when no other user has
    the address the body asks for, the answer is 200 with the profile in
    which exactly the non-empty fields of the body replaced the old ones
    (an empty string changes nothing); GET /api/users/profile then answers
    the same document; the stored password and user type are as before and
    every other user is untouched.  When the body asks for a new address
    that another user has, the answer is 500 and nothing changes. *)
Theorem profile_update_reads_back
    (target : ObjectId) (body : ProfileBody.t) (s : Store) (u : User.t) :
  User_findById target s = Some u →
  let out := run (put_profile target body) s in
  ((∀ v, v ∈ users s → User._id v ≠ target →
         Some (User.email v) ≠ truthy (ProfileBody.email body)) →
   let updated :=
     {| Profile._id := User._id u;
        Profile.name := default (User.name u) (truthy (ProfileBody.name body));
        Profile.email := default (User.email u) (truthy (ProfileBody.email body));
        Profile.phone := default (User.phone u) (truthy (ProfileBody.phone body));
        Profile.userType := User.userType u;
        Profile.createdAt := User.createdAt u |} in
   out.1 = inr (ok (ProfileDoc updated))
   ∧ run (get_profile target) (store out.2)
     = (inr (ok (ProfileDoc updated)), quiet (store out.2))
   ∧ User.password <$> User_findById target (store out.2)
     = Some (User.password u)
   ∧ ∀ other, other ≠ target →
       User_findById other (store out.2) = User_findById other s)
  ∧ (∀ v e, truthy (ProfileBody.email body) = Some e → User.email u ≠ e →
            v ∈ users s → User._id v ≠ target → User.email v = e →
            out = (inr (plain (server_error (DuplicateKey "users" "email_1"))),
                   quiet s)).
Proof.
  intros Hu out. subst out. unfold put_profile. split.
  - intros Hfree. cbv zeta. unfold_handler. cbn [next_store store env].
    rewrite (User_findByIdAndUpdate_free _ _ _ u) by done.
    cbn [fst snd store].
    assert (User_findById target
              (with_users (update_one (λ v, bool_decide (User._id v = target))
                                      (set_profile body) (users s)) s)
            = Some (set_profile body u)) as Hback.
    { unfold User_findById in *. cbn [with_users users].
      rewrite (find_update_one_eq User._id) by done. by rewrite Hu. }
    split; [done|]. split; [|split].
    + unfold get_profile. unfold_handler. cbn [next_store store env].
      by rewrite Hback.
    + by rewrite Hback.
    + intros other Hne. unfold User_findById. cbn [with_users users].
      by rewrite (find_update_one_ne User._id).
  - intros v e He Hchanged Hv Hne Heq. unfold_handler.
    cbn [next_store store env].
    by rewrite (User_findByIdAndUpdate_taken _ _ _ u v e).
Qed.

Lemma profile_update_reads_back_witness :
  let body := {| ProfileBody.name := Some "";
                 ProfileBody.email := Some "alice@example.com";
                 ProfileBody.phone := None |} in
  ∃ p, (run (put_profile 302 body) Sample.chat_registered).1
       = inr (ok (ProfileDoc p))
       ∧ Profile.name p = "alice" ∧ Profile.email p = "alice@example.com".
Proof.
  intros body.
  pose proof (profile_update_reads_back 302 body Sample.chat_registered _ eq_refl)
    as H.
  cbv zeta in H. destruct H as [H _].
  eexists. split; [apply H|done].
  apply (proj1 (list.Forall_forall
                  (λ v, User._id v ≠ 302%N
                        → Some (User.email v) ≠ truthy (ProfileBody.email body))
                  (users Sample.chat_registered))).
  apply Forall_cons; [|apply Forall_nil]. intros Hne. by destruct Hne.
Defined.

(** ** Listings *)

Lemma find_unique {A} (key : A → N) (l : list A) (x : A) :
  NoDup (key <$> l) → x ∈ l →
  List.find (λ y, bool_decide (key y = key x)) l = Some x.
Proof.
  induction l as [|y l IH]; [by intros _ ?%elem_of_nil|].
  rewrite fmap_cons. intros [Hy Hl]%list.NoDup_cons [->|Hx]%list.elem_of_cons.
  - simpl. by rewrite bool_decide_eq_true_2.
  - simpl. rewrite bool_decide_eq_false_2; [by apply IH|].
    intros Heq. apply Hy. rewrite Heq. by apply list_elem_of_fmap_2.
Qed.

(** X27. The agents listing agrees with each agent's own listing.  The
    [activeAssignments] that GET /api/auth/agents shows for an agent is the
    number of entries of GET /api/assigned/agent/:agentId for that agent
    whose complaint is present and not resolved; entries with a resolved
    or a missing complaint are listed there but not counted. *)
Theorem agents_listing_agrees_with_agent_listing (s : Store) :
  ∃ agents,
    run get_agents s
    = (inr {| res_status := 200; res_body := JsonAgents agents |}, quiet s)
    ∧ ∀ e, e ∈ agents →
        ∃ views,
          run (get_assigned_agent (Agent._id e)) s
          = (inr (ok (AssignedViews views)), quiet s)
          ∧ Agent.activeAssignments e = length (List.filter still_open views)
          ∧ AssignedView.assigned <$> views
            = filter (λ a, Assigned.agentId a = Agent._id e) (assigneds s).
Proof.
  eexists. split; [apply run_get_agents|].
  intros e (u & -> & Hu)%list_elem_of_fmap.
  cbn [agent_with_count Agent._id Agent.activeAssignments].
  exists (Assigned_find_populate_user (User._id u) s).
  split; [reflexivity|].
  unfold agent_active_count, Assigned_find_populate, Assigned_find_populate_user,
    activeCount.
  split.
  - induction (filter _ (assigneds s)) as [|a l IH]; [done|].
    rewrite !fmap_cons. cbn [List.filter]. unfold is_active at 1, still_open at 1.
    cbn [snd AssignedView.complaintId].
    destruct (Complaint_findById (Assigned.complaintId a) s) as [c|];
      cbn [fmap option_fmap option_map]; [|done].
    destruct (negb _); [|done]. cbn [length]. by rewrite IH.
  - rewrite <- list_fmap_compose. by rewrite <- (list_fmap_id (filter _ _)) at 2.
Qed.

(** X28. The complaints listing agrees with the detail route.  On a store
    where complaint ids are unique, GET /api/complaints answers one entry
    per stored complaint, in order, and each entry is the very document
    that GET /api/complaints/:id answers for its id. *)
Theorem complaint_listing_agrees_with_detail (s : Store) :
  unique_complaint_ids s →
  ∃ views,
    run get_complaints s = (inr (ok (ComplaintViews views)), quiet s)
    ∧ ComplaintView.complaint <$> views = complaints s
    ∧ ∀ v, v ∈ views →
        run (get_complaint (Complaint._id (ComplaintView.complaint v))) s
        = (inr (ok (ComplaintViewDoc v)), quiet s).
Proof.
  intros Hids. exists (populate_complaint s <$> complaints s).
  split; [reflexivity|]. split.
  - rewrite <- list_fmap_compose. by rewrite <- (list_fmap_id (complaints s)) at 2.
  - intros v (c & -> & Hc)%list_elem_of_fmap. cbn [populate_complaint ComplaintView.complaint].
    unfold get_complaint. unfold_handler. cbn [next_store store env].
    unfold Complaint_findById. by rewrite (find_unique Complaint._id).
Qed.

Lemma complaint_listing_agrees_with_detail_witness :
  ∃ views,
    run get_complaints Demo.three_and_one
    = (inr (ok (ComplaintViews views)), quiet Demo.three_and_one)
    ∧ length views = 4.
Proof.
  destruct (complaint_listing_agrees_with_detail Demo.three_and_one)
    as (views & Hrun & Hlen & _).
  - unfold unique_complaint_ids. refine (bool_decide_unpack _ _).
    vm_compute. exact I.
  - exists views. split; [done|].
    by rewrite <- (length_fmap ComplaintView.complaint), Hlen.
Defined.

(** X29. Which agent sees a feedback.  After a successful create-feedback,
    GET /api/feedback/agent/:agentId lists the new feedback, last and with
    its author's name, for the agent the complaint is assigned to at that
    moment and for no one else: feedback on a complaint without an
    assignment reaches no agent's listing. *)
Theorem feedback_reaches_the_assigned_agent
    (s : Store) (body : FeedbackBody.t) (user : gmap string JsVal)
    (resp : Response) (r : Run) (agent : ObjectId) :
  run (post_feedback body user) s = (inr resp, r) →
  res_status resp = 201 →
  ∃ f, res_body resp = JsonFeedback f
       ∧ run (get_feedback_agent agent) (store r)
         = (inr (ok (FeedbackViews
                       (Feedback_find_populate agent s
                        ++ if bool_decide
                                (Assigned.agentId
                                   <$> Assigned_findOne (FeedbackBody.complaintId body) s
                                 = Some agent)
                           then [{| FeedbackView.feedback := f;
                                    FeedbackView.userId :=
                                      (λ u, (User._id u, User.name u))
                                        <$> User_findById (Feedback.userId f) s |}]
                           else []))),
            quiet (store r)).
Proof.
  intros Hrun Hok. rewrite run_post_feedback in Hrun.
  destruct (Feedback_save _ _ _ _ _ s) as [[[e|f] s1] effs] eqn:Hsave;
    injection Hrun as <- <-; [discriminate|].
  exists f. split; [done|].
  assert (s1 = insert_feedback f s
          ∧ Feedback.agentId f
            = Assigned.agentId <$> Assigned_findOne (FeedbackBody.complaintId body) s)
    as [-> Hf].
  { unfold Feedback_save in Hsave.
    destruct (user_id user), (FeedbackBody.rating body) as [q|]; try done.
    destruct (rating_valid (Some q)); [|done]. by injection Hsave as <- <-. }
  unfold get_feedback_agent. unfold_handler. cbn [next_store store env quiet].
  rewrite <- Hf. do 3 f_equal.
  unfold Feedback_find_populate. cbn [insert_feedback feedbacks].
  rewrite list.filter_app, fmap_app. f_equal.
  rewrite list.filter_cons, filter_nil.
  destruct (decide (Feedback.agentId f = Some agent)) as [Heq|Hne].
  - by rewrite bool_decide_eq_true_2.
  - by rewrite bool_decide_eq_false_2.
Qed.

Lemma feedback_reaches_the_assigned_agent_witness :
  let out := run (post_feedback (Sample.feedback (Qc_of_Z 4)) Sample.alice_decoded)
                 Sample.chat_registered in
  ∃ views,
    run (get_feedback_agent 7) (store out.2)
    = (inr (ok (FeedbackViews views)), quiet (store out.2))
    ∧ FeedbackView.userId <$> views = [Some (302%N, "alice")].
Proof.
  cbv zeta.
  edestruct (feedback_reaches_the_assigned_agent
               Sample.chat_registered (Sample.feedback (Qc_of_Z 4))
               Sample.alice_decoded) as (f & Hf & Hrun); [reflexivity..|].
  injection Hf as <-. eexists. split; [apply Hrun|]. reflexivity.
Defined.

Lemma User_findById_after_insert u s :
  (∀ v, v ∈ users s → (User._id v < next_oid s)%N) →
  User._id u = next_oid s →
  User_findById (User._id u) (insert_user u s) = Some u.
Proof.
  unfold User_findById. cbn [insert_user users]. intros Hbound Hu.
  induction (users s) as [|x l IH]; simpl.
  - by rewrite bool_decide_eq_true_2.
  - rewrite bool_decide_eq_false_2.
    + apply IH. intros v Hv. apply Hbound. by apply list_elem_of_further.
    + pose proof (Hbound x (list_elem_of_here _ _)). lia.
Qed.

(** X30. The assignment listing carries the agent's password hash.  Once a
    user has registered and an assignment to that user was created,
    GET /api/assigned answers one entry per stored assignment, and the
    entry of the new assignment holds the agent's whole user document:
    its password field is the bcrypt hash of the password registered
    with.  (The profile and user listings leave the field out.) *)
Theorem assignment_listing_carries_password_hash
    (bcrypt_hash : string → string) (s : Store) (registration : RegisterBody.t)
    (status : nat) (message : option string) (token : Jwt) (user : PublicUser)
    (r : Run) (password : string) (body : AssignedBody.t)
    (resp : Response) (r' : Run) :
  users_wf s →
  run (register bcrypt_hash registration) s
  = (inr {| res_status := status; res_body := JsonAuth message token user |}, r) →
  RegisterBody.password registration = Some password →
  AssignedBody.agentId body = pu_id user →
  run (post_assigned body) (store r) = (inr resp, r') →
  res_status resp = 201 →
  ∃ views,
    run get_assigned (store r')
    = (inr (ok (AssignedFulls views)), quiet (store r'))
    ∧ AssignedFull.assigned <$> views = assigneds (store r')
    ∧ ∃ e, e ∈ views
           ∧ Assigned.complaintId (AssignedFull.assigned e)
             = AssignedBody.complaintId body
           ∧ User.password <$> AssignedFull.agentId e
             = Some (bcrypt_hash password).
Proof.
  intros (_ & _ & Hbound) (n & m & p & ph & _ & _ & Hp & _ & _ & H)%register_created.
  cbv zeta in H. destruct H as (-> & _ & -> & _).
  rewrite Hp. intros [= <-] Hagent Hrun Hok. cbn [store quiet] in Hrun.
  cbn [public_user pu_id User._id] in Hagent.
  destruct (post_assigned_cases
              (insert_user
                 {| User._id := next_oid s; User.name := n; User.email := m;
                    User.password := bcrypt_hash p; User.phone := ph;
                    User.userType := default "Customer"
                                       (RegisterBody.userType registration);
                    User.createdAt := clock s |} s) body)
    as [[_ H]|[(_ & _ & H)|[(_ & _ & _ & H)|(a & _ & _ & _ & _ & H)]]];
    cbv zeta in H; rewrite H in Hrun; injection Hrun as <- <-;
    try discriminate Hok.
  exists (Assigned_find_populate_all
            (set_complaint_status (AssignedBody.complaintId body) "Assigned"
               (insert_assigned
                  (new_Assigned (AssignedBody.complaintId body)
                     (AssignedBody.agentId body) a
                     (insert_user
                        {| User._id := next_oid s; User.name := n;
                           User.email := m; User.password := bcrypt_hash p;
                           User.phone := ph;
                           User.userType :=
                             default "Customer"
                                     (RegisterBody.userType registration);
                           User.createdAt := clock s |} s))
                  (insert_user
                     {| User._id := next_oid s; User.name := n;
                        User.email := m; User.password := bcrypt_hash p;
                        User.phone := ph;
                        User.userType :=
                          default "Customer"
                                  (RegisterBody.userType registration);
                        User.createdAt := clock s |} s)))).
  cbn [store]. split; [reflexivity|]. split.
  { unfold Assigned_find_populate_all. rewrite <- list_fmap_compose.
    by rewrite <- (list_fmap_id (assigneds _)) at 2. }
  eexists. split.
  - unfold Assigned_find_populate_all. apply list_elem_of_fmap_2.
    cbn [set_complaint_status with_complaints insert_assigned assigneds].
    apply elem_of_app. right. apply list_elem_of_here.
  - cbn [AssignedFull.assigned AssignedFull.agentId new_Assigned
         Assigned.complaintId Assigned.agentId].
    split; [done|]. rewrite Hagent.
    pose proof (User_findById_after_insert
                  {| User._id := next_oid s; User.name := n; User.email := m;
                     User.password := bcrypt_hash p; User.phone := ph;
                     User.userType := default "Customer"
                                        (RegisterBody.userType registration);
                     User.createdAt := clock s |} s Hbound eq_refl) as Hfind.
    unfold User_findById in *.
    cbn [set_complaint_status with_complaints insert_assigned insert_user
         users User._id] in *.
    by rewrite Hfind.
Qed.

Lemma assignment_listing_carries_password_hash_witness :
  let s := store (run (post_assigned (Sample.body 11 302))
                      Sample.chat_registered).2 in
  ∃ views e,
    run get_assigned s = (inr (ok (AssignedFulls views)), quiet s)
    ∧ e ∈ views
    ∧ User.password <$> AssignedFull.agentId e = Some "secret".
Proof.
  intros s.
  edestruct (assignment_listing_carries_password_hash
               Sample.plain_hash Sample.chat Sample.alice 201
               (Some "User registered successfully") Sample.alice_token
               {| pu_id := 302; pu_name := "alice"; pu_userType := "Customer" |}
               (quiet Sample.chat_registered) "secret" (Sample.body 11 302))
    as (views & Hrun & _ & e & He & _ & Hpw);
    [|reflexivity|reflexivity|reflexivity|reflexivity|reflexivity|].
  - split; [|split].
    + apply NoDup_nil_2.
    + apply NoDup_nil_2.
    + by intros u ?%elem_of_nil.
  - exists views, e. split; [exact Hrun|]. split; [exact He | exact Hpw].
Defined.
